(** * VGIK router core: service manager and event bus

    A shallow embedding of [core/base/service_manager/service_manager.c] and
    [core/base/events/events.c], together with the properties of the
    lifecycle supervisor and of the priority event queue.

    Conventions of the embedding.
    - C integers are [Z]; where the C type can wrap ([uint32_t] counter,
      [uint64_t] time difference) the reduction modulo [2^w] is written out.
    - A [const char *] is an [option string]: [None] is the NULL pointer.
    - A function pointer is an [option] of a function on the external world;
      [None] is the NULL pointer.
    - The registry array with its [service_count] is the list of its first
      [service_count] slots; a pointer to one of its slots is an index.
    - Everything outside the two modules (the service callbacks, the event
      handlers, the clock, the allocator) acts on an abstract [World];
      callbacks and handlers do not call back into the manager or the bus.
    - The lines written to [stderr] by the bus are part of its trace.
    - Every write to a [state] field and every callback invocation is
      appended to a trace, so that orders of invocation can be stated. *)

From Stdlib Require Import ZArith Lia Bool Sorted.
From stdpp Require Import base tactics option list strings numbers.

(** ** Service manager *)

Module ServiceManager.

#[local] Open Scope Z_scope.

Inductive vgik_service_state_t : Set :=
  | VGIK_SERVICE_STATE_STOPPED
  | VGIK_SERVICE_STATE_STARTING
  | VGIK_SERVICE_STATE_RUNNING
  | VGIK_SERVICE_STATE_STOPPING
  | VGIK_SERVICE_STATE_FAILED
  | VGIK_SERVICE_STATE_RESTARTING.

#[global] Instance vgik_service_state_eq_dec : EqDecision vgik_service_state_t.
Proof. solve_decision. Defined.

(** What an observer of the manager sees, in the order it happens. *)
Inductive obs : Type :=
  | ObsState (name : option string) (s : vgik_service_state_t)
  | ObsStartCb (name : option string) (ret : Z)
  | ObsStopCb (name : option string) (ret : Z)
  | ObsHealthCb (name : option string) (healthy : bool).

Definition VGIK_SERVICE_MAX_SERVICES : Z := 64.

Definition uint32_wrap (z : Z) : Z := z mod 2 ^ 32.
Definition uint64_wrap (z : Z) : Z := z mod 2 ^ 64.

Section Manager.

Variable World : Type.

(** [get_timestamp_ms]: the wall clock, in milliseconds, read from the world. *)
Variable get_timestamp_ms : World -> Z.

(** The callback types: a callback receives [user_data] and returns an
    [int] (start, stop) or a [bool] (health); it may change the world. *)
Definition vgik_service_start_cb_t : Type := Z -> World -> Z * World.
Definition vgik_service_stop_cb_t : Type := Z -> World -> Z * World.
Definition vgik_service_health_cb_t : Type := Z -> World -> bool * World.

(** [dependencies] with [dependencies_count] is an optional list: [None] is
    the NULL array, and each entry may itself be a NULL name. *)
Record vgik_service_t : Type := mk_service {
  name : option string;
  start_cb : option vgik_service_start_cb_t;
  stop_cb : option vgik_service_stop_cb_t;
  health_cb : option vgik_service_health_cb_t;
  user_data : Z;
  dependencies : option (list (option string));
  auto_restart : bool;
  restart_delay_ms : Z;
  max_restart_attempts : Z;
  restart_count : Z;
  state : vgik_service_state_t;
  start_time : Z;
  last_restart_time : Z
}.

Definition set_state (v : vgik_service_state_t) (s : vgik_service_t) : vgik_service_t :=
  mk_service (name s) (start_cb s) (stop_cb s) (health_cb s) (user_data s)
    (dependencies s) (auto_restart s) (restart_delay_ms s)
    (max_restart_attempts s) (restart_count s) v (start_time s)
    (last_restart_time s).

Definition set_start_time (t : Z) (s : vgik_service_t) : vgik_service_t :=
  mk_service (name s) (start_cb s) (stop_cb s) (health_cb s) (user_data s)
    (dependencies s) (auto_restart s) (restart_delay_ms s)
    (max_restart_attempts s) (restart_count s) (state s) t
    (last_restart_time s).

Definition set_last_restart_time (t : Z) (s : vgik_service_t) : vgik_service_t :=
  mk_service (name s) (start_cb s) (stop_cb s) (health_cb s) (user_data s)
    (dependencies s) (auto_restart s) (restart_delay_ms s)
    (max_restart_attempts s) (restart_count s) (state s) (start_time s) t.

Definition set_restart_count (c : Z) (s : vgik_service_t) : vgik_service_t :=
  mk_service (name s) (start_cb s) (stop_cb s) (health_cb s) (user_data s)
    (dependencies s) (auto_restart s) (restart_delay_ms s)
    (max_restart_attempts s) c (state s) (start_time s)
    (last_restart_time s).

(** [g_service_manager], the world it runs in, and the trace so far. *)
Record sm : Type := mk_sm {
  initialized : bool;
  services : list vgik_service_t;
  world : World;
  trace : list obs
}.

Definition service_count (st : sm) : Z := Z.of_nat (length (services st)).

Definition with_services (l : list vgik_service_t) (st : sm) : sm :=
  mk_sm (initialized st) l (world st) (trace st).

Definition with_world (w : World) (st : sm) : sm :=
  mk_sm (initialized st) (services st) w (trace st).

Definition with_initialized (b : bool) (st : sm) : sm :=
  mk_sm b (services st) (world st) (trace st).

Definition emit (o : obs) (st : sm) : sm :=
  mk_sm (initialized st) (services st) (world st) (trace st ++ [o]).

(** [services[i].f = v] through a pointer to slot [i]. *)
Definition modify (i : nat) (f : vgik_service_t -> vgik_service_t) (st : sm) : sm :=
  with_services (alter f i (services st)) st.

Definition name_of (i : nat) (st : sm) : option string :=
  s ← services st !! i; name s.

(** [service->state = v]. *)
Definition write_state (i : nat) (v : vgik_service_state_t) (st : sm) : sm :=
  emit (ObsState (name_of i st) v) (modify i (set_state v) st).

(** [services[i].name && strcmp(services[i].name, name) == 0] *)
Definition name_is (n : string) (s : vgik_service_t) : bool :=
  match name s with
  | Some m => bool_decide (m = n)
  | None => false
  end.

Fixpoint find_from (n : string) (l : list vgik_service_t) (i : nat) : option nat :=
  match l with
  | [] => None
  | s :: rest => if name_is n s then Some i else find_from n rest (S i)
  end.

(** [find_service]: index of the first slot with that name. *)
Definition find_service (nm : option string) (st : sm) : option nat :=
  match nm with
  | None => None
  | Some n => find_from n (services st) 0%nat
  end.

(** [check_dependencies]: every dependency is registered and RUNNING. *)
Definition dependency_running (st : sm) (dep_name : option string) : bool :=
  match find_service dep_name st with
  | None => false
  | Some d =>
      match services st !! d with
      | Some dep => bool_decide (state dep = VGIK_SERVICE_STATE_RUNNING)
      | None => false
      end
  end.

Definition check_dependencies (st : sm) (s : vgik_service_t) : bool :=
  match dependencies s with
  | None => true
  | Some deps => forallb (dependency_running st) deps
  end.

(** [start_dependencies], open in the function that starts one service:
    the dependencies are started in the listed order and the first failure
    is returned at once. *)
Fixpoint start_each (start : option string -> sm -> option (Z * sm))
    (deps : list (option string)) (st : sm) : option (Z * sm) :=
  match deps with
  | [] => Some (0, st)
  | dep_name :: rest =>
      match start dep_name st with
      | None => None
      | Some (ret, st1) =>
          if bool_decide (ret ≠ 0) then Some (ret, st1)
          else start_each start rest st1
      end
  end.

Definition start_dependencies (start : option string -> sm -> option (Z * sm))
    (s : vgik_service_t) (st : sm) : option (Z * sm) :=
  match dependencies s with
  | None => Some (0, st)
  | Some deps => start_each start deps st
  end.

(** The part of [vgik_service_start] after the dependencies: mark STARTING,
    run the start callback if there is one, then RUNNING with a time stamp. *)
Definition launch (i : nat) (st : sm) : Z * sm :=
  let st1 := write_state i VGIK_SERVICE_STATE_STARTING st in
  match services st1 !! i with
  | None => (0, st1)
  | Some s =>
      let after_cb :=
        match start_cb s with
        | Some cb =>
            let '(ret, w) := cb (user_data s) (world st1) in
            (ret, emit (ObsStartCb (name s) ret) (with_world w st1))
        | None => (0, st1)
        end in
      let '(ret, st2) := after_cb in
      if bool_decide (ret ≠ 0) then
        (ret, write_state i VGIK_SERVICE_STATE_FAILED st2)
      else
        let st3 := write_state i VGIK_SERVICE_STATE_RUNNING st2 in
        (0, modify i (set_start_time (get_timestamp_ms (world st3))) st3)
  end.

(** [vgik_service_start]. The recursion through the dependencies has no
    cycle check in the source, so the embedding takes fuel: one unit per
    nested call, [None] when it runs out. *)
Fixpoint vgik_service_start (fuel : nat) (nm : option string) (st : sm)
    : option (Z * sm) :=
  match fuel with
  | O => None
  | S fuel' =>
      match find_service nm st with
      | None => Some (-1, st)
      | Some i =>
          match services st !! i with
          | None => Some (-1, st)
          | Some s =>
              if bool_decide (state s = VGIK_SERVICE_STATE_RUNNING)
                 || bool_decide (state s = VGIK_SERVICE_STATE_STARTING)
              then Some (0, st)
              else
                let deps_started :=
                  if check_dependencies st s then Some (0, st)
                  else start_dependencies (vgik_service_start fuel') s st in
                match deps_started with
                | None => None
                | Some (ret, st1) =>
                    if bool_decide (ret ≠ 0) then
                      Some (-1, write_state i VGIK_SERVICE_STATE_FAILED st1)
                    else Some (launch i st1)
                end
          end
      end
  end.

(** [vgik_service_stop]. *)
Definition vgik_service_stop (nm : option string) (st : sm) : Z * sm :=
  match find_service nm st with
  | None => (-1, st)
  | Some i =>
      match services st !! i with
      | None => (-1, st)
      | Some s =>
          if bool_decide (state s = VGIK_SERVICE_STATE_STOPPED)
             || bool_decide (state s = VGIK_SERVICE_STATE_STOPPING)
          then (0, st)
          else
            let st1 := write_state i VGIK_SERVICE_STATE_STOPPING st in
            let '(ret, st2) :=
              match stop_cb s with
              | Some cb =>
                  let '(ret, w) := cb (user_data s) (world st1) in
                  (ret, emit (ObsStopCb (name s) ret) (with_world w st1))
              | None => (0, st1)
              end in
            if bool_decide (ret ≠ 0) then
              (ret, write_state i VGIK_SERVICE_STATE_FAILED st2)
            else
              (0, modify i (set_start_time 0)
                    (write_state i VGIK_SERVICE_STATE_STOPPED st2))
      end
  end.

(** [vgik_service_restart]: stop, and only if that succeeded, start. *)
Definition vgik_service_restart (fuel : nat) (nm : option string) (st : sm)
    : option (Z * sm) :=
  let '(ret, st1) := vgik_service_stop nm st in
  if bool_decide (ret ≠ 0) then Some (ret, st1)
  else vgik_service_start fuel nm st1.

(** [vgik_service_manager_init]: the slots are cleared, the count is kept. *)
Definition vgik_service_manager_init (st : sm) : Z * sm :=
  if initialized st then (0, st) else (0, with_initialized true st).

(** The copy that [vgik_service_register] stores: the descriptor with
    [state = STOPPED], [start_time = 0], [last_restart_time = 0] and
    [restart_count = 0]. *)
Definition registered (d : vgik_service_t) : vgik_service_t :=
  set_restart_count 0
    (set_last_restart_time 0
       (set_start_time 0 (set_state VGIK_SERVICE_STATE_STOPPED d))).

(** [vgik_service_register]. [None] is a NULL descriptor. *)
Definition vgik_service_register (service : option vgik_service_t) (st : sm)
    : Z * sm :=
  match service with
  | None => (-1, st)
  | Some d =>
      if negb (initialized st) || negb (bool_decide (is_Some (name d)))
      then (-1, st)
      else if bool_decide (is_Some (find_service (name d) st)) then (-1, st)
      else if bool_decide (service_count st >= VGIK_SERVICE_MAX_SERVICES)
      then (-1, st)
      else
        let new_service := registered d in
        (0, emit (ObsState (name d) VGIK_SERVICE_STATE_STOPPED)
              (with_services (services st ++ [new_service]) st))
  end.

(** [vgik_service_unregister]: the first slot with that name is stopped if
    it is RUNNING, then the slots after it are shifted down by one. *)
Definition vgik_service_unregister (nm : option string) (st : sm) : Z * sm :=
  match nm with
  | None => (-1, st)
  | Some n =>
      match find_from n (services st) 0%nat with
      | None => (-1, st)
      | Some i =>
          let running :=
            match services st !! i with
            | Some s => bool_decide (state s = VGIK_SERVICE_STATE_RUNNING)
            | None => false
            end in
          let st1 := if running then snd (vgik_service_stop nm st) else st in
          (0, with_services (delete i (services st1)) st1)
      end
  end.

(** [vgik_service_get_state]. *)
Definition vgik_service_get_state (nm : option string) (st : sm)
    : vgik_service_state_t :=
  match find_service nm st with
  | None => VGIK_SERVICE_STATE_FAILED
  | Some i =>
      match services st !! i with
      | Some s => state s
      | None => VGIK_SERVICE_STATE_FAILED
      end
  end.

(** [vgik_service_is_healthy]. *)
Definition vgik_service_is_healthy (nm : option string) (st : sm) : bool * sm :=
  match find_service nm st with
  | None => (false, st)
  | Some i =>
      match services st !! i with
      | None => (false, st)
      | Some s =>
          if bool_decide (state s ≠ VGIK_SERVICE_STATE_RUNNING) then (false, st)
          else
            match health_cb s with
            | Some cb =>
                let '(ok, w) := cb (user_data s) (world st) in
                (ok, emit (ObsHealthCb (name s) ok) (with_world w st))
            | None => (true, st)
            end
      end
  end.

(** The loops of [vgik_service_start_all] and [vgik_service_stop_all] run
    over the slot numbers and read the name of slot [i] when they reach it. *)
Fixpoint start_all_from (fuel : nat) (idx : list nat) (started : Z) (st : sm)
    : option (Z * sm) :=
  match idx with
  | [] => Some (started, st)
  | i :: rest =>
      match vgik_service_start fuel (name_of i st) st with
      | None => None
      | Some (ret, st1) =>
          start_all_from fuel rest
            (if bool_decide (ret = 0) then started + 1 else started) st1
      end
  end.

Definition vgik_service_start_all (fuel : nat) (st : sm) : option (Z * sm) :=
  start_all_from fuel (seq 0 (length (services st))) 0 st.

Fixpoint stop_all_from (idx : list nat) (stopped : Z) (st : sm) : Z * sm :=
  match idx with
  | [] => (stopped, st)
  | i :: rest =>
      let '(ret, st1) := vgik_service_stop (name_of i st) st in
      stop_all_from rest
        (if bool_decide (ret = 0) then stopped + 1 else stopped) st1
  end.

Definition vgik_service_stop_all (st : sm) : Z * sm :=
  stop_all_from (seq 0 (length (services st))) 0 st.

(** [vgik_service_manager_deinit]. *)
Definition vgik_service_manager_deinit (st : sm) : sm :=
  if negb (initialized st) then st
  else
    let st1 := snd (vgik_service_stop_all st) in
    with_initialized false (with_services [] st1).

(** One turn of the loop of [vgik_service_manager_process], for slot [i],
    with [now] read once before the loop. *)
Definition process_service (fuel : nat) (now : Z) (i : nat) (st : sm)
    : option sm :=
  match services st !! i with
  | None => Some st
  | Some s0 =>
      let st1 :=
        if bool_decide (state s0 = VGIK_SERVICE_STATE_RUNNING)
        then snd (vgik_service_is_healthy (name s0) st)
        else st in
      match services st1 !! i with
      | None => Some st1
      | Some s =>
          if auto_restart s && bool_decide (state s = VGIK_SERVICE_STATE_FAILED)
          then
            if bool_decide (max_restart_attempts s > 0)
               && bool_decide (restart_count s >= max_restart_attempts s)
            then Some st1
            else if bool_decide (last_restart_time s = 0)
                    || bool_decide
                         (uint64_wrap (now - last_restart_time s)
                          >= restart_delay_ms s)
            then
              let st2 :=
                modify i (fun x =>
                  set_last_restart_time now
                    (set_restart_count (uint32_wrap (restart_count x + 1)) x))
                  st1 in
              let st3 := write_state i VGIK_SERVICE_STATE_RESTARTING st2 in
              match vgik_service_start fuel (name s) st3 with
              | None => None
              | Some (_, st4) => Some st4
              end
            else Some st1
          else Some st1
      end
  end.

Fixpoint process_from (fuel : nat) (now : Z) (idx : list nat) (st : sm)
    : option sm :=
  match idx with
  | [] => Some st
  | i :: rest =>
      match process_service fuel now i st with
      | None => None
      | Some st1 => process_from fuel now rest st1
      end
  end.

(** [vgik_service_manager_process], the periodic tick. *)
Definition vgik_service_manager_process (fuel : nat) (st : sm) : option sm :=
  if negb (initialized st) then Some st
  else
    let now := get_timestamp_ms (world st) in
    process_from fuel now (seq 0 (length (services st))) st.

(** A service on which [vgik_service_start] does not return at once. *)
Definition not_started (s : vgik_service_t) : Prop :=
  state s <> VGIK_SERVICE_STATE_RUNNING /\ state s <> VGIK_SERVICE_STATE_STARTING.

(** Every listed dependency is a registered service in state RUNNING. *)
Definition all_dependencies_running (st : sm) (s : vgik_service_t) : Prop :=
  forall deps, dependencies s = Some deps ->
  forall d, d ∈ deps ->
  exists j sd, find_service d st = Some j /\ services st !! j = Some sd /\
               state sd = VGIK_SERVICE_STATE_RUNNING.

(** The slot as the tick leaves it when it launches an attempt. *)
Definition attempt (now : Z) (s : vgik_service_t) : vgik_service_t :=
  set_state VGIK_SERVICE_STATE_RESTARTING
    (set_last_restart_time now
       (set_restart_count (uint32_wrap (restart_count s + 1)) s)).

(** The delay test of the tick, and its limit test. *)
Definition due (now : Z) (s : vgik_service_t) : Prop :=
  last_restart_time s = 0 \/
  uint64_wrap (now - last_restart_time s) >= restart_delay_ms s.

Definition exhausted (s : vgik_service_t) : Prop :=
  max_restart_attempts s > 0 /\ restart_count s >= max_restart_attempts s.

(** The fields that only [register] and the tick write: a slot with its
    [state] and [start_time] blanked. *)
Definition frozen (s : vgik_service_t) : vgik_service_t :=
  set_start_time 0 (set_state VGIK_SERVICE_STATE_STOPPED s).

(** The counters of a slot fit their [uint32_t] fields, and the count is
    within the limit when there is one. *)
Definition counters_ok (s : vgik_service_t) : Prop :=
  0 <= restart_count s < 2 ^ 32 /\
  0 <= max_restart_attempts s < 2 ^ 32 /\
  (max_restart_attempts s <> 0 -> restart_count s <= max_restart_attempts s).

(** What one call may do to the restart bookkeeping of a slot: nothing, or
    one attempt, counted modulo [2^32], and only below the limit. *)
Definition bookkeeping_step (s s' : vgik_service_t) : Prop :=
  name s' = name s /\
  max_restart_attempts s' = max_restart_attempts s /\
  (restart_count s' = restart_count s /\
   last_restart_time s' = last_restart_time s
   \/ ~ exhausted s /\ restart_count s' = uint32_wrap (restart_count s + 1)).

(** What a callback handle does when it is called: a NULL handle is not
    called, which counts as success and leaves the world alone. *)
Definition outcome (cb : option (Z -> World -> Z * World)) (ud : Z) (w : World)
    : Z * World :=
  match cb with
  | Some f => f ud w
  | None => (0, w)
  end.

(** The calls of the interface, and the world moving on between them. *)
Inductive op : Type :=
  | OpRegister (d : vgik_service_t)
  | OpStart (nm : option string)
  | OpStop (nm : option string)
  | OpTick
  | OpElapse (w : World).

(** One call that returns. A descriptor handed to [register] has its
    limit in the range of its [uint32_t] field. *)
Inductive step : sm -> op -> sm -> Prop :=
  | step_register d st :
      0 <= max_restart_attempts d < 2 ^ 32 ->
      step st (OpRegister d) (vgik_service_register (Some d) st).2
  | step_start fuel nm st ret st' :
      vgik_service_start fuel nm st = Some (ret, st') ->
      step st (OpStart nm) st'
  | step_stop nm st :
      step st (OpStop nm) (vgik_service_stop nm st).2
  | step_tick fuel st st' :
      vgik_service_manager_process fuel st = Some st' ->
      step st OpTick st'
  | step_elapse w st :
      step st (OpElapse w) (with_world w st).

Inductive run : sm -> list op -> sm -> Prop :=
  | run_nil st : run st [] st
  | run_cons st o st1 ops st2 :
      step st o st1 -> run st1 ops st2 -> run st (o :: ops) st2.

(** [unregister] as the specification words it, to compare with the
    source: an unknown name fails; otherwise the service is stopped
    whatever its state, and then its entry is removed. *)
Definition unregister_stopping_always (nm : option string) (st : sm) : Z * sm :=
  match find_service nm st with
  | None => (-1, st)
  | Some i =>
      let st1 := snd (vgik_service_stop nm st) in
      (0, with_services (delete i (services st1)) st1)
  end.

(** [vgik_service_list]: the names of the first [max_count] named slots. *)
Definition vgik_service_list (max_count : Z) (st : sm) : list string :=
  if bool_decide (max_count <= 0) then []
  else take (Z.to_nat max_count) (omap name (services st)).

End Manager.

Arguments mk_service {World}.
Arguments name {World} _.
Arguments start_cb {World} _.
Arguments stop_cb {World} _.
Arguments health_cb {World} _.
Arguments user_data {World} _.
Arguments dependencies {World} _.
Arguments auto_restart {World} _.
Arguments restart_delay_ms {World} _.
Arguments max_restart_attempts {World} _.
Arguments restart_count {World} _.
Arguments state {World} _.
Arguments start_time {World} _.
Arguments last_restart_time {World} _.
Arguments set_state {World} v s.
Arguments set_start_time {World} t s.
Arguments set_last_restart_time {World} t s.
Arguments set_restart_count {World} c s.
Arguments mk_sm {World}.
Arguments initialized {World} _.
Arguments services {World} _.
Arguments world {World} _.
Arguments trace {World} _.
Arguments service_count {World} st.
Arguments with_services {World} l st.
Arguments with_world {World} w st.
Arguments with_initialized {World} b st.
Arguments emit {World} o st.
Arguments modify {World} i f st.
Arguments name_of {World} i st.
Arguments write_state {World} i v st.
Arguments name_is {World} n s.
Arguments find_from {World} n l i.
Arguments find_service {World} nm st.
Arguments dependency_running {World} st dep_name.
Arguments check_dependencies {World} st s.
Arguments start_each {World} start deps st.
Arguments start_dependencies {World} start s st.
Arguments launch {World} get_timestamp_ms i st.
Arguments vgik_service_start {World} get_timestamp_ms fuel nm st.
Arguments vgik_service_stop {World} nm st.
Arguments vgik_service_restart {World} get_timestamp_ms fuel nm st.
Arguments vgik_service_manager_init {World} st.
Arguments vgik_service_register {World} service st.
Arguments vgik_service_unregister {World} nm st.
Arguments vgik_service_get_state {World} nm st.
Arguments vgik_service_is_healthy {World} nm st.
Arguments start_all_from {World} get_timestamp_ms fuel idx started st.
Arguments vgik_service_start_all {World} get_timestamp_ms fuel st.
Arguments stop_all_from {World} idx stopped st.
Arguments vgik_service_stop_all {World} st.
Arguments vgik_service_manager_deinit {World} st.
Arguments process_service {World} get_timestamp_ms fuel now i st.
Arguments process_from {World} get_timestamp_ms fuel now idx st.
Arguments vgik_service_manager_process {World} get_timestamp_ms fuel st.
Arguments vgik_service_list {World} max_count st.
Arguments not_started {World} s.
Arguments frozen {World} s.
Arguments counters_ok {World} s.
Arguments outcome {World} cb ud w.
Arguments bookkeeping_step {World} s s'.
Arguments OpRegister {World} d.
Arguments OpStart {World} nm.
Arguments OpStop {World} nm.
Arguments OpTick {World}.
Arguments OpElapse {World} w.
Arguments step {World} get_timestamp_ms _ _ _.
Arguments run {World} get_timestamp_ms _ _ _.
Arguments attempt {World} now s.
Arguments due {World} now s.
Arguments exhausted {World} s.
Arguments registered {World} d.
Arguments unregister_stopping_always {World} nm st.
Arguments all_dependencies_running {World} st s.

(** The start callbacks invoked in a trace, with what they returned. *)
Definition start_calls (tr : list obs) : list (option string * Z) :=
  omap (fun o => match o with ObsStartCb n r => Some (n, r) | _ => None end) tr.

(** The stop callbacks invoked in a trace. *)
Definition stop_calls (tr : list obs) : list (option string * Z) :=
  omap (fun o => match o with ObsStopCb n r => Some (n, r) | _ => None end) tr.

(** The services marked RESTARTING in a trace: the automatic attempts. *)
Definition restart_marks (tr : list obs) : list (option string) :=
  omap (fun o =>
          match o with
          | ObsState n VGIK_SERVICE_STATE_RESTARTING => Some n
          | _ => None
          end) tr.

(** A trace without its health checks: the state writes and the start and
    stop callbacks. *)
Definition lifecycle (tr : list obs) : list obs :=
  omap (fun o => match o with ObsHealthCb _ _ => None | _ => Some o end) tr.

(** *** The interface as a whole *)

Section Interface.

Variable World : Type.
Variable get_timestamp_ms : World -> Z.

(** The slot that [find_service] points to. *)
Definition lookup_service (n : string) (l : list (vgik_service_t World))
    : option (vgik_service_t World) :=
  i ← find_from n l 0%nat; l !! i.

(** What the interface maintains: every slot is named, no name occurs
    twice, the table is not over its 64 slots, and it is empty while the
    manager is not initialised (so that the [memset] of
    [vgik_service_manager_init] has nothing to clear). *)
Definition registry_ok (st : sm World) : Prop :=
  Forall (fun s => is_Some (name s)) (services st) /\
  NoDup (name <$> services st) /\
  (length (services st) <= 64)%nat /\
  (initialized st = false -> services st = []).

(** Every function of the header, and the world moving on. *)
Inductive call : Type :=
  | CallInit
  | CallDeinit
  | CallRegister (service : option (vgik_service_t World))
  | CallUnregister (nm : option string)
  | CallStart (nm : option string)
  | CallStop (nm : option string)
  | CallRestart (nm : option string)
  | CallIsHealthy (nm : option string)
  | CallStartAll
  | CallStopAll
  | CallProcess
  | CallElapse (w : World).

(** One call that returns. *)
Inductive performs : sm World -> call -> sm World -> Prop :=
  | performs_init st :
      performs st CallInit (vgik_service_manager_init st).2
  | performs_deinit st :
      performs st CallDeinit (vgik_service_manager_deinit st)
  | performs_register service st :
      performs st (CallRegister service) (vgik_service_register service st).2
  | performs_unregister nm st :
      performs st (CallUnregister nm) (vgik_service_unregister nm st).2
  | performs_start fuel nm st ret st' :
      vgik_service_start get_timestamp_ms fuel nm st = Some (ret, st') ->
      performs st (CallStart nm) st'
  | performs_stop nm st :
      performs st (CallStop nm) (vgik_service_stop nm st).2
  | performs_restart fuel nm st ret st' :
      vgik_service_restart get_timestamp_ms fuel nm st = Some (ret, st') ->
      performs st (CallRestart nm) st'
  | performs_is_healthy nm st :
      performs st (CallIsHealthy nm) (vgik_service_is_healthy nm st).2
  | performs_start_all fuel st ret st' :
      vgik_service_start_all get_timestamp_ms fuel st = Some (ret, st') ->
      performs st CallStartAll st'
  | performs_stop_all st :
      performs st CallStopAll (vgik_service_stop_all st).2
  | performs_process fuel st st' :
      vgik_service_manager_process get_timestamp_ms fuel st = Some st' ->
      performs st CallProcess st'
  | performs_elapse w st :
      performs st (CallElapse w) (with_world w st).

Inductive performs_all : sm World -> list call -> sm World -> Prop :=
  | performs_nil st : performs_all st [] st
  | performs_cons st c st1 cs st2 :
      performs st c st1 -> performs_all st1 cs st2 ->
      performs_all st (c :: cs) st2.

End Interface.

Arguments lookup_service {World} n l.
Arguments registry_ok {World} st.
Arguments CallInit {World}.
Arguments CallDeinit {World}.
Arguments CallRegister {World} service.
Arguments CallUnregister {World} nm.
Arguments CallStart {World} nm.
Arguments CallStop {World} nm.
Arguments CallRestart {World} nm.
Arguments CallIsHealthy {World} nm.
Arguments CallStartAll {World}.
Arguments CallStopAll {World}.
Arguments CallProcess {World}.
Arguments CallElapse {World} w.
Arguments performs {World} get_timestamp_ms _ _ _.
Arguments performs_all {World} get_timestamp_ms _ _ _.

End ServiceManager.

(** ** Event bus *)

Module Events.

#[local] Open Scope Z_scope.

Inductive vgik_event_type_t : Set :=
  | VGIK_EVENT_NETWORK_INTERFACE_UP
  | VGIK_EVENT_NETWORK_INTERFACE_DOWN
  | VGIK_EVENT_NETWORK_CONNECTION_ESTABLISHED
  | VGIK_EVENT_NETWORK_CONNECTION_LOST
  | VGIK_EVENT_CONFIG_CHANGED
  | VGIK_EVENT_FIRMWARE_UPDATE_STARTED
  | VGIK_EVENT_FIRMWARE_UPDATE_COMPLETED
  | VGIK_EVENT_FIRMWARE_UPDATE_FAILED
  | VGIK_EVENT_SERVICE_STARTED
  | VGIK_EVENT_SERVICE_STOPPED
  | VGIK_EVENT_SERVICE_CRASHED
  | VGIK_EVENT_SYSTEM_REBOOT
  | VGIK_EVENT_CUSTOM
  | VGIK_EVENT_MAX.

#[global] Instance vgik_event_type_eq_dec : EqDecision vgik_event_type_t.
Proof. solve_decision. Defined.

Inductive vgik_event_priority_t : Set :=
  | VGIK_EVENT_PRIORITY_LOW
  | VGIK_EVENT_PRIORITY_NORMAL
  | VGIK_EVENT_PRIORITY_HIGH
  | VGIK_EVENT_PRIORITY_CRITICAL.

#[global] Instance vgik_event_priority_eq_dec : EqDecision vgik_event_priority_t.
Proof. solve_decision. Defined.

(** The enumerators' values, which the queue compares. *)
Definition priority_value (p : vgik_event_priority_t) : Z :=
  match p with
  | VGIK_EVENT_PRIORITY_LOW => 0
  | VGIK_EVENT_PRIORITY_NORMAL => 1
  | VGIK_EVENT_PRIORITY_HIGH => 2
  | VGIK_EVENT_PRIORITY_CRITICAL => 3
  end.

(** [data] is [None] for a NULL payload, else the bytes it points to;
    [source] is the contents of the 64-byte tag. *)
Record vgik_event_t : Type := mk_event {
  type : vgik_event_type_t;
  priority : vgik_event_priority_t;
  timestamp : Z;
  data : option (list Z);
  data_size : Z;
  source : string
}.

Definition vgik_event_subscription_id_t : Type := Z.

(** Lines written to the error stream, and handler invocations. *)
Inductive obs : Type :=
  | LogInitialized
  | LogDeinitialized
  | LogQueueFull (ty : vgik_event_type_t)
  | LogSubscriptionCreated (id : vgik_event_subscription_id_t) (ty : vgik_event_type_t)
  | LogNoFreeSlots
  | LogSubscriptionRemoved (id : vgik_event_subscription_id_t)
  | LogSubscriptionNotFound (id : vgik_event_subscription_id_t)
  | ObsHandler (slot : nat) (id : vgik_event_subscription_id_t) (ev : vgik_event_t).

Definition VGIK_EVENTS_MAX_SUBSCRIPTIONS : nat := 128.
Definition VGIK_EVENTS_QUEUE_SIZE : Z := 256.

(** The value of an [int] after an increment: two's complement, so that
    the successor of [INT_MAX] is [INT_MIN], as the compiled code has it
    (the C standard leaves that one increment undefined). *)
Definition int32_wrap (x : Z) : Z := (x + 2 ^ 31) mod 2 ^ 32 - 2 ^ 31.

(** [sizeof(event_queue_node_t)] on a 64-bit target; only passed to the
    allocator. *)
Definition sizeof_event_queue_node_t : Z := 104.

Section Bus.

Variable World : Type.

(** [get_timestamp]: the wall clock, in microseconds. *)
Variable get_timestamp : World -> Z.

(** [malloc size]: [true] when the allocation returns a block. Releasing a
    block is not observable and is left out. *)
Variable malloc : Z -> World -> bool * World.

Definition vgik_event_handler_t : Type := vgik_event_t -> Z -> World -> World.

Record event_subscription_t : Type := mk_subscription {
  id : vgik_event_subscription_id_t;
  sub_type : vgik_event_type_t;
  handler : option vgik_event_handler_t;
  sub_user_data : Z;
  active : bool
}.

(** A slot of the zero-initialised table. *)
Definition empty_slot : event_subscription_t :=
  mk_subscription 0 VGIK_EVENT_NETWORK_INTERFACE_UP None 0 false.

Definition deactivate (s : event_subscription_t) : event_subscription_t :=
  mk_subscription (id s) (sub_type s) (handler s) (sub_user_data s) false.

(** [g_events] with the world and the trace. The linked queue is the list
    of its events from the head; [queue_tail] is written but never read by
    the source and is left out; the node pool is the number of spare nodes. *)
Record bus : Type := mk_bus {
  initialized : bool;
  subscriptions : list event_subscription_t;
  next_subscription_id : vgik_event_subscription_id_t;
  queue : list vgik_event_t;
  queue_size : Z;
  node_pool : nat;
  world : World;
  trace : list obs
}.

Definition g_events (w : World) : bus :=
  mk_bus false (replicate VGIK_EVENTS_MAX_SUBSCRIPTIONS empty_slot) 1 [] 0 0 w [].

Definition with_world (w : World) (b : bus) : bus :=
  mk_bus (initialized b) (subscriptions b) (next_subscription_id b) (queue b)
    (queue_size b) (node_pool b) w (trace b).

Definition emit (o : obs) (b : bus) : bus :=
  mk_bus (initialized b) (subscriptions b) (next_subscription_id b) (queue b)
    (queue_size b) (node_pool b) (world b) (trace b ++ [o]).

Definition with_pool (n : nat) (b : bus) : bus :=
  mk_bus (initialized b) (subscriptions b) (next_subscription_id b) (queue b)
    (queue_size b) n (world b) (trace b).

Definition with_queue (q : list vgik_event_t) (n : Z) (b : bus) : bus :=
  mk_bus (initialized b) (subscriptions b) (next_subscription_id b) q n
    (node_pool b) (world b) (trace b).

Definition with_subscriptions (l : list event_subscription_t) (n : Z) (b : bus) : bus :=
  mk_bus (initialized b) l n (queue b) (queue_size b) (node_pool b) (world b)
    (trace b).

Definition with_initialized (v : bool) (b : bus) : bus :=
  mk_bus v (subscriptions b) (next_subscription_id b) (queue b) (queue_size b)
    (node_pool b) (world b) (trace b).

(** [create_queue_node]: a spare node if there is one, else a fresh block. *)
Definition create_queue_node (b : bus) : bool * bus :=
  match node_pool b with
  | S n => (true, with_pool n b)
  | O =>
      let '(ok, w) := malloc sizeof_event_queue_node_t (world b) in
      (ok, with_world w b)
  end.

(** The walk of [enqueue_event]: past every entry whose priority is at
    least the new one's, then link the node in. *)
Fixpoint insert_by_priority (node : vgik_event_t) (q : list vgik_event_t)
    : list vgik_event_t :=
  match q with
  | [] => [node]
  | current :: rest =>
      if bool_decide (priority_value (priority current) >= priority_value (priority node))
      then current :: insert_by_priority node rest
      else node :: current :: rest
  end.

(** [enqueue_event]. *)
Definition enqueue_event (event : vgik_event_t) (b : bus) : Z * bus :=
  if bool_decide (queue_size b >= VGIK_EVENTS_QUEUE_SIZE) then
    (-1, emit (LogQueueFull (type event)) b)
  else
    match create_queue_node b with
    | (false, b1) => (-1, b1)
    | (true, b1) =>
        let stamp := get_timestamp (world b1) in
        let copied :=
          match data event with
          | Some bytes =>
              if bool_decide (data_size event > 0) then
                let '(ok, w) := malloc (data_size event) (world b1) in
                (ok, Some (take (Z.to_nat (data_size event)) bytes), with_world w b1)
              else (true, None, b1)
          | None => (true, None, b1)
          end in
        let '(ok, payload, b2) := copied in
        if ok then
          let node :=
            mk_event (type event) (priority event) stamp payload
              (data_size event) (source event) in
          (0, with_queue (insert_by_priority node (queue b2)) (queue_size b2 + 1) b2)
        else (-1, b2)
    end.

(** [dequeue_event]: [None] for the return value [-1]. The node goes back
    to the pool; its payload stays with the event handed out. *)
Definition dequeue_event (b : bus) : option (vgik_event_t * bus) :=
  match queue b with
  | [] => None
  | event :: rest =>
      Some (event, with_pool (S (node_pool b)) (with_queue rest (queue_size b - 1) b))
  end.

(** [vgik_events_init]. *)
Definition vgik_events_init (b : bus) : Z * bus :=
  if initialized b then (0, b)
  else (0, emit LogInitialized (with_initialized true b)).

(** [vgik_event_subscribe]: the first inactive slot is taken, and
    [next_subscription_id], an [int], is incremented. *)
Fixpoint first_inactive (l : list event_subscription_t) (i : nat) : option nat :=
  match l with
  | [] => None
  | s :: rest => if active s then first_inactive rest (S i) else Some i
  end.

Definition vgik_event_subscribe (ty : vgik_event_type_t)
    (h : option vgik_event_handler_t) (ud : Z) (b : bus) : Z * bus :=
  match h with
  | None => (-1, b)
  | Some _ =>
      if negb (initialized b) then (-1, b)
      else
        match first_inactive (subscriptions b) 0%nat with
        | Some i =>
            let new_id := next_subscription_id b in
            let sub := mk_subscription new_id ty h ud true in
            (new_id,
             emit (LogSubscriptionCreated new_id ty)
               (with_subscriptions (<[i:=sub]> (subscriptions b))
                  (int32_wrap (new_id + 1)) b))
        | None => (-1, emit LogNoFreeSlots b)
        end
  end.

(** [vgik_event_unsubscribe]. *)
Fixpoint find_active (sid : Z) (l : list event_subscription_t) (i : nat) : option nat :=
  match l with
  | [] => None
  | s :: rest =>
      if active s && bool_decide (id s = sid) then Some i
      else find_active sid rest (S i)
  end.

Definition vgik_event_unsubscribe (sid : vgik_event_subscription_id_t) (b : bus)
    : Z * bus :=
  match find_active sid (subscriptions b) 0%nat with
  | Some i =>
      (0, emit (LogSubscriptionRemoved sid)
            (with_subscriptions (alter deactivate i (subscriptions b))
               (next_subscription_id b) b))
  | None => (-1, emit (LogSubscriptionNotFound sid) b)
  end.

(** [vgik_event_publish]. [None] is a NULL event. *)
Definition vgik_event_publish (event : option vgik_event_t) (b : bus) : Z * bus :=
  match event with
  | None => (-1, b)
  | Some e =>
      if negb (initialized b) then (-1, b)
      else
        let '(ret, b1) := enqueue_event e b in
        if bool_decide (ret ≠ 0) then (-1, b1) else (0, b1)
  end.

(** Publishing the events of a list one after the other: the return values
    and the bus after the last call. *)
Fixpoint publish_each (events : list vgik_event_t) (b : bus) : list Z * bus :=
  match events with
  | [] => ([], b)
  | e :: rest =>
      let '(ret, b1) := vgik_event_publish (Some e) b in
      let '(rets, b2) := publish_each rest b1 in
      (ret :: rets, b2)
  end.

(** The test in the loop of [vgik_events_process]: a subscription is
    skipped when its type is neither [VGIK_EVENT_CUSTOM] nor the event's. *)
Definition filter_matches (filter ty : vgik_event_type_t) : bool :=
  negb (bool_decide (filter ≠ VGIK_EVENT_CUSTOM) && bool_decide (filter ≠ ty)).

(** The inner loop over the subscription slots, from slot [i] on. *)
Fixpoint dispatch (event : vgik_event_t) (subs : list event_subscription_t)
    (i : nat) (b : bus) : bus :=
  match subs with
  | [] => b
  | sub :: rest =>
      let b1 :=
        if negb (active sub) then b
        else if negb (filter_matches (sub_type sub) (type event)) then b
        else
          match handler sub with
          | Some h =>
              emit (ObsHandler i (id sub) event)
                (with_world (h event (sub_user_data sub) (world b)) b)
          | None => b
          end in
      dispatch event rest (S i) b1
  end.

(** The outer loop: dequeue until the queue is empty. Each turn removes
    one entry, so the number of turns is bounded by [n]. *)
Fixpoint process_loop (n : nat) (processed : Z) (b : bus) : Z * bus :=
  match n with
  | O => (processed, b)
  | S n' =>
      match dequeue_event b with
      | None => (processed, b)
      | Some (event, b1) =>
          process_loop n' (processed + 1) (dispatch event (subscriptions b1) 0%nat b1)
      end
  end.

(** [vgik_events_process]. *)
Definition vgik_events_process (b : bus) : Z * bus :=
  if negb (initialized b) then (0, b)
  else process_loop (length (queue b)) 0 b.

(** [vgik_events_clear]. *)
Fixpoint clear_loop (n : nat) (b : bus) : bus :=
  match n with
  | O => b
  | S n' =>
      match dequeue_event b with
      | None => b
      | Some (_, b1) => clear_loop n' b1
      end
  end.

Definition vgik_events_clear (b : bus) : bus := clear_loop (length (queue b)) b.

(** [vgik_events_queue_size]. *)
Definition vgik_events_queue_size (b : bus) : Z := queue_size b.

(** The copy of a published event that [enqueue_event] links into the
    queue, stamped with the time [stamp]. *)
Definition queued (event : vgik_event_t) (stamp : Z) : vgik_event_t :=
  mk_event (type event) (priority event) stamp
    (match data event with
     | Some bytes =>
         if bool_decide (data_size event > 0)
         then Some (take (Z.to_nat (data_size event)) bytes) else None
     | None => None
     end)
    (data_size event) (source event).

(** A subscription whose handler the drain invokes for the event. *)
Definition receives (sub : event_subscription_t) (event : vgik_event_t) : bool :=
  active sub && filter_matches (sub_type sub) (type event)
  && bool_decide (is_Some (handler sub)).

(** The calls that the inner loop of the drain, started at slot [i] over
    the slots [subs], makes to the handler of slot [slot]. *)
Definition expected (ev : vgik_event_t) (subs : list event_subscription_t)
    (i slot : nat) : list vgik_event_t :=
  if bool_decide (i <= slot)%nat then
    match subs !! (slot - i)%nat with
    | Some sub => if receives sub ev then [ev] else []
    | None => []
    end
  else [].

(** [queue_size] counts the entries of the queue. *)
Definition size_ok (b : bus) : Prop := queue_size b = Z.of_nat (length (queue b)).

(** [vgik_events_deinit]: the queue is cleared, the spare nodes are
    released, every slot is marked inactive. [next_subscription_id] is not
    reset. *)
Definition vgik_events_deinit (b : bus) : bus :=
  if negb (initialized b) then b
  else
    let b1 := with_pool 0 (vgik_events_clear b) in
    let b2 :=
      with_subscriptions (deactivate <$> subscriptions b1)
        (next_subscription_id b1) b1 in
    emit LogDeinitialized (with_initialized false b2).

(** [vgik_event_publish_simple]. [strncpy] fills the 64-byte tag with at
    most 63 characters of [source]; the payload is copied into a block of
    its own, which [enqueue_event] copies once more. *)
Definition vgik_event_publish_simple (ty : vgik_event_type_t)
    (prio : vgik_event_priority_t) (payload : option (list Z)) (size : Z)
    (src : option string) (b : bus) : Z * bus :=
  let tag :=
    match src with
    | Some s => String.substring 0 63 s
    | None => EmptyString
    end in
  let copied :=
    match payload with
    | Some bytes =>
        if bool_decide (size > 0) then
          let '(ok, w) := malloc size (world b) in
          (ok, Some (take (Z.to_nat size) bytes), with_world w b)
        else (true, None, b)
    | None => (true, None, b)
    end in
  let '(ok, block, b1) := copied in
  if ok then vgik_event_publish (Some (mk_event ty prio 0 block size tag)) b1
  else (-1, b1).

(** The handler invocations that one event gives rise to, slot by slot. *)
Definition deliveries (ev : vgik_event_t) (subs : list event_subscription_t)
    : list obs :=
  concat (imap (fun slot sub =>
                  if receives sub ev then [ObsHandler slot (id sub) ev] else [])
            subs).

End Bus.

Arguments mk_subscription {World}.
Arguments id {World} _.
Arguments sub_type {World} _.
Arguments handler {World} _.
Arguments sub_user_data {World} _.
Arguments active {World} _.
Arguments empty_slot {World}.
Arguments deactivate {World} s.
Arguments mk_bus {World}.
Arguments initialized {World} _.
Arguments subscriptions {World} _.
Arguments next_subscription_id {World} _.
Arguments queue {World} _.
Arguments queue_size {World} _.
Arguments node_pool {World} _.
Arguments world {World} _.
Arguments trace {World} _.
Arguments g_events {World} w.
Arguments with_world {World} w b.
Arguments emit {World} o b.
Arguments with_pool {World} n b.
Arguments with_queue {World} q n b.
Arguments with_subscriptions {World} l n b.
Arguments with_initialized {World} v b.
Arguments create_queue_node {World} malloc b.
Arguments enqueue_event {World} get_timestamp malloc event b.
Arguments dequeue_event {World} b.
Arguments vgik_events_init {World} b.
Arguments first_inactive {World} l i.
Arguments vgik_event_subscribe {World} ty h ud b.
Arguments find_active {World} sid l i.
Arguments vgik_event_unsubscribe {World} sid b.
Arguments vgik_event_publish {World} get_timestamp malloc event b.
Arguments publish_each {World} get_timestamp malloc events b.
Arguments dispatch {World} event subs i b.
Arguments process_loop {World} n processed b.
Arguments vgik_events_process {World} b.
Arguments clear_loop {World} n b.
Arguments vgik_events_clear {World} b.
Arguments vgik_events_queue_size {World} b.
Arguments receives {World} sub event.
Arguments expected {World} ev subs i slot.
Arguments size_ok {World} b.
Arguments vgik_events_deinit {World} b.
Arguments vgik_event_publish_simple {World} get_timestamp malloc ty prio payload size src b.
Arguments deliveries {World} ev subs.

(** The events handed to the handler of slot [slot] in a trace, in order. *)
Definition handler_calls (slot : nat) (tr : list obs) : list vgik_event_t :=
  omap (fun o =>
          match o with
          | ObsHandler i _ ev => if bool_decide (i = slot) then Some ev else None
          | _ => None
          end) tr.

Definition at_least (p : vgik_event_priority_t) (e : vgik_event_t) : Prop :=
  priority_value (priority e) >= priority_value p.

Definition below (p : vgik_event_priority_t) (e : vgik_event_t) : Prop :=
  priority_value (priority e) < priority_value p.

(** The entries of [l] of priority [p], in the order of [l]. *)
Definition of_priority (p : vgik_event_priority_t) (l : list vgik_event_t)
    : list vgik_event_t :=
  filter (fun e => priority e = p) l.

(** [l] sorted by descending priority without reordering equal priorities. *)
Definition by_priority (l : list vgik_event_t) : list vgik_event_t :=
  of_priority VGIK_EVENT_PRIORITY_CRITICAL l ++
  of_priority VGIK_EVENT_PRIORITY_HIGH l ++
  of_priority VGIK_EVENT_PRIORITY_NORMAL l ++
  of_priority VGIK_EVENT_PRIORITY_LOW l.

(** A queue in descending order of priority. *)
Definition descending (q : list vgik_event_t) : Prop :=
  StronglySorted
    (fun a b => priority_value (priority a) >= priority_value (priority b)) q.

(** *** The interface as a whole *)

Section BusInterface.

Variable World : Type.
Variable get_timestamp : World -> Z.
Variable malloc : Z -> World -> bool * World.

(** The largest value of [int], the type of the subscription ids. *)
Definition INT_MAX : Z := 2147483647.

(** What the interface maintains: [queue_size] counts the queue, which is
    in descending order of priority and holds at most 256 events; the table
    has its 128 slots; the active subscriptions carry distinct ids, all of
    them positive and below [next_subscription_id]; and while the bus is
    not initialised the queue is empty and no slot is active. *)
Definition bus_ok (b : bus World) : Prop :=
  size_ok b /\
  descending (queue b) /\
  (length (queue b) <= 256)%nat /\
  length (subscriptions b) = VGIK_EVENTS_MAX_SUBSCRIPTIONS /\
  1 <= next_subscription_id b /\
  (forall i s, subscriptions b !! i = Some s -> active s = true ->
     1 <= id s < next_subscription_id b) /\
  (forall i j s t,
     subscriptions b !! i = Some s -> subscriptions b !! j = Some t ->
     active s = true -> active t = true -> id s = id t -> i = j) /\
  (initialized b = false ->
     queue b = [] /\ Forall (fun s => active s = false) (subscriptions b)).

(** Every function of the header, and the world moving on. *)
Inductive bus_call : Type :=
  | BusInit
  | BusDeinit
  | BusSubscribe (ty : vgik_event_type_t)
      (h : option (vgik_event_handler_t World)) (ud : Z)
  | BusUnsubscribe (sid : vgik_event_subscription_id_t)
  | BusPublish (event : option vgik_event_t)
  | BusPublishSimple (ty : vgik_event_type_t) (prio : vgik_event_priority_t)
      (payload : option (list Z)) (size : Z) (src : option string)
  | BusProcess
  | BusClear
  | BusElapse (w : World).

(** One call. [vgik_event_subscribe] increments an [int]: the call is
    taken while the counter is below [INT_MAX], where the increment is
    defined. *)
Inductive bus_performs : bus World -> bus_call -> bus World -> Prop :=
  | bus_performs_init b :
      bus_performs b BusInit (vgik_events_init b).2
  | bus_performs_deinit b :
      bus_performs b BusDeinit (vgik_events_deinit b)
  | bus_performs_subscribe ty h ud b :
      next_subscription_id b < INT_MAX ->
      bus_performs b (BusSubscribe ty h ud) (vgik_event_subscribe ty h ud b).2
  | bus_performs_unsubscribe sid b :
      bus_performs b (BusUnsubscribe sid) (vgik_event_unsubscribe sid b).2
  | bus_performs_publish event b :
      bus_performs b (BusPublish event)
        (vgik_event_publish get_timestamp malloc event b).2
  | bus_performs_publish_simple ty prio payload size src b :
      bus_performs b (BusPublishSimple ty prio payload size src)
        (vgik_event_publish_simple get_timestamp malloc ty prio payload size src b).2
  | bus_performs_process b :
      bus_performs b BusProcess (vgik_events_process b).2
  | bus_performs_clear b :
      bus_performs b BusClear (vgik_events_clear b)
  | bus_performs_elapse w b :
      bus_performs b (BusElapse w) (with_world w b).

Inductive bus_performs_all : bus World -> list bus_call -> bus World -> Prop :=
  | bus_performs_nil b : bus_performs_all b [] b
  | bus_performs_cons b c b1 cs b2 :
      bus_performs b c b1 -> bus_performs_all b1 cs b2 ->
      bus_performs_all b (c :: cs) b2.

End BusInterface.

Arguments bus_ok {World} b.
Arguments BusInit {World}.
Arguments BusDeinit {World}.
Arguments BusSubscribe {World} ty h ud.
Arguments BusUnsubscribe {World} sid.
Arguments BusPublish {World} event.
Arguments BusPublishSimple {World} ty prio payload size src.
Arguments BusProcess {World}.
Arguments BusClear {World}.
Arguments BusElapse {World} w.
Arguments bus_performs {World} get_timestamp malloc _ _ _.
Arguments bus_performs_all {World} get_timestamp malloc _ _ _.

End Events.

(** ** Concrete worlds and services used to exercise the statements *)

Module Scenario.

Import ServiceManager.

#[local] Open Scope Z_scope.

(** The world is the reading of the clock; callbacks leave it alone. *)
Definition clock (w : Z) : Z := w.

Definition cb_ok : Z -> Z -> Z * Z := fun _ w => (0, w).
Definition cb_fail : Z -> Z -> Z * Z := fun _ w => (-1, w).

(** An initialised manager with no service, at time [w]. *)
Definition fresh (w : Z) : sm Z := mk_sm true [] w [].

Definition plain (n : string) (deps : option (list (option string)))
    (start stop : option (Z -> Z -> Z * Z)) : vgik_service_t Z :=
  mk_service (Some n) start stop None 0 deps false 0 0 0
    VGIK_SERVICE_STATE_STOPPED 0 0.

Definition register_all (l : list (vgik_service_t Z)) (st : sm Z) : sm Z :=
  foldl (fun acc d => snd (vgik_service_register (Some d) acc)) st l.

(** A alone, with a start callback that succeeds. *)
Definition one_service : sm Z :=
  register_all [plain "A" None (Some cb_ok) None] (fresh 5000).

(** A alone, without a start callback. *)
Definition one_service_no_cb : sm Z :=
  register_all [plain "A" None None None] (fresh 5000).

(** A depends on B, B depends on C. *)
Definition chain : sm Z :=
  register_all
    [plain "A" (Some [Some "B"%string]) (Some cb_ok) None;
     plain "B" (Some [Some "C"%string]) (Some cb_ok) None;
     plain "C" None (Some cb_ok) None] (fresh 5000).

(** "net": restarted automatically, at most three times, one second
    apart; its start callback always fails, its stop callback succeeds. *)
Definition net : vgik_service_t Z :=
  mk_service (Some "net"%string) (Some cb_fail) (Some cb_ok) None 0 None
    true 1000 3 0 VGIK_SERVICE_STATE_STOPPED 0 0.

Definition net_registered (t0 : Z) : sm Z := register_all [net] (fresh t0).

(** After [start("net")] at time [t0]: FAILED. *)
Definition net_failed (t0 : Z) : sm Z :=
  match vgik_service_start clock 1 (Some "net"%string) (net_registered t0) with
  | Some (_, st) => st
  | None => net_registered t0
  end.

(** A tick at time [t]. *)
Definition tick_at (t : Z) (st : sm Z) : sm Z :=
  match vgik_service_manager_process clock 1 (with_world t st) with
  | Some st' => st'
  | None => st
  end.

(** "loop": restarted automatically without limit and without delay. *)
Definition loop : vgik_service_t Z :=
  mk_service (Some "loop"%string) (Some cb_fail) None None 0 None
    true 0 0 0 VGIK_SERVICE_STATE_STOPPED 0 0.

(** A service that has used up its three attempts; its callbacks succeed. *)
Definition worn_out : vgik_service_t Z :=
  mk_service (Some "net"%string) (Some cb_ok) (Some cb_ok) None 0 None
    true 1000 3 3 VGIK_SERVICE_STATE_FAILED 0 7000.

Definition worn_out_alone : sm Z := mk_sm true [worn_out] 9000 [].

Definition loop_registered : sm Z :=
  (vgik_service_register (Some loop) (fresh 5000)).2.

(** After [start("loop")] has failed, and after the first tick. *)
Definition loop_failed : sm Z :=
  match vgik_service_start clock 1 (Some "loop"%string) loop_registered with
  | Some (_, st) => st
  | None => loop_registered
  end.

Definition loop_started : sm Z := tick_at 5000 loop_failed.

(** "loop" after [count] automatic attempts, the last one at time 5000. *)
Definition loop_after (count : Z) : vgik_service_t Z :=
  mk_service (Some "loop"%string) (Some cb_fail) None None 0 None
    true 0 0 count VGIK_SERVICE_STATE_FAILED 0 5000.

(** A after a successful [start]. *)
Definition one_service_running : sm Z :=
  match vgik_service_start clock 1 (Some "A"%string) one_service with
  | Some (_, st) => st
  | None => one_service
  end.

(** A depends on B and on C; the start callback of C fails. *)
Definition fan : sm Z :=
  register_all
    [plain "A" (Some [Some "B"%string; Some "C"%string]) (Some cb_ok) None;
     plain "B" None (Some cb_ok) None;
     plain "C" None (Some cb_fail) None] (fresh 5000).

(** A depends on a service that nobody registered. *)
Definition orphan : sm Z :=
  register_all
    [plain "A" (Some [Some "ghost"%string]) (Some cb_ok) None] (fresh 5000).

(** A and B depend on each other. *)
Definition cycle : sm Z :=
  register_all
    [plain "A" (Some [Some "B"%string]) (Some cb_ok) None;
     plain "B" (Some [Some "A"%string]) (Some cb_ok) None] (fresh 5000).

(** A RUNNING service whose stop callback fails. *)
Definition stubborn : vgik_service_t Z :=
  mk_service (Some "S"%string) (Some cb_ok) (Some cb_fail) None 0 None
    false 0 0 0 VGIK_SERVICE_STATE_RUNNING 4000 0.

Definition stubborn_alone : sm Z := mk_sm true [stubborn] 5000 [].

(** Two services without dependencies; the second one fails to start. *)
Definition pair : sm Z :=
  register_all
    [plain "A" None (Some cb_ok) (Some cb_ok);
     plain "B" None (Some cb_fail) None] (fresh 5000).

End Scenario.

(** ** A concrete bus *)

Module BusScenario.

Import Events.

#[local] Open Scope Z_scope.

(** The world is the clock; every allocation succeeds. *)
Definition clock (w : Z) : Z := w.
Definition malloc (size : Z) (w : Z) : bool * Z := (true, w).

Definition quiet : vgik_event_t -> Z -> Z -> Z := fun _ _ w => w.

Definition event (ty : vgik_event_type_t) (p : vgik_event_priority_t)
    (src : string) : vgik_event_t :=
  mk_event ty p 0 None 0 src.

(** An initialised bus at time 7 with one subscriber, to every event. *)
Definition listening : bus Z :=
  (vgik_event_subscribe VGIK_EVENT_CUSTOM (Some quiet) 0
     (vgik_events_init (g_events 7)).2).2.

Definition publish_all (l : list vgik_event_t) (b : bus Z) : bus Z :=
  foldl (fun acc e => (vgik_event_publish clock malloc (Some e) acc).2) b l.

Definition first_high : vgik_event_t :=
  event VGIK_EVENT_NETWORK_INTERFACE_UP VGIK_EVENT_PRIORITY_HIGH "first".
Definition second_low : vgik_event_t :=
  event VGIK_EVENT_CONFIG_CHANGED VGIK_EVENT_PRIORITY_LOW "second".
Definition third_high : vgik_event_t :=
  event VGIK_EVENT_NETWORK_INTERFACE_DOWN VGIK_EVENT_PRIORITY_HIGH "third".

(** The subscription that [listening] holds in slot 0. *)
Definition listener : event_subscription_t Z :=
  mk_subscription 1 VGIK_EVENT_CUSTOM (Some quiet) 0 true.

(** Two events of different types waiting for the listener. *)
Definition mixed : bus Z :=
  publish_all
    [event VGIK_EVENT_CONFIG_CHANGED VGIK_EVENT_PRIORITY_NORMAL "cfg";
     event VGIK_EVENT_SERVICE_CRASHED VGIK_EVENT_PRIORITY_CRITICAL "svc"]
    listening.

(** A bus whose queue holds 256 events. *)
Definition full : bus Z :=
  mk_bus true (replicate VGIK_EVENTS_MAX_SUBSCRIPTIONS empty_slot) 1
    (replicate 256 (event VGIK_EVENT_CUSTOM VGIK_EVENT_PRIORITY_NORMAL "x"))
    256 0 7 [].

(** The bus after [vgik_events_init], at time 7. *)
Definition started : bus Z := (vgik_events_init (g_events 7)).2.

(** An allocator that has nothing to give. *)
Definition no_memory (size : Z) (w : Z) : bool * Z := (false, w).

(** [started] with one spare node in the pool. *)
Definition spare : bus Z := with_pool 1 started.

(** One subscriber, to configuration changes only, and the two events of
    [mixed] waiting. *)
Definition config_listener : event_subscription_t Z :=
  mk_subscription 1 VGIK_EVENT_CONFIG_CHANGED (Some quiet) 0 true.

Definition typed_mixed : bus Z :=
  publish_all
    [event VGIK_EVENT_CONFIG_CHANGED VGIK_EVENT_PRIORITY_NORMAL "cfg";
     event VGIK_EVENT_SERVICE_CRASHED VGIK_EVENT_PRIORITY_CRITICAL "svc"]
    (vgik_event_subscribe VGIK_EVENT_CONFIG_CHANGED (Some quiet) 0 started).2.

End BusScenario.

(** * Properties of the service manager *)

Module ServiceManagerFacts.

Import ServiceManager.

#[local] Open Scope Z_scope.

Section Facts.

Variable World : Type.
Variable clock : World -> Z.

Implicit Types (st : sm World) (s : vgik_service_t World) (nm : option string).

(** *** Slots and names *)

Lemma alter_lookup_insert (l : list (vgik_service_t World)) i s f :
  l !! i = Some s -> alter f i l = <[i:=f s]> l.
Proof.
  revert i. induction l as [|x l IH]; intros [|i] H; simplify_eq/=; try done.
  f_equal. by apply IH.
Qed.

Lemma modify_at st i s f :
  services st !! i = Some s ->
  modify i f st = with_services (<[i:=f s]> (services st)) st.
Proof. intros H. unfold modify. by rewrite (alter_lookup_insert _ _ _ _ H). Qed.

Lemma write_state_at st i s v :
  services st !! i = Some s ->
  write_state i v st =
  mk_sm (initialized st) (<[i:=set_state v s]> (services st)) (world st)
    (trace st ++ [ObsState (name s) v]).
Proof.
  intros H. unfold write_state, name_of. rewrite (modify_at _ _ _ _ H), H. done.
Qed.

Lemma find_from_names n (l l' : list (vgik_service_t World)) i :
  name <$> l = name <$> l' -> find_from n l i = find_from n l' i.
Proof.
  revert l' i. induction l as [|x l IH]; intros [|y l'] i H; try done.
  injection H as Hx Hl. simpl. unfold name_is. rewrite Hx.
  destruct (name y); [case_bool_decide|]; auto.
Qed.

Lemma find_from_lookup n (l : list (vgik_service_t World)) i j :
  find_from n l i = Some j ->
  (i <= j)%nat /\ exists s, l !! (j - i)%nat = Some s /\ name s = Some n.
Proof.
  revert i. induction l as [|x l IH]; intros i H; simplify_eq/=.
  destruct (name_is n x) eqn:E.
  - simplify_eq. split; [lia|]. rewrite Nat.sub_diag. exists x. split; [done|].
    unfold name_is in E. destruct (name x); [|done]. case_bool_decide; by subst.
  - apply IH in H as (Hle & s & Hs & Hn). split; [lia|]. exists s. split; [|done].
    replace (j - i)%nat with (S (j - S i)) by lia. done.
Qed.

Lemma find_service_lookup nm st i :
  find_service nm st = Some i ->
  exists n s, nm = Some n /\ services st !! i = Some s /\ name s = Some n.
Proof.
  destruct nm as [n|]; [|done]. simpl. intros H.
  apply find_from_lookup in H as (_ & s & Hs & Hn).
  rewrite Nat.sub_0_r in Hs. eauto.
Qed.

Lemma names_insert (l : list (vgik_service_t World)) i s s' :
  l !! i = Some s -> name s' = name s -> name <$> <[i:=s']> l = name <$> l.
Proof.
  intros H E. rewrite list_fmap_insert, E.
  apply list_insert_id. by rewrite list_lookup_fmap, H.
Qed.

Lemma find_service_names nm st st' :
  name <$> services st = name <$> services st' ->
  find_service nm st = find_service nm st'.
Proof. intros H. destruct nm; [|done]. simpl. by apply find_from_names. Qed.

(** *** One call of [launch] *)

Ltac slot_updated :=
  cbn; apply list_lookup_insert_eq; rewrite ?length_insert;
  first [done | eapply lookup_lt_Some; eassumption].

Lemma launch_at st i s :
  services st !! i = Some s ->
  launch clock i st =
  match start_cb s with
  | Some cb =>
      let r := cb (user_data s) (world st) in
      if bool_decide (r.1 ≠ 0) then
        (r.1,
         mk_sm (initialized st)
           (<[i:=set_state VGIK_SERVICE_STATE_FAILED s]> (services st)) r.2
           (trace st ++ [ObsState (name s) VGIK_SERVICE_STATE_STARTING;
                         ObsStartCb (name s) r.1;
                         ObsState (name s) VGIK_SERVICE_STATE_FAILED]))
      else
        (0,
         mk_sm (initialized st)
           (<[i:=set_start_time (clock r.2)
                   (set_state VGIK_SERVICE_STATE_RUNNING s)]> (services st)) r.2
           (trace st ++ [ObsState (name s) VGIK_SERVICE_STATE_STARTING;
                         ObsStartCb (name s) r.1;
                         ObsState (name s) VGIK_SERVICE_STATE_RUNNING]))
  | None =>
      (0,
       mk_sm (initialized st)
         (<[i:=set_start_time (clock (world st))
                 (set_state VGIK_SERVICE_STATE_RUNNING s)]> (services st))
         (world st)
         (trace st ++ [ObsState (name s) VGIK_SERVICE_STATE_STARTING;
                       ObsState (name s) VGIK_SERVICE_STATE_RUNNING]))
  end.
Proof.
  intros H. pose proof (lookup_lt_Some _ _ _ H) as Hlt.
  unfold launch. rewrite (write_state_at _ _ _ _ H). cbn [services].
  rewrite list_lookup_insert_eq by done. cbn [start_cb set_state user_data world].
  destruct (start_cb s) as [cb|].
  - destruct (cb (user_data s) (world st)) as [ret w]. cbn [fst snd].
    case_bool_decide.
    + erewrite write_state_at
        by slot_updated.
      cbn. rewrite list_insert_insert_eq, <- !app_assoc. done.
    + erewrite write_state_at
        by slot_updated.
      erewrite modify_at
        by slot_updated.
      cbn. rewrite !list_insert_insert_eq, <- !app_assoc. done.
  - rewrite bool_decide_eq_false_2 by (intros ?; done).
    erewrite write_state_at
      by slot_updated.
    erewrite modify_at
      by slot_updated.
    cbn. rewrite !list_insert_insert_eq, <- !app_assoc. done.
Qed.

(** *** One call of [vgik_service_start] *)

Lemma start_ready fuel nm st i s :
  find_service nm st = Some i ->
  services st !! i = Some s ->
  not_started s ->
  check_dependencies st s = true ->
  vgik_service_start clock (S fuel) nm st = Some (launch clock i st).
Proof.
  intros Hf Hs [H1 H2] Hc. simpl. rewrite Hf, Hs.
  rewrite !bool_decide_eq_false_2 by done. simpl. rewrite Hc.
  rewrite bool_decide_eq_false_2 by (intros ?; done). done.
Qed.

Lemma start_single_dependency fuel nm st i s dep :
  find_service nm st = Some i ->
  services st !! i = Some s ->
  not_started s ->
  dependencies s = Some [dep] ->
  dependency_running st dep = false ->
  vgik_service_start clock (S fuel) nm st =
  match vgik_service_start clock fuel dep st with
  | None => None
  | Some (ret, st1) =>
      if bool_decide (ret ≠ 0)
      then Some (-1, write_state i VGIK_SERVICE_STATE_FAILED st1)
      else Some (launch clock i st1)
  end.
Proof.
  intros Hf Hs [H1 H2] Hd Hr. simpl. rewrite Hf, Hs.
  rewrite !bool_decide_eq_false_2 by done. simpl.
  unfold check_dependencies, start_dependencies. rewrite Hd. simpl. rewrite Hr. simpl.
  destruct (vgik_service_start clock fuel dep st) as [[ret st1]|]; [|done].
  case_bool_decide; simpl; [|done].
  by rewrite bool_decide_eq_true_2.
Qed.

Lemma check_dependencies_true st s :
  all_dependencies_running st s -> check_dependencies st s = true.
Proof.
  intros H. unfold check_dependencies. destruct (dependencies s) as [deps|] eqn:E; [|done].
  apply forallb_forall. intros d Hd. apply list_elem_of_In in Hd.
  destruct (H deps E d Hd) as (j & sd & Hj & Hsd & Hst).
  unfold dependency_running. rewrite Hj, Hsd. by apply bool_decide_eq_true_2.
Qed.

Lemma get_state_at nm st i s :
  find_service nm st = Some i -> services st !! i = Some s ->
  vgik_service_get_state nm st = state s.
Proof. intros Hf Hs. unfold vgik_service_get_state. by rewrite Hf, Hs. Qed.

Lemma get_state_updated nm st i s s' ini w tr :
  find_service nm st = Some i -> services st !! i = Some s ->
  name s' = name s ->
  vgik_service_get_state nm (mk_sm ini (<[i:=s']> (services st)) w tr) = state s'.
Proof.
  intros Hf Hs Hn.
  apply get_state_at with (i := i).
  - rewrite <- Hf. apply find_service_names. cbn. by eapply names_insert.
  - cbn. apply list_lookup_insert_eq. by eapply lookup_lt_Some.
Qed.

(** *** A single start *)

(** C2. A registered service without dependencies, with a start callback
    and in state STOPPED: [start] marks it STARTING and invokes the
    callback; if the callback returns 0 the call returns 0 and the service
    is RUNNING with the clock reading stored as its start time: the
    [start_time] field of its slot holds the reading of the clock taken
    after the callback returned; if the callback returns non-zero the call
    returns that value, the service is FAILED and its [start_time] is left
    as it was. *)
Theorem start_without_dependencies fuel nm st i s cb :
  find_service nm st = Some i ->
  services st !! i = Some s ->
  (dependencies s = None \/ dependencies s = Some []) ->
  start_cb s = Some cb ->
  state s = VGIK_SERVICE_STATE_STOPPED ->
  let r := cb (user_data s) (world st) in
  exists st' final,
    vgik_service_start clock (S fuel) nm st = Some (r.1, st') /\
    world st' = r.2 /\
    trace st' = trace st ++ [ObsState (name s) VGIK_SERVICE_STATE_STARTING;
                             ObsStartCb (name s) r.1;
                             ObsState (name s) final] /\
    vgik_service_get_state nm st' = final /\
    (r.1 = 0 ->
       final = VGIK_SERVICE_STATE_RUNNING /\
       services st' =
         <[i:=set_start_time (clock r.2)
                (set_state VGIK_SERVICE_STATE_RUNNING s)]> (services st)) /\
    (r.1 <> 0 ->
       final = VGIK_SERVICE_STATE_FAILED /\
       services st' =
         <[i:=set_state VGIK_SERVICE_STATE_FAILED s]> (services st)) /\
    exists s',
      services st' !! i = Some s' /\
      state s' = final /\
      (r.1 = 0 -> start_time s' = clock (world st')) /\
      (r.1 <> 0 -> start_time s' = start_time s).
Proof.
  intros Hf Hs Hd Hcb Hst r.
  assert (Hc : check_dependencies st s = true).
  { unfold check_dependencies. by destruct Hd as [-> | ->]. }
  assert (Hn : not_started s) by (split; rewrite Hst; done).
  pose proof (lookup_lt_Some _ _ _ Hs) as Hlt.
  rewrite (start_ready fuel nm st i s Hf Hs Hn Hc), (launch_at st i s Hs), Hcb.
  fold r. cbv zeta. case_bool_decide as Hr.
  - eexists _, VGIK_SERVICE_STATE_FAILED. split; [done|]. cbn [world trace services].
    split; [done|]. split; [done|]. split.
    { by rewrite (get_state_updated nm st i s _ _ _ _ Hf Hs). }
    split; [intros; done|]. split; [done|].
    exists (set_state VGIK_SERVICE_STATE_FAILED s).
    split; [by apply list_lookup_insert_eq|]. split; [done|]. split; [done|].
    intros _. reflexivity.
  - assert (r.1 = 0) as Hz by (destruct (decide (r.1 = 0)); [done|contradiction]).
    eexists _, VGIK_SERVICE_STATE_RUNNING. rewrite Hz. split; [done|].
    cbn [world trace services].
    split; [done|]. split; [done|]. split.
    { by rewrite (get_state_updated nm st i s _ _ _ _ Hf Hs). }
    split; [done|]. split; [intros; done|].
    exists (set_start_time (clock r.2) (set_state VGIK_SERVICE_STATE_RUNNING s)).
    split; [by apply list_lookup_insert_eq|]. split; [done|].
    split; [intros _; reflexivity|done].
Qed.

(** C10. A STOPPED service whose start callback is NULL and whose
    dependencies, if any, are all RUNNING: [start] invokes no callback,
    marks it STARTING and then RUNNING, returns 0 and stores the clock
    reading as its start time: afterwards the [start_time] field of its
    slot holds the reading of the clock at the call. *)
Theorem start_null_callback fuel nm st i s :
  find_service nm st = Some i ->
  services st !! i = Some s ->
  state s = VGIK_SERVICE_STATE_STOPPED ->
  start_cb s = None ->
  all_dependencies_running st s ->
  exists st',
    vgik_service_start clock (S fuel) nm st = Some (0, st') /\
    trace st' = trace st ++ [ObsState (name s) VGIK_SERVICE_STATE_STARTING;
                             ObsState (name s) VGIK_SERVICE_STATE_RUNNING] /\
    start_calls (trace st') = start_calls (trace st) /\
    world st' = world st /\
    services st' =
      <[i:=set_start_time (clock (world st))
             (set_state VGIK_SERVICE_STATE_RUNNING s)]> (services st) /\
    vgik_service_get_state nm st' = VGIK_SERVICE_STATE_RUNNING /\
    exists s',
      services st' !! i = Some s' /\
      state s' = VGIK_SERVICE_STATE_RUNNING /\
      start_time s' = clock (world st).
Proof.
  intros Hf Hs Hst Hcb Hdeps.
  assert (Hn : not_started s) by (split; rewrite Hst; done).
  pose proof (lookup_lt_Some _ _ _ Hs) as Hlt.
  rewrite (start_ready fuel nm st i s Hf Hs Hn (check_dependencies_true _ _ Hdeps)).
  rewrite (launch_at st i s Hs), Hcb.
  eexists. split; [done|]. cbn [world trace services].
  split; [done|]. split.
  { unfold start_calls. rewrite omap_app. cbn. by rewrite app_nil_r. }
  split; [done|]. split; [done|]. split.
  { by rewrite (get_state_updated nm st i s _ _ _ _ Hf Hs). }
  exists (set_start_time (clock (world st)) (set_state VGIK_SERVICE_STATE_RUNNING s)).
  split; [by apply list_lookup_insert_eq|]. split; reflexivity.
Qed.

(** C9. [get_state] of a name that is not registered is FAILED, the same
    answer as for a registered service whose state is FAILED. *)
Theorem get_state_unknown_is_failed nm st nm' st' i s :
  find_service nm st = None ->
  find_service nm' st' = Some i ->
  services st' !! i = Some s ->
  state s = VGIK_SERVICE_STATE_FAILED ->
  vgik_service_get_state nm st = VGIK_SERVICE_STATE_FAILED /\
  vgik_service_get_state nm st = vgik_service_get_state nm' st'.
Proof.
  intros Hnone Hf Hs Hst.
  rewrite (get_state_at nm' st' i s Hf Hs), Hst.
  unfold vgik_service_get_state. by rewrite Hnone.
Qed.

Ltac slot_name :=
  rewrite ?list_lookup_insert_ne by done; rewrite list_lookup_fmap;
  match goal with
  | H : ?l !! ?i = Some _ |- context [?l !! ?i] => rewrite H
  end; done.

Ltac names_kept :=
  cbn; rewrite !list_fmap_insert; cbn [name set_state set_start_time];
  repeat (rewrite list_insert_id by slot_name); done.

Lemma get_state_same_names nm st st' i s' :
  name <$> services st' = name <$> services st ->
  find_service nm st = Some i ->
  services st' !! i = Some s' ->
  vgik_service_get_state nm st' = state s'.
Proof.
  intros Hn Hf Hs. apply get_state_at with (i := i); [|done].
  rewrite <- Hf. by apply find_service_names.
Qed.

Lemma dependency_not_running st nm i s :
  find_service nm st = Some i -> services st !! i = Some s ->
  state s <> VGIK_SERVICE_STATE_RUNNING ->
  dependency_running st nm = false.
Proof.
  intros Hf Hs Hst. unfold dependency_running. rewrite Hf, Hs.
  by apply bool_decide_eq_false_2.
Qed.

Lemma start_calls_app tr1 tr2 :
  start_calls (tr1 ++ tr2) = start_calls tr1 ++ start_calls tr2.
Proof. apply omap_app. Qed.

(** C1. A depends on B, B depends on C, C has no dependencies, all three
    are STOPPED and have start callbacks. Then [start A] invokes the
    callback of C first, that of B only after C's returned 0 and that of A
    only after B's returned 0, and never in another order; on return the
    three services are all RUNNING exactly when the three callbacks were
    invoked and each returned 0. *)
Theorem start_chain_order (A B C : string) fuel st ia ib ic sA sB sC cbA cbB cbC :
  find_service (Some A) st = Some ia -> services st !! ia = Some sA ->
  find_service (Some B) st = Some ib -> services st !! ib = Some sB ->
  find_service (Some C) st = Some ic -> services st !! ic = Some sC ->
  dependencies sA = Some [Some B] ->
  dependencies sB = Some [Some C] ->
  (dependencies sC = None \/ dependencies sC = Some []) ->
  state sA = VGIK_SERVICE_STATE_STOPPED ->
  state sB = VGIK_SERVICE_STATE_STOPPED ->
  state sC = VGIK_SERVICE_STATE_STOPPED ->
  start_cb sA = Some cbA -> start_cb sB = Some cbB -> start_cb sC = Some cbC ->
  (3 <= fuel)%nat ->
  let rC := cbC (user_data sC) (world st) in
  let rB := cbB (user_data sB) rC.2 in
  let rA := cbA (user_data sA) rB.2 in
  exists ret st' tr,
    vgik_service_start clock fuel (Some A) st = Some (ret, st') /\
    trace st' = trace st ++ tr /\
    start_calls tr =
      (if bool_decide (rC.1 ≠ 0) then [(Some C, rC.1)]
       else if bool_decide (rB.1 ≠ 0) then [(Some C, 0); (Some B, rB.1)]
       else [(Some C, 0); (Some B, 0); (Some A, rA.1)]) /\
    ((vgik_service_get_state (Some A) st' = VGIK_SERVICE_STATE_RUNNING /\
      vgik_service_get_state (Some B) st' = VGIK_SERVICE_STATE_RUNNING /\
      vgik_service_get_state (Some C) st' = VGIK_SERVICE_STATE_RUNNING)
     <-> (rC.1 = 0 /\ rB.1 = 0 /\ rA.1 = 0)).
Proof.
  intros HfA HsA HfB HsB HfC HsC HdA HdB HdC HstA HstB HstC HcA HcB HcC Hfuel rC rB rA.
  destruct fuel as [|[|[|fuel]]]; [lia..|].
  assert (ib <> ic) as Hbc.
  { intros ->. simplify_eq. destruct HdC; congruence. }
  assert (ia <> ic) as Hac.
  { intros ->. simplify_eq. destruct HdC; congruence. }
  assert (ia <> ib) as Hab.
  { intros ->. simplify_eq. }
  assert (name sA = Some A) as HnA.
  { destruct (find_service_lookup _ _ _ HfA) as (? & ? & ? & ? & ?). congruence. }
  assert (name sB = Some B) as HnB.
  { destruct (find_service_lookup _ _ _ HfB) as (? & ? & ? & ? & ?). congruence. }
  assert (name sC = Some C) as HnC.
  { destruct (find_service_lookup _ _ _ HfC) as (? & ? & ? & ? & ?). congruence. }
  assert (not_started sA) as HnsA by (split; rewrite HstA; done).
  assert (not_started sB) as HnsB by (split; rewrite HstB; done).
  assert (not_started sC) as HnsC by (split; rewrite HstC; done).
  assert (check_dependencies st sC = true) as HckC.
  { unfold check_dependencies. by destruct HdC as [-> | ->]. }
  rewrite (start_single_dependency _ _ st ia sA (Some B) HfA HsA HnsA HdA)
    by (eapply dependency_not_running; [done..|by rewrite HstB]).
  rewrite (start_single_dependency _ _ st ib sB (Some C) HfB HsB HnsB HdB)
    by (eapply dependency_not_running; [done..|by rewrite HstC]).
  rewrite (start_ready _ _ st ic sC HfC HsC HnsC HckC).
  rewrite (launch_at st ic sC HsC), HcC. fold rC. cbv zeta.
  rewrite HnC.
  destruct (bool_decide (rC.1 ≠ 0)) eqn:ErC.
  { (* the callback of C fails *)
    apply bool_decide_eq_true_1 in ErC.
    rewrite (bool_decide_eq_true_2 (rC.1 ≠ 0)) by done.
    erewrite (write_state_at _ ib sB)
      by (cbn; rewrite list_lookup_insert_ne by done; exact HsB).
    rewrite bool_decide_eq_true_2 by done.
    erewrite (write_state_at _ ia sA)
      by (cbn; rewrite !list_lookup_insert_ne by done; exact HsA).
    cbn [initialized services world trace].
    eexists _, _, _. split; [done|]. split; [by rewrite <- !app_assoc|].
    split; [done|].
    split; [|intros (? & _); done].
    intros (_ & _ & HC). exfalso. revert HC.
    erewrite get_state_same_names; [| |exact HfC|].
    2:{ names_kept. }
    2:{ cbn. rewrite !list_lookup_insert_ne by done.
        apply list_lookup_insert_eq. by eapply lookup_lt_Some. }
    done. }
  apply bool_decide_eq_false_1 in ErC.
  assert (rC.1 = 0) as HrC by (destruct (decide (rC.1 = 0)); [done|contradiction]).
  rewrite (bool_decide_eq_false_2 (0 ≠ 0)) by (intros ?; done).
  erewrite launch_at
    by (cbn; rewrite list_lookup_insert_ne by done; exact HsB).
  rewrite HcB. cbn [world initialized services trace]. fold rB. cbv zeta.
  rewrite HnB.
  destruct (bool_decide (rB.1 ≠ 0)) eqn:ErB.
  { (* the callback of B fails *)
    apply bool_decide_eq_true_1 in ErB.
    rewrite (bool_decide_eq_true_2 (rB.1 ≠ 0)) by done.
    erewrite (write_state_at _ ia sA)
      by (cbn; rewrite !list_lookup_insert_ne by done; exact HsA).
    cbn [initialized services world trace].
    eexists _, _, _. split; [done|]. split; [by rewrite <- !app_assoc|].
    split; [cbn; by rewrite HrC|].
    split; [|intros (_ & ? & _); done].
    intros (_ & HB & _). exfalso. revert HB.
    erewrite get_state_same_names; [| |exact HfB|].
    2:{ names_kept. }
    2:{ cbn. rewrite !list_lookup_insert_ne by done.
        apply list_lookup_insert_eq. rewrite length_insert. by eapply lookup_lt_Some. }
    done. }
  apply bool_decide_eq_false_1 in ErB.
  assert (rB.1 = 0) as HrB by (destruct (decide (rB.1 = 0)); [done|contradiction]).
  rewrite (bool_decide_eq_false_2 (0 ≠ 0)) by (intros ?; done).
  erewrite launch_at
    by (cbn; rewrite !list_lookup_insert_ne by done; exact HsA).
  rewrite HcA. cbn [world initialized services trace]. fold rA. cbv zeta.
  rewrite HnA.
  assert (forall (sA' sB' sC' : vgik_service_t World) ini w tr nm i sX,
    name sA' = name sA -> name sB' = name sB -> name sC' = name sC ->
    find_service nm st = Some i ->
    <[ia:=sA']> (<[ib:=sB']> (<[ic:=sC']> (services st))) !! i = Some sX ->
    vgik_service_get_state nm
      (mk_sm ini (<[ia:=sA']> (<[ib:=sB']> (<[ic:=sC']> (services st)))) w tr)
    = state sX) as Hget.
  { intros sA' sB' sC' ini w tr nm i sX EA EB EC Hf Hl.
    eapply get_state_same_names; [|exact Hf|exact Hl].
    cbn. rewrite !list_fmap_insert, EA, EB, EC.
    repeat (rewrite list_insert_id by slot_name). done. }
  pose proof (lookup_lt_Some _ _ _ HsA) as HltA.
  pose proof (lookup_lt_Some _ _ _ HsB) as HltB.
  pose proof (lookup_lt_Some _ _ _ HsC) as HltC.
  destruct (bool_decide (rA.1 ≠ 0)) eqn:ErA.
  - apply bool_decide_eq_true_1 in ErA.
    eexists _, _, _. split; [done|]. cbn [trace].
    split; [by rewrite <- !app_assoc|].
    split; [cbn; by rewrite HrC, HrB|].
    split; [|intros (_ & _ & ?); done].
    intros (HA & _ & _). exfalso. revert HA.
    erewrite Hget; [|done..| exact HfA |].
    2:{ apply list_lookup_insert_eq. by rewrite !length_insert. }
    done.
  - apply bool_decide_eq_false_1 in ErA.
    assert (rA.1 = 0) as HrA by (destruct (decide (rA.1 = 0)); [done|contradiction]).
    eexists _, _, _. split; [done|]. cbn [trace].
    split; [by rewrite <- !app_assoc|].
    split; [cbn; by rewrite HrC, HrB, HrA|].
    split; [done|]. intros _.
    split; [|split].
    + erewrite Hget; [|done..| exact HfA |].
      2:{ apply list_lookup_insert_eq. by rewrite !length_insert. }
      done.
    + erewrite Hget; [|done..| exact HfB |].
      2:{ rewrite list_lookup_insert_ne by done.
          apply list_lookup_insert_eq. by rewrite !length_insert. }
      done.
    + erewrite Hget; [|done..| exact HfC |].
      2:{ rewrite !list_lookup_insert_ne by done.
          apply list_lookup_insert_eq. done. }
      done.
Qed.

(** *** Unregistering *)

Lemma delete_insert_same (l : list (vgik_service_t World)) i x :
  delete i (<[i:=x]> l) = delete i l.
Proof.
  revert i. induction l as [|y l IH]; intros [|i]; simpl; try done.
  f_equal. apply IH.
Qed.

Lemma stop_services nm st i :
  find_service nm st = Some i ->
  exists f, services (vgik_service_stop nm st).2 = alter f i (services st).
Proof.
  intros Hf. unfold vgik_service_stop. rewrite Hf.
  destruct (services st !! i) as [s|] eqn:Hs; [|exists id; by rewrite list_alter_id].
  destruct (bool_decide _ || bool_decide _); [exists id; by rewrite list_alter_id|].
  rewrite (write_state_at _ _ _ _ Hs).
  destruct (stop_cb s) as [cb|].
  - destruct (cb _ _) as [ret w]. case_bool_decide.
    + erewrite write_state_at by slot_updated. cbn.
      rewrite list_insert_insert_eq.
      exists (fun _ => set_state VGIK_SERVICE_STATE_FAILED (set_state VGIK_SERVICE_STATE_STOPPING s)).
      by rewrite (alter_lookup_insert _ _ _ _ Hs).
    + erewrite write_state_at by slot_updated.
      erewrite modify_at by slot_updated. cbn.
      rewrite !list_insert_insert_eq.
      eexists (fun _ => _). by rewrite (alter_lookup_insert _ _ _ _ Hs).
  - rewrite bool_decide_eq_false_2 by (intros ?; done).
    erewrite write_state_at by slot_updated.
    erewrite modify_at by slot_updated. cbn.
    rewrite !list_insert_insert_eq.
    eexists (fun _ => _). by rewrite (alter_lookup_insert _ _ _ _ Hs).
Qed.

Lemma delete_alter_same (l : list (vgik_service_t World)) i f :
  delete i (alter f i l) = delete i l.
Proof.
  revert i. induction l as [|y l IH]; intros [|i]; simpl; try done.
  f_equal. apply IH.
Qed.

(** C7, as the code has it. [unregister] of an unknown name returns -1 and
    changes nothing. For a registered name it returns 0; the service is
    stopped first only when its state is RUNNING (otherwise no callback
    runs and nothing but the table changes); then exactly its slot is
    removed, the other entries keeping their order. *)
Theorem unregister_effect nm st :
  match find_service nm st with
  | None => vgik_service_unregister nm st = (-1, st)
  | Some i =>
      exists s, services st !! i = Some s /\
        let st1 :=
          if bool_decide (state s = VGIK_SERVICE_STATE_RUNNING)
          then (vgik_service_stop nm st).2 else st in
        vgik_service_unregister nm st =
          (0, with_services (delete i (services st1)) st1) /\
        services (vgik_service_unregister nm st).2 =
          take i (services st) ++ drop (S i) (services st)
  end.
Proof.
  destruct (find_service nm st) as [i|] eqn:Hf.
  - destruct (find_service_lookup _ _ _ Hf) as (n & s & -> & Hs & Hn).
    exists s. split; [done|]. cbv zeta.
    unfold vgik_service_unregister. simpl in Hf. rewrite Hf, Hs.
    split; [done|]. cbn [snd services with_services].
    rewrite <- delete_take_drop.
    case_bool_decide; [|done].
    destruct (stop_services (Some n) st i Hf) as [f ->].
    apply delete_alter_same.
  - unfold vgik_service_unregister. destruct nm as [n|]; [|done].
    simpl in Hf. by rewrite Hf.
Qed.

(** *** The periodic tick *)

Lemma start_leaf fuel nm st i s cb :
  find_service nm st = Some i ->
  services st !! i = Some s ->
  not_started s ->
  (dependencies s = None \/ dependencies s = Some []) ->
  start_cb s = Some cb ->
  vgik_service_start clock (S fuel) nm st =
  Some
    (let r := cb (user_data s) (world st) in
     if bool_decide (r.1 ≠ 0) then
       (r.1,
        mk_sm (initialized st)
          (<[i:=set_state VGIK_SERVICE_STATE_FAILED s]> (services st)) r.2
          (trace st ++ [ObsState (name s) VGIK_SERVICE_STATE_STARTING;
                        ObsStartCb (name s) r.1;
                        ObsState (name s) VGIK_SERVICE_STATE_FAILED]))
     else
       (0,
        mk_sm (initialized st)
          (<[i:=set_start_time (clock r.2)
                  (set_state VGIK_SERVICE_STATE_RUNNING s)]> (services st)) r.2
          (trace st ++ [ObsState (name s) VGIK_SERVICE_STATE_STARTING;
                        ObsStartCb (name s) r.1;
                        ObsState (name s) VGIK_SERVICE_STATE_RUNNING]))).
Proof.
  intros Hf Hs Hn Hd Hcb.
  assert (Hc : check_dependencies st s = true).
  { unfold check_dependencies. by destruct Hd as [-> | ->]. }
  by rewrite (start_ready fuel nm st i s Hf Hs Hn Hc), (launch_at st i s Hs), Hcb.
Qed.

Lemma process_service_attempt fuel now i st s :
  services st !! i = Some s ->
  state s = VGIK_SERVICE_STATE_FAILED ->
  auto_restart s = true ->
  ~ exhausted s ->
  due now s ->
  process_service clock fuel now i st =
  match
    vgik_service_start clock fuel (name s)
      (mk_sm (initialized st) (<[i:=attempt now s]> (services st)) (world st)
         (trace st ++ [ObsState (name s) VGIK_SERVICE_STATE_RESTARTING]))
  with
  | None => None
  | Some (_, st') => Some st'
  end.
Proof.
  intros Hs Hst Hauto Hex Hdue. unfold process_service. rewrite Hs.
  rewrite (bool_decide_eq_false_2 (state s = VGIK_SERVICE_STATE_RUNNING))
    by (rewrite Hst; done).
  rewrite Hs, Hauto, (bool_decide_eq_true_2 _ Hst). cbn [andb].
  assert (bool_decide (max_restart_attempts s > 0)
          && bool_decide (restart_count s >= max_restart_attempts s) = false) as ->.
  { apply andb_false_iff. unfold exhausted in Hex.
    destruct (decide (max_restart_attempts s > 0)).
    - right. apply bool_decide_eq_false_2. tauto.
    - left. by apply bool_decide_eq_false_2. }
  assert (bool_decide (last_restart_time s = 0)
          || bool_decide (uint64_wrap (now - last_restart_time s) >= restart_delay_ms s)
          = true) as ->.
  { apply orb_true_iff. destruct Hdue; [left|right]; by apply bool_decide_eq_true_2. }
  rewrite (modify_at _ _ _ _ Hs).
  erewrite write_state_at by slot_updated.
  cbn. rewrite list_insert_insert_eq. done.
Qed.

Lemma process_service_idle fuel now i st s :
  services st !! i = Some s ->
  state s <> VGIK_SERVICE_STATE_RUNNING ->
  (auto_restart s = false \/ state s <> VGIK_SERVICE_STATE_FAILED \/
   exhausted s \/ ~ due now s) ->
  process_service clock fuel now i st = Some st.
Proof.
  intros Hs Hrun Hidle. unfold process_service. rewrite Hs.
  rewrite (bool_decide_eq_false_2 _ Hrun), Hs.
  destruct (auto_restart s); [|done].
  destruct (decide (state s = VGIK_SERVICE_STATE_FAILED)) as [Hst|Hst];
    [|by rewrite (bool_decide_eq_false_2 _ Hst)].
  rewrite (bool_decide_eq_true_2 _ Hst). cbn [andb].
  destruct (decide (exhausted s)) as [[H1 H2]|Hex].
  { by rewrite (bool_decide_eq_true_2 _ H1), (bool_decide_eq_true_2 _ H2). }
  destruct Hidle as [?|[?|[?|Hnd]]]; try done.
  assert (bool_decide (max_restart_attempts s > 0)
          && bool_decide (restart_count s >= max_restart_attempts s) = false) as ->.
  { apply andb_false_iff. unfold exhausted in Hex.
    destruct (decide (max_restart_attempts s > 0)).
    - right. apply bool_decide_eq_false_2. tauto.
    - left. by apply bool_decide_eq_false_2. }
  unfold due in Hnd.
  rewrite !bool_decide_eq_false_2 by tauto. done.
Qed.

Lemma process_singleton fuel st s :
  initialized st = true -> services st = [s] ->
  vgik_service_manager_process clock fuel st =
  process_service clock fuel (clock (world st)) 0 st.
Proof.
  intros Hi Hs. unfold vgik_service_manager_process. rewrite Hi, Hs. simpl.
  by destruct (process_service _ _ _ _ _).
Qed.


(** *** What the operations leave alone *)

(** [keeps st st']: apart from [state] and [start_time], no slot differs. *)
#[local] Abbreviation keeps st st' :=
  (frozen <$> services st' = frozen <$> services st).

Lemma frozen_alter (l : list (vgik_service_t World)) i f :
  (forall x, frozen (f x) = frozen x) -> frozen <$> alter f i l = frozen <$> l.
Proof.
  intros Hf. revert i. induction l as [|x l IH]; intros [|i]; try done.
  - change (frozen (f x) :: (frozen <$> l) = frozen x :: (frozen <$> l)).
    by rewrite Hf.
  - change (frozen x :: (frozen <$> alter f i l) = frozen x :: (frozen <$> l)).
    by rewrite IH.
Qed.

Lemma keeps_write_state i v st : keeps st (write_state i v st).
Proof. cbn. by apply frozen_alter. Qed.

Lemma keeps_launch i st : keeps st (launch clock i st).2.
Proof.
  unfold launch.
  destruct (services (write_state i VGIK_SERVICE_STATE_STARTING st) !! i) as [s|];
    [|apply keeps_write_state].
  destruct (start_cb s) as [cb|].
  - destruct (cb _ _) as [ret w]. case_bool_decide; cbn; by rewrite !frozen_alter.
  - case_bool_decide; cbn; by rewrite !frozen_alter.
Qed.

Lemma keeps_start_each
    (start : option string -> sm World -> option (Z * sm World)) deps :
  (forall nm st ret st', start nm st = Some (ret, st') -> keeps st st') ->
  forall st ret st', start_each start deps st = Some (ret, st') -> keeps st st'.
Proof.
  intros Hstart. induction deps as [|d deps IH]; intros st ret st' H; simpl in H.
  - by simplify_eq.
  - destruct (start d st) as [[r st1]|] eqn:E; [|done].
    apply Hstart in E. case_bool_decide.
    + by simplify_eq.
    + apply IH in H. by rewrite H.
Qed.

Lemma keeps_start fuel nm st ret st' :
  vgik_service_start clock fuel nm st = Some (ret, st') -> keeps st st'.
Proof.
  revert nm st ret st'. induction fuel as [|fuel IH]; intros nm st ret st' H; [done|].
  simpl in H.
  destruct (find_service nm st) as [i|]; [|by simplify_eq].
  destruct (services st !! i) as [s|]; [|by simplify_eq].
  destruct (bool_decide _ || bool_decide _); [by simplify_eq|].
  assert (forall r1 st1,
            (if check_dependencies st s then Some (0, st)
             else start_dependencies (vgik_service_start clock fuel) s st)
            = Some (r1, st1) -> keeps st st1) as Hdeps.
  { intros r1 st1 E. destruct (check_dependencies st s); [by simplify_eq|].
    unfold start_dependencies in E.
    destruct (dependencies s) as [deps|]; [|by simplify_eq].
    by eapply keeps_start_each. }
  destruct (if check_dependencies st s then _ else _) as [[r1 st1]|]; [|done].
  specialize (Hdeps r1 st1 eq_refl).
  case_bool_decide; simplify_eq.
  - by rewrite keeps_write_state.
  - destruct (launch clock i st1) as [r2 st2] eqn:E. simplify_eq.
    pose proof (keeps_launch i st1) as Hl. rewrite E in Hl. simpl in Hl.
    by rewrite Hl.
Qed.

Lemma keeps_stop nm st : keeps st (vgik_service_stop nm st).2.
Proof.
  unfold vgik_service_stop.
  destruct (find_service nm st) as [i|]; [|done].
  destruct (services st !! i) as [s|]; [|done].
  destruct (bool_decide _ || bool_decide _); [done|].
  destruct (stop_cb s) as [cb|].
  - destruct (cb _ _) as [ret w]. case_bool_decide; cbn; by rewrite !frozen_alter.
  - case_bool_decide; cbn; by rewrite !frozen_alter.
Qed.

Lemma is_healthy_services nm st :
  services (vgik_service_is_healthy nm st).2 = services st.
Proof.
  unfold vgik_service_is_healthy.
  destruct (find_service nm st) as [i|]; [|done].
  destruct (services st !! i) as [s|]; [|done].
  case_bool_decide; [done|].
  destruct (health_cb s) as [cb|]; [|done]. by destruct (cb _ _).
Qed.

Lemma keeps_lookup (l l' : list (vgik_service_t World)) j s :
  frozen <$> l' = frozen <$> l -> l !! j = Some s ->
  exists s', l' !! j = Some s' /\ frozen s' = frozen s.
Proof.
  intros H Hs. apply (f_equal (fun k => k !! j)) in H.
  rewrite !list_lookup_fmap, Hs in H.
  destruct (l' !! j) as [s'|]; [|done]. exists s'. split; [done|].
  by apply (inj Some).
Qed.

Lemma keeps_length (l l' : list (vgik_service_t World)) :
  frozen <$> l' = frozen <$> l -> length l' = length l.
Proof. intros H. apply (f_equal length) in H. by rewrite !length_fmap in H. Qed.

Lemma keeps_names (l l' : list (vgik_service_t World)) :
  frozen <$> l' = frozen <$> l -> name <$> l' = name <$> l.
Proof.
  intros H. apply (f_equal (fmap name)) in H.
  by rewrite <- !list_fmap_compose in H.
Qed.

Lemma frozen_fields s s' :
  frozen s' = frozen s ->
  name s' = name s /\
  max_restart_attempts s' = max_restart_attempts s /\
  restart_count s' = restart_count s /\
  last_restart_time s' = last_restart_time s.
Proof.
  intros H. repeat split.
  - exact (f_equal name H).
  - exact (f_equal max_restart_attempts H).
  - exact (f_equal restart_count H).
  - exact (f_equal last_restart_time H).
Qed.

Lemma frozen_bookkeeping s s' : frozen s' = frozen s -> bookkeeping_step s s'.
Proof.
  intros H. destruct (frozen_fields _ _ H) as (? & ? & ? & ?).
  split; [done|]. split; [done|]. by left.
Qed.

Lemma process_service_slots fuel now i st st' :
  process_service clock fuel now i st = Some st' ->
  length (services st') = length (services st) /\
  forall j s s',
    services st !! j = Some s -> services st' !! j = Some s' ->
    (j = i -> bookkeeping_step s s') /\ (j <> i -> frozen s' = frozen s).
Proof.
  intros H.
  assert (keeps st st' -> 
          length (services st') = length (services st) /\
          forall j s s',
            services st !! j = Some s -> services st' !! j = Some s' ->
            (j = i -> bookkeeping_step s s') /\ (j <> i -> frozen s' = frozen s))
    as Hkeep.
  { intros Hk. split; [by apply keeps_length|]. intros j s s' Hs Hs'.
    destruct (keeps_lookup _ _ j s Hk Hs) as (s'' & Hs'' & Hfr).
    assert (s'' = s') as -> by congruence.
    split; [intros _; by apply frozen_bookkeeping|done]. }
  unfold process_service in H.
  destruct (services st !! i) as [s0|] eqn:Hs0; [|simplify_eq; by apply Hkeep].
  set (st1 := if bool_decide (state s0 = VGIK_SERVICE_STATE_RUNNING)
              then (vgik_service_is_healthy (name s0) st).2 else st) in *.
  assert (services st1 = services st) as Hst1.
  { unfold st1. case_bool_decide; [apply is_healthy_services|done]. }
  rewrite Hst1, Hs0 in H.
  destruct (auto_restart s0 && bool_decide (state s0 = VGIK_SERVICE_STATE_FAILED));
    [|simplify_eq; apply Hkeep; by rewrite Hst1].
  destruct (bool_decide (max_restart_attempts s0 > 0)
            && bool_decide (restart_count s0 >= max_restart_attempts s0)) eqn:Hex;
    [simplify_eq; apply Hkeep; by rewrite Hst1|].
  destruct (bool_decide (last_restart_time s0 = 0) || _);
    [|simplify_eq; apply Hkeep; by rewrite Hst1].
  destruct (vgik_service_start _ _ _ _) as [[r st4]|] eqn:Hstart; [|done].
  simplify_eq. apply keeps_start in Hstart.
  cbn [services write_state emit modify with_services] in Hstart.
  rewrite frozen_alter in Hstart by done. rewrite Hst1 in Hstart.
  split.
  { apply keeps_length in Hstart. by rewrite Hstart, length_alter. }
  intros j s s' Hs Hs'.
  assert (~ exhausted s0) as Hne.
  { intros [H1 H2]. apply andb_false_iff in Hex as [Hex|Hex];
      apply bool_decide_eq_false_1 in Hex; done. }
  split.
  - intros ->. assert (s = s0) as -> by congruence.
    destruct (keeps_lookup _ _ i _ Hstart
                ltac:(rewrite list_lookup_alter_eq, Hs0; done))
      as (s'' & Hs'' & Hfr).
    assert (s'' = s') as -> by congruence.
    destruct (frozen_fields _ _ Hfr) as (Hn & Hm & Hc & Hl).
    split; [done|]. split; [done|]. right. split; [done|]. exact Hc.
  - intros Hji.
    destruct (keeps_lookup _ _ j s Hstart
                ltac:(rewrite list_lookup_alter_ne by done; done))
      as (s'' & Hs'' & Hfr).
    congruence.
Qed.

Lemma process_from_slots fuel now idx :
  NoDup idx ->
  forall st st',
  process_from clock fuel now idx st = Some st' ->
  length (services st') = length (services st) /\
  forall j s s',
    services st !! j = Some s -> services st' !! j = Some s' ->
    (j ∈ idx -> bookkeeping_step s s') /\ (j ∉ idx -> frozen s' = frozen s).
Proof.
  induction 1 as [|i idx Hi Hnd IH]; intros st st' H; simpl in H.
  - simplify_eq. split; [done|]. intros j s s' Hs Hs'.
    assert (s' = s) as -> by congruence.
    split; [intros Hj; by apply not_elem_of_nil in Hj|done].
  - destruct (process_service clock fuel now i st) as [st1|] eqn:E; [|done].
    apply process_service_slots in E as [Hlen1 Hslot1].
    apply IH in H as [Hlen Hslot].
    split; [congruence|]. intros j s s' Hs Hs'.
    destruct (services st1 !! j) as [s1|] eqn:Hs1.
    2:{ apply lookup_ge_None in Hs1. apply lookup_lt_Some in Hs. lia. }
    destruct (Hslot1 j s s1 Hs Hs1) as [Ha1 Hb1].
    destruct (Hslot j s1 s' Hs1 Hs') as [Ha Hb].
    destruct (decide (j = i)) as [->|Hji].
    + specialize (Ha1 eq_refl). specialize (Hb Hi).
      split; [|intros Hn; exfalso; apply Hn; by left].
      intros _. destruct (frozen_fields _ _ Hb) as (Hn & Hm & Hc & Hl).
      destruct Ha1 as (Hn1 & Hm1 & Hc1).
      split; [congruence|]. split; [congruence|].
      destruct Hc1 as [[? ?]|[? ?]]; [left|right]; split; congruence.
    + specialize (Hb1 Hji).
      destruct (frozen_fields _ _ Hb1) as (Hn1 & Hm1 & Hc1 & Hl1).
      split.
      * intros Hj. apply elem_of_cons in Hj as [?|Hj]; [done|].
        destruct (Ha Hj) as (Hn & Hm & Hc).
        split; [congruence|]. split; [congruence|].
        destruct Hc as [[? ?]|[Hne ?]]; [left; split; congruence|right].
        split; [|congruence]. intros [H1 H2]. apply Hne.
        split; congruence.
      * intros Hj. apply not_elem_of_cons in Hj as [_ Hj].
        specialize (Hb Hj). congruence.
Qed.

Lemma bookkeeping_counters s s' :
  counters_ok s -> bookkeeping_step s s' ->
  counters_ok s' /\
  (restart_count s <= restart_count s' \/
   max_restart_attempts s = 0 /\ restart_count s = 2 ^ 32 - 1 /\
   restart_count s' = 0).
Proof.
  intros (Hc & Hm & Hle) (Hn & Hmax & Hstep). unfold counters_ok.
  rewrite Hmax.
  destruct Hstep as [[Hc' _]|[Hne Hc']].
  - rewrite Hc'. split; [done|]. left. lia.
  - unfold exhausted in Hne. unfold uint32_wrap in Hc'.
    destruct (decide (restart_count s + 1 < 2 ^ 32)) as [Hlt|Hge].
    + rewrite Z.mod_small in Hc' by lia. rewrite Hc'.
      split; [|left; lia]. split; [lia|]. split; [done|].
      intros Hnz. specialize (Hle Hnz). lia.
    + assert (restart_count s = 2 ^ 32 - 1) as Hmaxed by lia.
      assert (max_restart_attempts s = 0) as Hzero by lia.
      rewrite Hmaxed in Hc'. change ((2 ^ 32 - 1 + 1) mod 2 ^ 32) with 0 in Hc'.
      rewrite Hc'. split; [|right; done]. split; [lia|]. split; [done|].
      intros Hnz. done.
Qed.

Lemma step_slots st o st' :
  step clock st o st' ->
  (forall j s', services st' !! j = Some s' ->
     (length (services st) <= j)%nat -> counters_ok s') /\
  forall j s, services st !! j = Some s ->
    exists s', services st' !! j = Some s' /\ bookkeeping_step s s' /\
               (o <> OpTick -> frozen s' = frozen s).
Proof.
  assert (forall a b : sm World, keeps a b ->
    (forall j s', services b !! j = Some s' ->
       (length (services a) <= j)%nat -> counters_ok s') /\
    forall j s, services a !! j = Some s ->
      exists s', services b !! j = Some s' /\ bookkeeping_step s s' /\
                 (o <> OpTick -> frozen s' = frozen s)) as Hkeep.
  { intros a b Hk. split.
    - intros j s' Hs' Hj. apply lookup_lt_Some in Hs'.
      apply keeps_length in Hk. lia.
    - intros j s Hs. destruct (keeps_lookup _ _ j s Hk Hs) as (s' & Hs' & Hfr).
      exists s'. split; [done|]. split; [by apply frozen_bookkeeping|done]. }
  intros Hstep. destruct Hstep as [d st Hd|fuel nm st ret st' H|nm st|fuel st st' H|w st].
  - unfold vgik_service_register.
    destruct (negb (initialized st) || _); [by apply Hkeep|].
    case_bool_decide; [by apply Hkeep|].
    case_bool_decide; [by apply Hkeep|].
    cbn [snd services emit with_services]. split.
    + intros j s' Hs' Hj. rewrite lookup_app_r in Hs' by done.
      apply list_lookup_singleton_Some in Hs' as [_ <-].
      unfold counters_ok. cbn. split; [lia|]. split; [done|]. lia.
    + intros j s Hs. exists s. rewrite lookup_app_l by (by eapply lookup_lt_Some).
      split; [done|]. split; [by apply frozen_bookkeeping|done].
  - apply Hkeep. by eapply keeps_start.
  - apply Hkeep. apply keeps_stop.
  - unfold vgik_service_manager_process in H.
    destruct (negb (initialized st)); [simplify_eq; by apply Hkeep|].
    apply process_from_slots in H as [Hlen Hslot]; [|apply NoDup_seq].
    split.
    + intros j s' Hs' Hj. apply lookup_lt_Some in Hs'. lia.
    + intros j s Hs. pose proof (lookup_lt_Some _ _ _ Hs) as Hlt.
      destruct (services st' !! j) as [s'|] eqn:Hs'.
      2:{ apply lookup_ge_None in Hs'. lia. }
      exists s'. split; [done|].
      destruct (Hslot j s s' Hs Hs') as [Ha _].
      split; [|done]. apply Ha. apply elem_of_seq. lia.
  - by apply Hkeep.
Qed.

Lemma step_counters st o st' :
  step clock st o st' ->
  Forall counters_ok (services st) ->
  Forall counters_ok (services st').
Proof.
  intros Hstep Hok. apply step_slots in Hstep as [Hnew Hold].
  apply Forall_lookup. intros j s' Hs'.
  destruct (services st !! j) as [s|] eqn:Hs.
  - destruct (Hold j s Hs) as (s'' & Hs'' & Hbk & _).
    assert (s'' = s') as -> by congruence.
    eapply bookkeeping_counters; [|done].
    by eapply Forall_lookup_1.
  - apply (Hnew j s' Hs'). by apply lookup_ge_None.
Qed.

Lemma run_counters st ops st' :
  run clock st ops st' ->
  Forall counters_ok (services st) ->
  Forall counters_ok (services st') /\
  forall j s, services st !! j = Some s ->
    exists s', services st' !! j = Some s' /\
      name s' = name s /\
      max_restart_attempts s' = max_restart_attempts s /\
      (max_restart_attempts s <> 0 ->
         restart_count s <= restart_count s' <= max_restart_attempts s).
Proof.
  induction 1 as [st|st o st1 ops st2 Hstep Hrun IH]; intros Hok.
  - split; [done|]. intros j s Hs. exists s. split; [done|]. split; [done|].
    split; [done|]. intros Hnz.
    destruct (Forall_lookup_1 _ _ _ _ Hok Hs) as (_ & _ & Hle). specialize (Hle Hnz). lia.
  - pose proof (step_counters _ _ _ Hstep Hok) as Hok1.
    destruct (IH Hok1) as [Hok2 Hslots]. split; [done|].
    intros j s Hs.
    destruct (proj2 (step_slots _ _ _ Hstep) j s Hs) as (s1 & Hs1 & Hbk & _).
    destruct (Hslots j s1 Hs1) as (s2 & Hs2 & Hn & Hm & Hc).
    pose proof (Forall_lookup_1 _ _ _ _ Hok Hs) as Hoks.
    destruct (bookkeeping_counters _ _ Hoks Hbk) as [_ Hmono].
    destruct Hbk as (Hn1 & Hm1 & _).
    exists s2. split; [done|]. split; [congruence|]. split; [congruence|].
    intros Hnz. rewrite <- Hm1. rewrite <- Hm1 in Hnz. specialize (Hc Hnz).
    destruct Hmono as [Hmono|[Hz _]]; [lia|]. congruence.
Qed.

(** *** A manual restart *)

Lemma stop_succeeds nm st i s :
  find_service nm st = Some i ->
  services st !! i = Some s ->
  state s = VGIK_SERVICE_STATE_FAILED ->
  (outcome (stop_cb s) (user_data s) (world st)).1 = 0 ->
  exists tr,
    vgik_service_stop nm st =
    (0, mk_sm (initialized st)
          (<[i:=set_start_time 0 (set_state VGIK_SERVICE_STATE_STOPPED s)]>
             (services st))
          (outcome (stop_cb s) (user_data s) (world st)).2 tr).
Proof.
  intros Hf Hs Hst Hok. unfold vgik_service_stop. rewrite Hf, Hs, Hst. cbn [orb bool_decide].
  rewrite !bool_decide_eq_false_2 by done. cbn [orb].
  rewrite (write_state_at _ _ _ _ Hs).
  unfold outcome in *. destruct (stop_cb s) as [cb|].
  - destruct (cb _ _) as [ret w]. cbn [fst snd] in *. subst ret.
    rewrite bool_decide_eq_false_2 by (intros ?; done).
    erewrite write_state_at by slot_updated.
    erewrite modify_at by slot_updated. cbn.
    rewrite !list_insert_insert_eq. eexists. reflexivity.
  - rewrite bool_decide_eq_false_2 by (intros ?; done).
    erewrite write_state_at by slot_updated.
    erewrite modify_at by slot_updated. cbn.
    rewrite !list_insert_insert_eq. eexists. reflexivity.
Qed.

Lemma restart_failed_service fuel nm st i s :
  find_service nm st = Some i ->
  services st !! i = Some s ->
  state s = VGIK_SERVICE_STATE_FAILED ->
  (dependencies s = None \/ dependencies s = Some []) ->
  let r1 := outcome (stop_cb s) (user_data s) (world st) in
  let r2 := outcome (start_cb s) (user_data s) r1.2 in
  r1.1 = 0 -> r2.1 = 0 ->
  exists st' s',
    vgik_service_restart clock (S fuel) nm st = Some (0, st') /\
    vgik_service_get_state nm st' = VGIK_SERVICE_STATE_RUNNING /\
    services st' !! i = Some s' /\
    state s' = VGIK_SERVICE_STATE_RUNNING /\
    restart_count s' = restart_count s.
Proof.
  intros Hf Hs Hst Hdeps r1 r2 H1 H2.
  destruct (stop_succeeds nm st i s Hf Hs Hst H1) as [tr Hstop].
  unfold vgik_service_restart. rewrite Hstop.
  rewrite bool_decide_eq_false_2 by (intros ?; done).
  fold r1.
  set (stopped := set_start_time 0 (set_state VGIK_SERVICE_STATE_STOPPED s)).
  set (st1 := mk_sm _ _ _ _).
  pose proof (lookup_lt_Some _ _ _ Hs) as Hlt.
  assert (services st1 !! i = Some stopped) as Hs1
    by (apply list_lookup_insert_eq; done).
  assert (name <$> services st1 = name <$> services st) as Hnames
    by (by apply (names_insert _ _ s)).
  assert (find_service nm st1 = Some i) as Hf1.
  { rewrite <- Hf. by apply find_service_names. }
  assert (check_dependencies st1 stopped = true) as Hck.
  { unfold check_dependencies. cbn. by destruct Hdeps as [-> | ->]. }
  rewrite (start_ready fuel nm st1 i stopped Hf1 Hs1 ltac:(by split) Hck).
  rewrite (launch_at st1 i stopped Hs1).
  cbn [start_cb stopped set_start_time set_state user_data world st1 initialized
       services trace name].
  unfold r2, outcome in H2.
  destruct (start_cb s) as [cb|].
  - cbv zeta. rewrite (bool_decide_eq_false_2 _ (fun H : _ ≠ 0 => H H2)).
    eexists _, _. split; [reflexivity|].
    rewrite list_insert_insert_eq. split.
    { by rewrite (get_state_updated nm st i s _ _ _ _ Hf Hs). }
    split; [by apply list_lookup_insert_eq|]. done.
  - eexists _, _. split; [reflexivity|].
    rewrite list_insert_insert_eq. split.
    { by rewrite (get_state_updated nm st i s _ _ _ _ Hf Hs). }
    split; [by apply list_lookup_insert_eq|]. done.
Qed.

(** *** The automatic attempts of a tick *)

Lemma restart_marks_app tr1 tr2 :
  restart_marks (tr1 ++ tr2) = restart_marks tr1 ++ restart_marks tr2.
Proof. unfold restart_marks. apply omap_app. Qed.

(** [unmarked st st']: the trace grew, and by no RESTARTING mark. *)
#[local] Abbreviation unmarked st st' :=
  (exists tr, trace st' = trace st ++ tr /\ restart_marks tr = []).

Lemma unmarked_refl (st : sm World) : unmarked st st.
Proof. exists []. by rewrite app_nil_r. Qed.

Lemma unmarked_trans (st1 st2 st3 : sm World) :
  unmarked st1 st2 -> unmarked st2 st3 -> unmarked st1 st3.
Proof.
  intros (tr1 & E1 & M1) (tr2 & E2 & M2). exists (tr1 ++ tr2).
  split; [by rewrite E2, E1, app_assoc|]. by rewrite restart_marks_app, M1, M2.
Qed.

Lemma unmarked_write_state i v (st : sm World) :
  v <> VGIK_SERVICE_STATE_RESTARTING -> unmarked st (write_state i v st).
Proof. intros Hv. eexists. split; [reflexivity|]. cbn. by destruct v. Qed.

Lemma unmarked_launch i st : unmarked st (launch clock i st).2.
Proof.
  unfold launch.
  destruct (services (write_state i VGIK_SERVICE_STATE_STARTING st) !! i) as [s|];
    [|by apply unmarked_write_state].
  destruct (start_cb s) as [cb|].
  - destruct (cb _ _) as [ret w].
    case_bool_decide; cbn; eexists;
      (split; [rewrite <- !app_assoc; reflexivity|done]).
  - case_bool_decide; cbn; eexists;
      (split; [rewrite <- !app_assoc; reflexivity|done]).
Qed.

Lemma unmarked_start_each
    (start : option string -> sm World -> option (Z * sm World)) deps :
  (forall nm st ret st', start nm st = Some (ret, st') -> unmarked st st') ->
  forall st ret st', start_each start deps st = Some (ret, st') -> unmarked st st'.
Proof.
  intros Hstart. induction deps as [|d deps IH]; intros st ret st' H; simpl in H.
  - simplify_eq. apply unmarked_refl.
  - destruct (start d st) as [[r st1]|] eqn:E; [|done].
    apply Hstart in E. case_bool_decide.
    + by simplify_eq.
    + apply IH in H. by eapply unmarked_trans.
Qed.

(** [vgik_service_start] never marks a service RESTARTING. *)
Lemma unmarked_start fuel nm st ret st' :
  vgik_service_start clock fuel nm st = Some (ret, st') -> unmarked st st'.
Proof.
  revert nm st ret st'. induction fuel as [|fuel IH]; intros nm st ret st' H; [done|].
  simpl in H.
  destruct (find_service nm st) as [i|]; [|simplify_eq; apply unmarked_refl].
  destruct (services st !! i) as [s|]; [|simplify_eq; apply unmarked_refl].
  destruct (bool_decide _ || bool_decide _); [simplify_eq; apply unmarked_refl|].
  assert (forall r1 st1,
            (if check_dependencies st s then Some (0, st)
             else start_dependencies (vgik_service_start clock fuel) s st)
            = Some (r1, st1) -> unmarked st st1) as Hdeps.
  { intros r1 st1 E. destruct (check_dependencies st s);
      [simplify_eq; apply unmarked_refl|].
    unfold start_dependencies in E.
    destruct (dependencies s) as [deps|]; [|simplify_eq; apply unmarked_refl].
    by eapply unmarked_start_each. }
  destruct (if check_dependencies st s then _ else _) as [[r1 st1]|]; [|done].
  specialize (Hdeps r1 st1 eq_refl).
  case_bool_decide; simplify_eq.
  - eapply unmarked_trans; [exact Hdeps|]. by apply unmarked_write_state.
  - destruct (launch clock i st1) as [r2 st2] eqn:E. simplify_eq.
    pose proof (unmarked_launch i st1) as Hl. rewrite E in Hl. simpl in Hl.
    by eapply unmarked_trans.
Qed.

Lemma unmarked_is_healthy nm (st : sm World) :
  unmarked st (vgik_service_is_healthy nm st).2.
Proof.
  unfold vgik_service_is_healthy.
  destruct (find_service nm st) as [i|]; [|apply unmarked_refl].
  destruct (services st !! i) as [s|]; [|apply unmarked_refl].
  case_bool_decide; [apply unmarked_refl|].
  destruct (health_cb s) as [cb|]; [|apply unmarked_refl].
  destruct (cb _ _). by eexists.
Qed.

(** One turn of the tick's loop: either it marks nothing RESTARTING and
    leaves the restart bookkeeping of every slot alone, or its service is
    not at its limit, is marked once, and has its count raised and its
    time of restart set before [vgik_service_start] is called. *)
Lemma process_service_turn fuel now i st st' :
  process_service clock fuel now i st = Some st' ->
  (unmarked st st' /\ keeps st st') \/
  exists s tr,
    services st !! i = Some s /\ ~ exhausted s /\
    trace st' = trace st ++ tr /\ restart_marks tr = [name s] /\
    frozen <$> services st' = frozen <$> <[i:=attempt now s]> (services st).
Proof.
  intros H.
  destruct (services st !! i) as [s|] eqn:Hs.
  2:{ unfold process_service in H. rewrite Hs in H. simplify_eq.
      left. split; [apply unmarked_refl|done]. }
  destruct (decide (state s = VGIK_SERVICE_STATE_RUNNING)) as [Hrun|Hrun].
  { unfold process_service in H. rewrite Hs in H.
    rewrite (bool_decide_eq_true_2 _ Hrun) in H.
    rewrite is_healthy_services, Hs in H.
    rewrite (bool_decide_eq_false_2 (state s = VGIK_SERVICE_STATE_FAILED)) in H
      by (rewrite Hrun; done).
    rewrite andb_false_r in H. simplify_eq. left.
    split; [apply unmarked_is_healthy|by rewrite is_healthy_services]. }
  destruct (decide (auto_restart s = true /\
                    state s = VGIK_SERVICE_STATE_FAILED /\
                    ~ exhausted s /\ due now s)) as [(Ha & Hf & Hex & Hdue)|Hidle].
  - rewrite (process_service_attempt fuel now i st s Hs Hf Ha Hex Hdue) in H.
    destruct (vgik_service_start _ _ _ _) as [[r st4]|] eqn:Hstart; [|done].
    simplify_eq. right.
    destruct (unmarked_start _ _ _ _ _ Hstart) as (tr & Htr & Hm).
    apply keeps_start in Hstart. cbn [services trace] in *.
    exists s, (ObsState (name s) VGIK_SERVICE_STATE_RESTARTING :: tr).
    split; [done|]. split; [done|].
    split; [by rewrite Htr, <- app_assoc|].
    split; [|done]. change (name s :: restart_marks tr = [name s]). by rewrite Hm.
  - rewrite (process_service_idle fuel now i st s Hs Hrun) in H.
    { simplify_eq. left. split; [apply unmarked_refl|done]. }
    destruct (auto_restart s); [|by left].
    destruct (decide (state s = VGIK_SERVICE_STATE_FAILED)); [|right; by left].
    destruct (decide (exhausted s)); [right; right; by left|].
    right; right; right. tauto.
Qed.

(** The loop of the tick, seen from one slot whose name no other slot
    bears. *)
Lemma process_from_turns fuel now idx :
  NoDup idx ->
  forall st st' j s,
  process_from clock fuel now idx st = Some st' ->
  services st !! j = Some s ->
  (forall k t, services st !! k = Some t -> name t = name s -> k = j) ->
  exists s' tr,
    services st' !! j = Some s' /\ trace st' = trace st ++ tr /\
    name s' = name s /\ max_restart_attempts s' = max_restart_attempts s /\
    ((filter (fun n => n = name s) (restart_marks tr) = [] /\
      restart_count s' = restart_count s /\
      last_restart_time s' = last_restart_time s) \/
     (j ∈ idx /\ ~ exhausted s /\
      filter (fun n => n = name s) (restart_marks tr) = [name s] /\
      restart_count s' = uint32_wrap (restart_count s + 1) /\
      last_restart_time s' = now)).
Proof.
  induction 1 as [|i idx Hi Hnd IH]; intros st st' j s H Hs Huniq; simpl in H.
  { simplify_eq. exists s, []. rewrite app_nil_r. repeat split; try done.
    by left. }
  destruct (process_service clock fuel now i st) as [st1|] eqn:E; [|done].
  assert (forall s1,
            services st1 !! j = Some s1 -> name s1 = name s ->
            name <$> services st1 = name <$> services st ->
            forall k t, services st1 !! k = Some t -> name t = name s1 -> k = j)
    as Huniq1.
  { intros s1 _ Hn1 Hnames k t Ht Hnt.
    apply (f_equal (fun l => l !! k)) in Hnames.
    rewrite !list_lookup_fmap, Ht in Hnames.
    destruct (services st !! k) as [t0|] eqn:Ht0; [|done].
    apply (Huniq k t0 Ht0). cbn in Hnames. congruence. }
  apply process_service_turn in E
    as [[(tr1 & Htr1 & Hm1) Hk]|(si & tr1 & Hsi & Hex & Htr1 & Hm1 & Hk)].
  - destruct (keeps_lookup _ _ j s Hk Hs) as (s1 & Hs1 & Hfr).
    destruct (frozen_fields _ _ Hfr) as (Hn & Hmx & Hc & Hl).
    assert (name <$> services st1 = name <$> services st) as Hnames.
    { by apply keeps_names. }
    destruct (IH st1 st' j s1 H Hs1 (Huniq1 s1 Hs1 Hn Hnames))
      as (s' & tr2 & Hs' & Htr2 & Hn' & Hmx' & Hcases).
    exists s', (tr1 ++ tr2). split; [done|].
    split; [by rewrite Htr2, Htr1, app_assoc|].
    split; [congruence|]. split; [congruence|].
    rewrite restart_marks_app, Hm1, app_nil_l. rewrite Hn in Hcases.
    destruct Hcases as [(Hf & Hc' & Hl')|(Hj & Hex & Hf & Hc' & Hl')].
    + left. split; [done|]. split; congruence.
    + right. split; [by right|]. split.
      { intros [H1 H2]. apply Hex. split; congruence. }
      split; [done|]. split; congruence.
  - assert (name <$> services st1 = name <$> services st) as Hnames.
    { rewrite (keeps_names _ _ Hk). by apply (names_insert _ _ si). }
    destruct (decide (j = i)) as [->|Hji].
    + assert (si = s) as -> by congruence.
      destruct (keeps_lookup _ _ i (attempt now s) Hk
                  ltac:(apply list_lookup_insert_eq; by eapply lookup_lt_Some))
        as (s1 & Hs1 & Hfr).
      destruct (frozen_fields _ _ Hfr) as (Hn & Hmx & Hc & Hl).
      cbn in Hn, Hmx, Hc, Hl.
      destruct (IH st1 st' i s1 H Hs1 (Huniq1 s1 Hs1 Hn Hnames))
        as (s' & tr2 & Hs' & Htr2 & Hn' & Hmx' & Hcases).
      exists s', (tr1 ++ tr2). split; [done|].
      split; [by rewrite Htr2, Htr1, app_assoc|].
      split; [congruence|]. split; [congruence|].
      rewrite restart_marks_app, Hm1. rewrite Hn in Hcases.
      destruct Hcases as [(Hf & Hc' & Hl')|(Hj & _)]; [|done].
      right. split; [by left|]. split; [done|].
      split.
      { rewrite list.filter_app, Hf, app_nil_r.
        rewrite filter_cons_True by done. done. }
      split; congruence.
    + destruct (keeps_lookup _ _ j s Hk
                  ltac:(rewrite list_lookup_insert_ne by done; done))
        as (s1 & Hs1 & Hfr).
      destruct (frozen_fields _ _ Hfr) as (Hn & Hmx & Hc & Hl).
      destruct (IH st1 st' j s1 H Hs1 (Huniq1 s1 Hs1 Hn Hnames))
        as (s' & tr2 & Hs' & Htr2 & Hn' & Hmx' & Hcases).
      exists s', (tr1 ++ tr2). split; [done|].
      split; [by rewrite Htr2, Htr1, app_assoc|].
      split; [congruence|]. split; [congruence|].
      rewrite restart_marks_app, Hm1. rewrite Hn in Hcases.
      assert (name si <> name s) as Hne.
      { intros Heq. apply Hji. symmetry. by apply (Huniq i si). }
      change ([name si] ++ restart_marks tr2) with (name si :: restart_marks tr2).
      rewrite filter_cons_False by done.
      destruct Hcases as [(Hf & Hc' & Hl')|(Hj & Hex' & Hf & Hc' & Hl')].
      * left. split; [done|]. split; congruence.
      * right. split; [by right|]. split.
        { intros [H1 H2]. apply Hex'. split; congruence. }
        split; [done|]. split; congruence.
Qed.

(** A whole tick, seen from one slot whose name no other slot bears. *)
Lemma process_turns fuel st st' j s :
  vgik_service_manager_process clock fuel st = Some st' ->
  services st !! j = Some s ->
  (forall k t, services st !! k = Some t -> name t = name s -> k = j) ->
  exists s' tr,
    services st' !! j = Some s' /\ trace st' = trace st ++ tr /\
    ((filter (fun n => n = name s) (restart_marks tr) = [] /\
      restart_count s' = restart_count s /\
      last_restart_time s' = last_restart_time s) \/
     (~ exhausted s /\
      filter (fun n => n = name s) (restart_marks tr) = [name s] /\
      restart_count s' = uint32_wrap (restart_count s + 1) /\
      last_restart_time s' = clock (world st))).
Proof.
  intros H Hs Huniq. unfold vgik_service_manager_process in H.
  destruct (negb (initialized st)).
  { simplify_eq. exists s, []. rewrite app_nil_r. split; [done|].
    split; [done|]. by left. }
  destruct (process_from_turns fuel _ _ (NoDup_seq 0 _) st st' j s H Hs Huniq)
    as (s' & tr & Hs' & Htr & _ & _ & Hcases).
  exists s', tr. split; [done|]. split; [done|].
  destruct Hcases as [?|(_ & ?)]; [by left|by right].
Qed.

(** *** The restart counter *)


(** ** Further properties of the service manager *)

(** *** Looking a name up *)

Lemma find_from_S n (l : list (vgik_service_t World)) k :
  find_from n l (S k) = S <$> find_from n l k.
Proof.
  revert k. induction l as [|x l IH]; intros k; simpl; [done|].
  destruct (name_is n x); [done|]. apply IH.
Qed.

Lemma lookup_service_cons n x (l : list (vgik_service_t World)) :
  lookup_service n (x :: l) = if name_is n x then Some x else lookup_service n l.
Proof.
  unfold lookup_service. simpl. destruct (name_is n x); [done|].
  rewrite find_from_S. by destruct (find_from n l 0).
Qed.

Lemma get_state_lookup n st :
  vgik_service_get_state (Some n) st =
  from_option state VGIK_SERVICE_STATE_FAILED (lookup_service n (services st)).
Proof.
  unfold vgik_service_get_state, lookup_service. simpl.
  destruct (find_from n (services st) 0) as [i|]; [|done]. simpl.
  by destruct (services st !! i).
Qed.

Lemma lookup_service_find n (l : list (vgik_service_t World)) :
  lookup_service n l = None <-> find_from n l 0 = None.
Proof.
  unfold lookup_service. split.
  - destruct (find_from n l 0) as [i|] eqn:E; [|done]. simpl.
    apply find_from_lookup in E as (_ & s & Hs & _).
    rewrite Nat.sub_0_r in Hs. by rewrite Hs.
  - by intros ->.
Qed.

Lemma name_is_true n (x : vgik_service_t World) :
  name_is n x = true <-> name x = Some n.
Proof.
  unfold name_is. destruct (name x) as [m|]; [|done].
  case_bool_decide; split; intros; simplify_eq; done.
Qed.

Lemma lookup_service_None n (l : list (vgik_service_t World)) :
  lookup_service n l = None <-> Some n ∉ name <$> l.
Proof.
  induction l as [|x l IH]; [split; [intros _ H; by apply not_elem_of_nil in H|done]|].
  rewrite lookup_service_cons, fmap_cons, not_elem_of_cons.
  destruct (name_is n x) eqn:E.
  - apply name_is_true in E. split; [done|]. intros [H _]. by rewrite E in H.
  - rewrite IH. split; [|tauto]. intros H. split; [|done].
    intros Hn. symmetry in Hn. apply name_is_true in Hn. congruence.
Qed.

Lemma lookup_service_Some n (l : list (vgik_service_t World)) s :
  lookup_service n l = Some s -> name s = Some n /\ s ∈ l.
Proof.
  induction l as [|x l IH]; [done|]. rewrite lookup_service_cons.
  destruct (name_is n x) eqn:E.
  - intros; simplify_eq. apply name_is_true in E. split; [done|]. by left.
  - intros H. destruct (IH H). split; [done|]. by right.
Qed.

Lemma lookup_service_app n (l l' : list (vgik_service_t World)) :
  lookup_service n (l ++ l') =
  match lookup_service n l with
  | Some s => Some s
  | None => lookup_service n l'
  end.
Proof.
  induction l as [|x l IH]; simpl.
  - by destruct (lookup_service n l').
  - rewrite !lookup_service_cons. by destruct (name_is n x).
Qed.

Lemma find_from_app_None n (l l' : list (vgik_service_t World)) k :
  find_from n l k = None ->
  find_from n (l ++ l') k = find_from n l' (k + length l).
Proof.
  revert k. induction l as [|x l IH]; intros k H; simpl in *.
  - by rewrite Nat.add_0_r.
  - destruct (name_is n x); [done|]. rewrite IH by done. f_equal. lia.
Qed.

Lemma find_from_app_Some n (l l' : list (vgik_service_t World)) k j :
  find_from n l k = Some j -> find_from n (l ++ l') k = Some j.
Proof.
  revert k. induction l as [|x l IH]; intros k H; simpl in *; [done|].
  destruct (name_is n x); [done|]. by apply IH.
Qed.

(** *** Registering *)

(** X1. A successful [register]: the descriptor lands in the next free slot as
    STOPPED with its counters and times zeroed, whatever they were in the
    descriptor; its name resolves to that slot; every other name resolves
    as before; and a second [register] under that name is refused without
    any change. *)
Theorem register_then_lookup d n st :
  initialized st = true ->
  name d = Some n ->
  find_service (Some n) st = None ->
  (length (services st) < 64)%nat ->
  exists st',
    vgik_service_register (Some d) st = (0, st') /\
    services st' = services st ++ [registered d] /\
    find_service (Some n) st' = Some (length (services st)) /\
    vgik_service_get_state (Some n) st' = VGIK_SERVICE_STATE_STOPPED /\
    lookup_service n (services st') = Some (registered d) /\
    (restart_count (registered d) = 0 /\ start_time (registered d) = 0 /\
     last_restart_time (registered d) = 0) /\
    (forall m, m <> n ->
       find_service (Some m) st' = find_service (Some m) st /\
       vgik_service_get_state (Some m) st' = vgik_service_get_state (Some m) st) /\
    (forall d2, name d2 = Some n ->
       vgik_service_register (Some d2) st' = (-1, st')).
Proof.
  intros Hini Hname Hfree Hroom. simpl in Hfree.
  assert (name_is n (registered d) = true) as Hnew by (by apply name_is_true).
  assert (find_from n (services st ++ [registered d]) 0 = Some (length (services st)))
    as Hfound.
  { rewrite (find_from_app_None _ _ _ _ Hfree). simpl. by rewrite Hnew. }
  assert (lookup_service n (services st ++ [registered d]) = Some (registered d))
    as Hlook.
  { rewrite lookup_service_app.
    rewrite (proj2 (lookup_service_find n (services st)) Hfree).
    by rewrite lookup_service_cons, Hnew. }
  eexists. split.
  { unfold vgik_service_register. rewrite Hini, Hname. cbn [negb orb].
    rewrite (bool_decide_eq_true_2 (is_Some (Some n))) by done. cbn [negb].
    simpl find_service. rewrite Hfree.
    rewrite (bool_decide_eq_false_2 (is_Some None)) by (by intros [? ?]).
    rewrite bool_decide_eq_false_2; [reflexivity|].
    unfold service_count, VGIK_SERVICE_MAX_SERVICES. lia. }
  cbn [services emit with_services].
  split; [done|]. split; [exact Hfound|]. split.
  { rewrite get_state_lookup. cbn [services emit with_services]. by rewrite Hlook. }
  split; [exact Hlook|]. split; [done|]. split.
  - intros m Hm.
    assert (name_is m (registered d) = false) as Hother.
    { destruct (name_is m (registered d)) eqn:E; [|done].
      apply name_is_true in E. cbn in E. congruence. }
    split.
    + simpl. destruct (find_from m (services st) 0) as [j|] eqn:E.
      * by apply find_from_app_Some.
      * rewrite (find_from_app_None _ _ _ _ E). simpl. by rewrite Hother.
    + rewrite !get_state_lookup. cbn [services emit with_services].
      rewrite lookup_service_app.
      destruct (lookup_service m (services st)); [done|].
      by rewrite lookup_service_cons, Hother.
  - intros d2 Hd2. unfold vgik_service_register.
    cbn [initialized emit with_services]. rewrite Hini, Hd2. cbn [negb orb].
    rewrite (bool_decide_eq_true_2 (is_Some (Some n))) by done. cbn [negb].
    simpl find_service. rewrite Hfound.
    by rewrite bool_decide_eq_true_2.
Qed.

(** X2. [register] followed by [unregister] of the same name gives back the
    table as it was: the new service is STOPPED, so nothing is stopped and
    no callback runs. *)
Theorem register_unregister d n st :
  initialized st = true ->
  name d = Some n ->
  find_service (Some n) st = None ->
  (length (services st) < 64)%nat ->
  let st1 := (vgik_service_register (Some d) st).2 in
  (vgik_service_register (Some d) st).1 = 0 /\
  (vgik_service_unregister (Some n) st1).1 = 0 /\
  services (vgik_service_unregister (Some n) st1).2 = services st /\
  world (vgik_service_unregister (Some n) st1).2 = world st /\
  initialized (vgik_service_unregister (Some n) st1).2 = true /\
  trace (vgik_service_unregister (Some n) st1).2 =
    trace st ++ [ObsState (Some n) VGIK_SERVICE_STATE_STOPPED].
Proof.
  intros Hini Hname Hfree Hroom. simpl in Hfree. cbv zeta.
  assert (vgik_service_register (Some d) st =
          (0, emit (ObsState (Some n) VGIK_SERVICE_STATE_STOPPED)
                (with_services (services st ++ [registered d]) st))) as ->.
  { unfold vgik_service_register. rewrite Hini, Hname. cbn [negb orb].
    rewrite (bool_decide_eq_true_2 (is_Some (Some n))) by done. cbn [negb].
    simpl find_service. rewrite Hfree.
    rewrite (bool_decide_eq_false_2 (is_Some None)) by (by intros [? ?]).
    rewrite bool_decide_eq_false_2; [reflexivity|].
    unfold service_count, VGIK_SERVICE_MAX_SERVICES. lia. }
  cbn [fst snd]. split; [done|].
  unfold vgik_service_unregister. cbn [services emit with_services].
  rewrite (find_from_app_None _ _ _ _ Hfree). simpl find_from.
  rewrite (proj2 (name_is_true n (registered d))) by done.
  rewrite ?Nat.add_0_l. rewrite list_lookup_middle by done.
  cbn [state registered set_restart_count set_last_restart_time set_start_time
       set_state].
  rewrite bool_decide_eq_false_2 by done.
  cbn [fst snd services with_services emit world initialized trace].
  rewrite delete_middle, app_nil_r. by rewrite Hini.
Qed.

(** *** Unregistering *)

Lemma lookup_delete_self n (l : list (vgik_service_t World)) i :
  NoDup (name <$> l) -> find_from n l 0 = Some i ->
  lookup_service n (delete i l) = None.
Proof.
  revert i. induction l as [|x l IH]; intros i Hnd Hf; [done|].
  rewrite fmap_cons in Hnd. apply list.NoDup_cons in Hnd as [Hx Hnd].
  simpl in Hf. destruct (name_is n x) eqn:E.
  - simplify_eq. simpl. apply lookup_service_None.
    apply name_is_true in E. by rewrite <- E.
  - rewrite find_from_S in Hf.
    destruct (find_from n l 0) as [j|] eqn:Hj; [|done]. simpl in Hf. simplify_eq.
    simpl. rewrite lookup_service_cons, E. by apply IH.
Qed.

Lemma lookup_delete_other n m (l : list (vgik_service_t World)) i s :
  l !! i = Some s -> name s = Some n -> m <> n ->
  lookup_service m (delete i l) = lookup_service m l.
Proof.
  revert i. induction l as [|x l IH]; intros i Hs Hn Hm; [done|].
  destruct i as [|i]; simpl in *.
  - simplify_eq. rewrite lookup_service_cons.
    destruct (name_is m s) eqn:E; [|done].
    apply name_is_true in E. congruence.
  - rewrite !lookup_service_cons. destruct (name_is m x); [done|]. by eapply IH.
Qed.

Lemma unregister_services n st i :
  find_service (Some n) st = Some i ->
  (vgik_service_unregister (Some n) st).1 = 0 /\
  services (vgik_service_unregister (Some n) st).2 = delete i (services st).
Proof.
  intros Hf. unfold vgik_service_unregister. simpl in Hf. rewrite Hf.
  split; [done|]. cbn [snd services with_services].
  destruct (services st !! i) as [s|]; [|done].
  case_bool_decide; [|done].
  destruct (stop_services (Some n) st i Hf) as [f ->].
  apply delete_alter_same.
Qed.

(** X3. With names that are pairwise distinct, [unregister] of a registered
    name makes the name unknown: the table is one slot shorter, the name is
    not found, [get_state] answers FAILED, a second [unregister] and a
    [start] return -1 and change nothing; every other name still finds its
    service exactly as it was. *)
Theorem unregister_forgets n st i :
  NoDup (name <$> services st) ->
  find_service (Some n) st = Some i ->
  let st' := (vgik_service_unregister (Some n) st).2 in
  (vgik_service_unregister (Some n) st).1 = 0 /\
  S (length (services st')) = length (services st) /\
  find_service (Some n) st' = None /\
  vgik_service_get_state (Some n) st' = VGIK_SERVICE_STATE_FAILED /\
  vgik_service_unregister (Some n) st' = (-1, st') /\
  (forall fuel, vgik_service_start clock (S fuel) (Some n) st' = Some (-1, st')) /\
  (forall m, m <> n ->
     lookup_service m (services st') = lookup_service m (services st) /\
     vgik_service_get_state (Some m) st' = vgik_service_get_state (Some m) st).
Proof.
  intros Hnd Hf. cbv zeta.
  destruct (unregister_services n st i Hf) as [Hret Hsvc].
  destruct (find_service_lookup _ _ _ Hf) as (n' & s & Hn' & Hs & Hname).
  simplify_eq.
  set (st' := (vgik_service_unregister (Some n') st).2) in *.
  assert (lookup_service n' (services st') = None) as Hgone.
  { rewrite Hsvc. by apply lookup_delete_self. }
  assert (find_from n' (services st') 0 = None) as Hnone
    by (by apply lookup_service_find).
  split; [done|]. split.
  { rewrite Hsvc, length_delete by (by eexists). 
    pose proof (lookup_lt_Some _ _ _ Hs). lia. }
  split; [exact Hnone|]. split.
  { by rewrite get_state_lookup, Hgone. }
  split.
  { unfold vgik_service_unregister. by rewrite Hnone. }
  split.
  { intros fuel. simpl. by rewrite Hnone. }
  intros m Hm.
  assert (lookup_service m (services st') = lookup_service m (services st)) as E.
  { rewrite Hsvc. by eapply lookup_delete_other. }
  split; [done|]. by rewrite !get_state_lookup, E.
Qed.

(** *** Names never change *)

Lemma names_start fuel nm st ret st' :
  vgik_service_start clock fuel nm st = Some (ret, st') ->
  name <$> services st' = name <$> services st.
Proof. intros H. apply keeps_names. by eapply keeps_start. Qed.

Lemma names_stop nm st :
  name <$> services (vgik_service_stop nm st).2 = name <$> services st.
Proof. apply keeps_names, keeps_stop. Qed.

Lemma names_start_all fuel idx started st ret st' :
  start_all_from clock fuel idx started st = Some (ret, st') ->
  name <$> services st' = name <$> services st.
Proof.
  revert started st. induction idx as [|i idx IH]; intros started st H; simpl in H.
  - by simplify_eq.
  - destruct (vgik_service_start _ _ _ _) as [[r st1]|] eqn:E; [|done].
    apply IH in H. rewrite H. by eapply names_start.
Qed.

Lemma names_stop_all idx stopped st :
  name <$> services (stop_all_from idx stopped st).2 = name <$> services st.
Proof.
  revert stopped st. induction idx as [|i idx IH]; intros stopped st; simpl; [done|].
  destruct (vgik_service_stop (name_of i st) st) as [r st1] eqn:E.
  rewrite IH. pose proof (names_stop (name_of i st) st) as H. by rewrite E in H.
Qed.

Lemma names_process fuel st st' :
  vgik_service_manager_process clock fuel st = Some st' ->
  name <$> services st' = name <$> services st.
Proof.
  unfold vgik_service_manager_process.
  destruct (negb (initialized st)); [intros; by simplify_eq|].
  intros H. apply process_from_slots in H as [Hlen Hslot]; [|apply NoDup_seq].
  apply list_eq. intros j. rewrite !list_lookup_fmap.
  destruct (services st !! j) as [s|] eqn:Hs.
  - pose proof (lookup_lt_Some _ _ _ Hs) as Hlt.
    destruct (services st' !! j) as [s'|] eqn:Hs'.
    2:{ apply lookup_ge_None in Hs'. lia. }
    destruct (Hslot j s s' Hs Hs') as [Ha _]. simpl. f_equal.
    apply Ha. apply elem_of_seq. lia.
  - apply lookup_ge_None in Hs.
    rewrite (proj2 (lookup_ge_None (services st') j)) by lia. done.
Qed.

Lemma named_names (l : list (vgik_service_t World)) :
  Forall (fun s => is_Some (name s)) l <-> Forall is_Some (name <$> l).
Proof. by rewrite list.Forall_fmap. Qed.

Lemma initialized_launch i st :
  initialized (launch clock i st).2 = initialized st.
Proof.
  unfold launch.
  destruct (services (write_state i VGIK_SERVICE_STATE_STARTING st) !! i) as [s|];
    [|done].
  destruct (start_cb s) as [cb|].
  - destruct (cb _ _) as [ret w]. by case_bool_decide.
  - by case_bool_decide.
Qed.

Lemma initialized_start_each
    (start : option string -> sm World -> option (Z * sm World)) deps :
  (forall nm st ret st', start nm st = Some (ret, st') ->
     initialized st' = initialized st) ->
  forall st ret st', start_each start deps st = Some (ret, st') ->
    initialized st' = initialized st.
Proof.
  intros Hstart. induction deps as [|d deps IH]; intros st ret st' H; simpl in H.
  - by simplify_eq.
  - destruct (start d st) as [[r st1]|] eqn:E; [|done].
    apply Hstart in E. case_bool_decide.
    + by simplify_eq.
    + apply IH in H. by rewrite H.
Qed.

Lemma initialized_start fuel nm st ret st' :
  vgik_service_start clock fuel nm st = Some (ret, st') ->
  initialized st' = initialized st.
Proof.
  revert nm st ret st'. induction fuel as [|fuel IH]; intros nm st ret st' H; [done|].
  simpl in H.
  destruct (find_service nm st) as [i|]; [|by simplify_eq].
  destruct (services st !! i) as [s|]; [|by simplify_eq].
  destruct (bool_decide _ || bool_decide _); [by simplify_eq|].
  assert (forall r1 st1,
            (if check_dependencies st s then Some (0, st)
             else start_dependencies (vgik_service_start clock fuel) s st)
            = Some (r1, st1) -> initialized st1 = initialized st) as Hdeps.
  { intros r1 st1 E. destruct (check_dependencies st s); [by simplify_eq|].
    unfold start_dependencies in E.
    destruct (dependencies s) as [deps|]; [|by simplify_eq].
    by eapply initialized_start_each. }
  destruct (if check_dependencies st s then _ else _) as [[r1 st1]|]; [|done].
  specialize (Hdeps r1 st1 eq_refl).
  case_bool_decide; simplify_eq.
  - done.
  - destruct (launch clock i st1) as [r2 st2] eqn:E. simplify_eq.
    pose proof (initialized_launch i st1) as Hl. rewrite E in Hl. simpl in Hl.
    by rewrite Hl.
Qed.

Lemma initialized_stop nm st :
  initialized (vgik_service_stop nm st).2 = initialized st.
Proof.
  unfold vgik_service_stop.
  destruct (find_service nm st) as [i|]; [|done].
  destruct (services st !! i) as [s|]; [|done].
  destruct (bool_decide _ || bool_decide _); [done|].
  destruct (stop_cb s) as [cb|].
  - destruct (cb _ _) as [ret w]. by case_bool_decide.
  - by case_bool_decide.
Qed.

Lemma initialized_is_healthy nm st :
  initialized (vgik_service_is_healthy nm st).2 = initialized st.
Proof.
  unfold vgik_service_is_healthy.
  destruct (find_service nm st) as [i|]; [|done].
  destruct (services st !! i) as [s|]; [|done].
  case_bool_decide; [done|].
  destruct (health_cb s) as [cb|]; [|done]. by destruct (cb _ _).
Qed.

Lemma initialized_start_all fuel idx started st ret st' :
  start_all_from clock fuel idx started st = Some (ret, st') ->
  initialized st' = initialized st.
Proof.
  revert started st. induction idx as [|i idx IH]; intros started st H; simpl in H.
  - by simplify_eq.
  - destruct (vgik_service_start _ _ _ _) as [[r st1]|] eqn:E; [|done].
    apply IH in H. rewrite H. by eapply initialized_start.
Qed.

Lemma initialized_stop_all idx stopped st :
  initialized (stop_all_from idx stopped st).2 = initialized st.
Proof.
  revert stopped st. induction idx as [|i idx IH]; intros stopped st; simpl; [done|].
  destruct (vgik_service_stop (name_of i st) st) as [r st1] eqn:E.
  rewrite IH. pose proof (initialized_stop (name_of i st) st) as H. by rewrite E in H.
Qed.

Lemma initialized_process_service fuel now i st st' :
  process_service clock fuel now i st = Some st' ->
  initialized st' = initialized st.
Proof.
  unfold process_service.
  destruct (services st !! i) as [s0|]; [|intros; by simplify_eq].
  set (st1 := if bool_decide (state s0 = VGIK_SERVICE_STATE_RUNNING)
              then (vgik_service_is_healthy (name s0) st).2 else st).
  assert (initialized st1 = initialized st) as <-.
  { unfold st1. case_bool_decide; [apply initialized_is_healthy|done]. }
  destruct (services st1 !! i) as [s|]; [|intros; by simplify_eq].
  destruct (auto_restart s && _); [|intros; by simplify_eq].
  destruct (bool_decide _ && bool_decide _); [intros; by simplify_eq|].
  destruct (bool_decide _ || bool_decide _); [|intros; by simplify_eq].
  destruct (vgik_service_start _ _ _ _) as [[r st4]|] eqn:E; [|done].
  intros. simplify_eq. by apply initialized_start in E.
Qed.

Lemma initialized_process fuel st st' :
  vgik_service_manager_process clock fuel st = Some st' ->
  initialized st' = initialized st.
Proof.
  unfold vgik_service_manager_process.
  destruct (negb (initialized st)); [intros; by simplify_eq|].
  generalize (clock (world st)) (seq 0 (length (services st))). intros now idx.
  revert st. induction idx as [|i idx IH]; intros st H; simpl in H.
  - by simplify_eq.
  - destruct (process_service _ _ _ _ _) as [st1|] eqn:E; [|done].
    apply IH in H. rewrite H. by eapply initialized_process_service.
Qed.

Lemma registry_ok_names st st' :
  name <$> services st' = name <$> services st ->
  initialized st' = initialized st ->
  registry_ok st -> registry_ok st'.
Proof.
  intros H Hini (Hnamed & Hnd & Hlen & Hempty). unfold registry_ok.
  rewrite H, Hini. split; [|split; [done|split]].
  - apply named_names. rewrite H. by apply named_names.
  - apply (f_equal length) in H. rewrite !length_fmap in H. lia.
  - intros Hoff. rewrite (Hempty Hoff) in H. by apply fmap_nil_inv in H.
Qed.

Lemma performs_registry st c st' :
  performs clock st c st' -> registry_ok st -> registry_ok st'.
Proof.
  intros Hc Hok. destruct Hc.
  - unfold vgik_service_manager_init. destruct (initialized st) eqn:Hini; [done|].
    destruct Hok as (Hnamed & Hnd & Hlen & Hempty). by repeat split.
  - unfold vgik_service_manager_deinit. destruct (negb (initialized st)); [done|].
    repeat split; cbn; [constructor|constructor|lia].
  - unfold vgik_service_register. destruct service as [d|]; [|done].
    destruct (initialized st) eqn:Hini; cbn [negb orb]; [|done].
    destruct (name d) as [n|] eqn:Hn.
    2:{ rewrite (bool_decide_eq_false_2 (is_Some None)) by (by intros [? ?]). done. }
    rewrite (bool_decide_eq_true_2 (is_Some (Some n))) by done. cbn [negb].
    case_bool_decide as E2; [done|]. case_bool_decide as E3; [done|].
    destruct Hok as (Hnamed & Hnd & Hlen & _).
    assert (find_service (Some n) st = None) as Hfree.
    { destruct (find_service (Some n) st); [|done]. exfalso. apply E2. by eexists. }
    simpl in Hfree.
    repeat split; cbn [snd services emit with_services initialized].
    + apply Forall_app. split; [done|]. constructor; [|constructor].
      exists n. exact Hn.
    + rewrite fmap_app. apply list.NoDup_app. split; [done|]. split.
      * intros x Hx Hin. apply list_elem_of_singleton in Hin. subst x.
        cbn in Hx. rewrite Hn in Hx. revert Hx. apply lookup_service_None.
        by apply lookup_service_find.
      * apply list.NoDup_singleton.
    + rewrite length_app. simpl. unfold service_count, VGIK_SERVICE_MAX_SERVICES in E3.
      lia.
    + intros Hoff. cbn in Hoff. congruence.
  - destruct Hok as (Hnamed & Hnd & Hlen & Hempty).
    destruct nm as [n|]; [|done]. unfold vgik_service_unregister.
    destruct (find_from n (services st) 0) as [i|] eqn:Hf; [|done].
    destruct (unregister_services n st i Hf) as [_ Hsvc].
    unfold vgik_service_unregister in Hsvc. rewrite Hf in Hsvc.
    cbn [snd] in Hsvc. unfold registry_ok. cbn [snd]. rewrite Hsvc. repeat split.
    + by apply Forall_delete.
    + rewrite list_fmap_delete.
      exact (sublist_NoDup _ _ Hnd (sublist_delete _ i)).
    + pose proof (sublist_length _ _ (sublist_delete (services st) i)). lia.
    + intros Hoff. rewrite Hempty; [done|]. rewrite <- Hoff.
      destruct (match services st !! i with
                | Some s => bool_decide (state s = VGIK_SERVICE_STATE_RUNNING)
                | None => false
                end); cbn [initialized with_services]; [|done].
      symmetry. apply initialized_stop.
  - eapply registry_ok_names; [| |done].
    + by eapply names_start.
    + by eapply initialized_start.
  - eapply registry_ok_names; [| |done]; [apply names_stop|apply initialized_stop].
  - unfold vgik_service_restart in H.
    destruct (vgik_service_stop nm st) as [r st1] eqn:E.
    pose proof (names_stop nm st) as Hs. rewrite E in Hs. simpl in Hs.
    pose proof (initialized_stop nm st) as Hi. rewrite E in Hi. simpl in Hi.
    case_bool_decide; simplify_eq.
    + by eapply registry_ok_names.
    + eapply registry_ok_names; [| |done].
      * rewrite <- Hs. by eapply names_start.
      * rewrite <- Hi. by eapply initialized_start.
  - eapply registry_ok_names; [| |done];
      [by rewrite is_healthy_services|apply initialized_is_healthy].
  - eapply registry_ok_names; [| |done].
    + by eapply names_start_all.
    + by eapply initialized_start_all.
  - eapply registry_ok_names; [| |done];
      [apply names_stop_all|apply initialized_stop_all].
  - eapply registry_ok_names; [| |done].
    + by eapply names_process.
    + by eapply initialized_process.
  - done.
Qed.

(** X4. Whatever functions of the header are called, in whatever order and
    with whatever arguments, every slot of the table stays named, no name
    is registered twice, at most 64 services are registered, and the table
    is empty whenever the manager is not initialised. *)
Theorem registry_invariant st cs st' :
  registry_ok st -> performs_all clock st cs st' -> registry_ok st'.
Proof.
  intros Hok Hrun. induction Hrun as [st|st c st1 cs st2 Hc _ IH]; [done|].
  apply IH. by eapply performs_registry.
Qed.

(** *** Starting and stopping twice *)

Lemma start_cases fuel nm st ret st' :
  vgik_service_start clock (S fuel) nm st = Some (ret, st') ->
  (find_service nm st = None /\ ret = -1 /\ st' = st) \/
  exists i s,
    find_service nm st = Some i /\ services st !! i = Some s /\
    ((~ not_started s /\ ret = 0 /\ st' = st) \/
     (not_started s /\
      exists st1, keeps st st1 /\
        ((ret = -1 /\ st' = write_state i VGIK_SERVICE_STATE_FAILED st1) \/
         launch clock i st1 = (ret, st')))).
Proof.
  intros H. simpl in H.
  destruct (find_service nm st) as [i|] eqn:Hf; [|left; by simplify_eq].
  right. destruct (find_service_lookup _ _ _ Hf) as (n & s & -> & Hs & _).
  exists i, s. rewrite Hs in H. split; [done|]. split; [done|].
  destruct (bool_decide (state s = VGIK_SERVICE_STATE_RUNNING)
            || bool_decide (state s = VGIK_SERVICE_STATE_STARTING)) eqn:Hrun.
  - left. simplify_eq. split; [|done]. intros [H1 H2].
    apply orb_true_iff in Hrun as [Hr|Hr]; apply bool_decide_eq_true_1 in Hr; done.
  - right. apply orb_false_iff in Hrun as [H1 H2].
    apply bool_decide_eq_false_1 in H1. apply bool_decide_eq_false_1 in H2.
    split; [done|].
    assert (forall r1 st1,
              (if check_dependencies st s then Some (0, st)
               else start_dependencies (vgik_service_start clock fuel) s st)
              = Some (r1, st1) -> keeps st st1) as Hdeps.
    { intros r1 st1 E. destruct (check_dependencies st s); [by simplify_eq|].
      unfold start_dependencies in E.
      destruct (dependencies s) as [deps|]; [|by simplify_eq].
      eapply keeps_start_each; [|exact E]. intros. by eapply keeps_start. }
    destruct (if check_dependencies st s then _ else _) as [[r1 st1]|]; [|done].
    exists st1. split; [by eapply Hdeps|].
    case_bool_decide; simplify_eq; [by left|right].
    by destruct (launch clock i st1).
Qed.

Lemma launch_zero i st st' s :
  services st !! i = Some s ->
  launch clock i st = (0, st') ->
  exists w tr,
    st' = mk_sm (initialized st)
            (<[i:=set_start_time (clock w) (set_state VGIK_SERVICE_STATE_RUNNING s)]>
               (services st)) w tr.
Proof.
  intros Hs. rewrite (launch_at st i s Hs).
  destruct (start_cb s) as [cb|].
  - cbv zeta. case_bool_decide as Hr.
    + intros E. injection E as E1 E2. by rewrite E1 in Hr.
    + intros E. injection E as <-. by eexists _, _.
  - intros E. injection E as <-. by eexists _, _.
Qed.

(** X5. A [start] that returned 0 leaves the service RUNNING (or STARTING, if
    it was STARTING before), and calling [start] again returns 0 without
    changing anything or invoking any callback. *)
Theorem start_is_idempotent fuel nm st st' :
  vgik_service_start clock fuel nm st = Some (0, st') ->
  (vgik_service_get_state nm st' = VGIK_SERVICE_STATE_RUNNING \/
   vgik_service_get_state nm st' = VGIK_SERVICE_STATE_STARTING) /\
  forall fuel', vgik_service_start clock (S fuel') nm st' = Some (0, st').
Proof.
  destruct fuel as [|fuel]; [done|]. intros H.
  apply start_cases in H as [(_ & ? & _)|(i & s & Hf & Hs & H)]; [done|].
  assert (forall s', services st' !! i = Some s' ->
            name <$> services st' = name <$> services st ->
            (state s' = VGIK_SERVICE_STATE_RUNNING \/
             state s' = VGIK_SERVICE_STATE_STARTING) ->
            (vgik_service_get_state nm st' = VGIK_SERVICE_STATE_RUNNING \/
             vgik_service_get_state nm st' = VGIK_SERVICE_STATE_STARTING) /\
            forall fuel', vgik_service_start clock (S fuel') nm st' = Some (0, st'))
    as Hdone.
  { intros s' Hs' Hnames Hst.
    assert (find_service nm st' = Some i) as Hf'.
    { rewrite <- Hf. by apply find_service_names. }
    split; [by rewrite (get_state_at nm st' i s' Hf' Hs')|].
    intros fuel'. simpl. rewrite Hf', Hs'.
    destruct Hst as [-> | ->]; by rewrite ?bool_decide_eq_true_2 by done. }
  destruct H as [(Hns & _ & ->)|(Hns & st1 & Hk & [(? & _)|Hl])]; [|done|].
  - apply (Hdone s Hs eq_refl).
    destruct (decide (state s = VGIK_SERVICE_STATE_RUNNING)); [by left|].
    destruct (decide (state s = VGIK_SERVICE_STATE_STARTING)); [by right|].
    exfalso. by apply Hns.
  - destruct (keeps_lookup _ _ i s Hk Hs) as (s1 & Hs1 & Hfr).
    destruct (launch_zero i st1 st' s1 Hs1 Hl) as (w & tr & ->).
    pose proof (lookup_lt_Some _ _ _ Hs1) as Hlt.
    eapply Hdone.
    + cbn. by apply list_lookup_insert_eq.
    + cbn. rewrite (names_insert _ _ s1) by done. by apply keeps_names.
    + by left.
Qed.

Lemma stop_at nm st i s :
  find_service nm st = Some i ->
  services st !! i = Some s ->
  state s <> VGIK_SERVICE_STATE_STOPPED ->
  state s <> VGIK_SERVICE_STATE_STOPPING ->
  vgik_service_stop nm st =
  let r := outcome (stop_cb s) (user_data s) (world st) in
  let called :=
    match stop_cb s with
    | Some _ => [ObsStopCb (name s) r.1]
    | None => []
    end in
  if bool_decide (r.1 ≠ 0) then
    (r.1,
     mk_sm (initialized st)
       (<[i:=set_state VGIK_SERVICE_STATE_FAILED s]> (services st)) r.2
       (trace st ++ [ObsState (name s) VGIK_SERVICE_STATE_STOPPING] ++ called
          ++ [ObsState (name s) VGIK_SERVICE_STATE_FAILED]))
  else
    (0,
     mk_sm (initialized st)
       (<[i:=set_start_time 0 (set_state VGIK_SERVICE_STATE_STOPPED s)]>
          (services st)) r.2
       (trace st ++ [ObsState (name s) VGIK_SERVICE_STATE_STOPPING] ++ called
          ++ [ObsState (name s) VGIK_SERVICE_STATE_STOPPED])).
Proof.
  intros Hf Hs H1 H2. unfold vgik_service_stop. rewrite Hf, Hs.
  rewrite !bool_decide_eq_false_2 by done. cbn [orb].
  rewrite (write_state_at _ _ _ _ Hs).
  unfold outcome. destruct (stop_cb s) as [cb|]; cbv zeta.
  - destruct (cb _ _) as [ret w]. cbn [fst snd]. case_bool_decide.
    + erewrite write_state_at by slot_updated. cbn.
      by rewrite list_insert_insert_eq, <- !app_assoc.
    + erewrite write_state_at by slot_updated.
      erewrite modify_at by slot_updated. cbn.
      by rewrite !list_insert_insert_eq, <- !app_assoc.
  - cbn [fst snd]. rewrite !bool_decide_eq_false_2 by (intros ?; done).
    erewrite write_state_at by slot_updated.
    erewrite modify_at by slot_updated. cbn.
    by rewrite !list_insert_insert_eq, <- !app_assoc.
Qed.

(** X6. [stop] of a service that is neither STOPPED nor STOPPING marks it
    STOPPING and invokes the stop callback, if there is one. On success
    the call returns 0 and the service is STOPPED with its start time
    cleared: the [start_time] field of its slot is 0 afterwards. On
    failure the call returns the callback's value, the service is FAILED
    and its [start_time] is left as it was. No start callback runs and no
    other slot changes. *)
Theorem stop_transitions nm st i s :
  find_service nm st = Some i ->
  services st !! i = Some s ->
  state s <> VGIK_SERVICE_STATE_STOPPED ->
  state s <> VGIK_SERVICE_STATE_STOPPING ->
  let r := outcome (stop_cb s) (user_data s) (world st) in
  exists st' final,
    vgik_service_stop nm st = (r.1, st') /\
    world st' = r.2 /\
    vgik_service_get_state nm st' = final /\
    (exists called,
       trace st' = trace st ++ [ObsState (name s) VGIK_SERVICE_STATE_STOPPING]
                     ++ called ++ [ObsState (name s) final] /\
       called = match stop_cb s with
                | Some _ => [ObsStopCb (name s) r.1]
                | None => []
                end) /\
    start_calls (trace st') = start_calls (trace st) /\
    (forall j, j <> i -> services st' !! j = services st !! j) /\
    (r.1 = 0 ->
       final = VGIK_SERVICE_STATE_STOPPED /\
       services st' =
         <[i:=set_start_time 0 (set_state VGIK_SERVICE_STATE_STOPPED s)]>
           (services st)) /\
    (r.1 <> 0 ->
       final = VGIK_SERVICE_STATE_FAILED /\
       services st' = <[i:=set_state VGIK_SERVICE_STATE_FAILED s]> (services st)) /\
    exists s',
      services st' !! i = Some s' /\
      state s' = final /\
      (r.1 = 0 -> start_time s' = 0) /\
      (r.1 <> 0 -> start_time s' = start_time s).
Proof.
  intros Hf Hs H1 H2 r. rewrite (stop_at nm st i s Hf Hs H1 H2). fold r. cbv zeta.
  pose proof (lookup_lt_Some _ _ _ Hs) as Hlt.
  assert (forall final v,
            start_calls
              (trace st ++ [ObsState (name s) VGIK_SERVICE_STATE_STOPPING] ++
               match stop_cb s with
               | Some _ => [ObsStopCb (name s) v]
               | None => []
               end ++ [ObsState (name s) final]) = start_calls (trace st)) as Hcalls.
  { intros final v. rewrite start_calls_app.
    destruct (stop_cb s); cbn; by rewrite app_nil_r. }
  case_bool_decide as Hr.
  - eexists _, VGIK_SERVICE_STATE_FAILED. split; [done|]. cbn [world trace services].
    split; [done|]. split.
    { by rewrite (get_state_updated nm st i s _ _ _ _ Hf Hs). }
    split; [by eexists|]. split; [apply Hcalls|]. split.
    { intros j Hj. by rewrite list_lookup_insert_ne. }
    split; [intros; done|]. split; [done|].
    exists (set_state VGIK_SERVICE_STATE_FAILED s).
    split; [by apply list_lookup_insert_eq|]. split; [done|]. split; [done|].
    intros _. reflexivity.
  - assert (r.1 = 0) as Hz by (destruct (decide (r.1 = 0)); [done|contradiction]).
    eexists _, VGIK_SERVICE_STATE_STOPPED. rewrite Hz. split; [done|].
    cbn [world trace services].
    split; [done|]. split.
    { by rewrite (get_state_updated nm st i s _ _ _ _ Hf Hs). }
    split; [by eexists|]. split; [apply Hcalls|]. split.
    { intros j Hj. by rewrite list_lookup_insert_ne. }
    split; [done|]. split; [intros; done|].
    exists (set_start_time 0 (set_state VGIK_SERVICE_STATE_STOPPED s)).
    split; [by apply list_lookup_insert_eq|]. split; [done|].
    split; [intros _; reflexivity|done].
Qed.

(** X7. A [stop] that returned 0 leaves the service STOPPED (or STOPPING, if
    it was STOPPING before), and calling [stop] again returns 0 without
    changing anything or invoking the stop callback again. *)
Theorem stop_is_idempotent nm st :
  (vgik_service_stop nm st).1 = 0 ->
  (vgik_service_get_state nm (vgik_service_stop nm st).2 = VGIK_SERVICE_STATE_STOPPED \/
   vgik_service_get_state nm (vgik_service_stop nm st).2 = VGIK_SERVICE_STATE_STOPPING) /\
  vgik_service_stop nm (vgik_service_stop nm st).2 = (0, (vgik_service_stop nm st).2).
Proof.
  destruct (find_service nm st) as [i|] eqn:Hf.
  2:{ unfold vgik_service_stop. rewrite Hf. done. }
  destruct (find_service_lookup _ _ _ Hf) as (n & s & -> & Hs & _).
  assert (forall st1 s1,
            services st1 !! i = Some s1 ->
            find_service (Some n) st1 = Some i ->
            (state s1 = VGIK_SERVICE_STATE_STOPPED \/
             state s1 = VGIK_SERVICE_STATE_STOPPING) ->
            (vgik_service_get_state (Some n) st1 = VGIK_SERVICE_STATE_STOPPED \/
             vgik_service_get_state (Some n) st1 = VGIK_SERVICE_STATE_STOPPING) /\
            vgik_service_stop (Some n) st1 = (0, st1)) as Hdone.
  { intros st1 s1 Hs1 Hf1 Hst.
    split; [by rewrite (get_state_at _ st1 i s1 Hf1 Hs1)|].
    unfold vgik_service_stop. rewrite Hf1, Hs1.
    destruct Hst as [-> | ->]; by rewrite ?bool_decide_eq_true_2 by done. }
  destruct (decide (state s = VGIK_SERVICE_STATE_STOPPED)) as [Hst|H1].
  { intros _. assert (vgik_service_stop (Some n) st = (0, st)) as ->.
    { unfold vgik_service_stop. rewrite Hf, Hs, Hst. done. }
    apply (Hdone st s Hs Hf). by left. }
  destruct (decide (state s = VGIK_SERVICE_STATE_STOPPING)) as [Hst|H2].
  { intros _. assert (vgik_service_stop (Some n) st = (0, st)) as ->.
    { unfold vgik_service_stop. rewrite Hf, Hs, Hst. done. }
    apply (Hdone st s Hs Hf). by right. }
  rewrite (stop_at _ st i s Hf Hs H1 H2). cbv zeta.
  pose proof (lookup_lt_Some _ _ _ Hs) as Hlt.
  case_bool_decide as Hr; cbn [fst snd]; [done|]. intros _.
  eapply Hdone.
  - cbn. by apply list_lookup_insert_eq.
  - rewrite <- Hf. apply find_service_names. cbn. by apply (names_insert _ _ s).
  - by left.
Qed.

(** *** Dependencies that do not start *)

Lemma names_differ st (a b : string) ia ib :
  find_service (Some a) st = Some ia ->
  find_service (Some b) st = Some ib ->
  a <> b -> ia <> ib.
Proof.
  intros Ha Hb Hne ->.
  destruct (find_service_lookup _ _ _ Ha) as (? & ? & ? & ? & ?).
  destruct (find_service_lookup _ _ _ Hb) as (? & ? & ? & ? & ?).
  congruence.
Qed.

Lemma start_with_dependencies fuel nm st i s :
  find_service nm st = Some i ->
  services st !! i = Some s ->
  not_started s ->
  check_dependencies st s = false ->
  vgik_service_start clock (S fuel) nm st =
  match start_dependencies (vgik_service_start clock fuel) s st with
  | None => None
  | Some (ret, st1) =>
      if bool_decide (ret ≠ 0)
      then Some (-1, write_state i VGIK_SERVICE_STATE_FAILED st1)
      else Some (launch clock i st1)
  end.
Proof.
  intros Hf Hs [H1 H2] Hc. simpl. rewrite Hf, Hs.
  rewrite !bool_decide_eq_false_2 by done. simpl. by rewrite Hc.
Qed.

(** X8. A service whose first dependency starts and whose second dependency
    fails: [start] returns -1 and marks the service FAILED without invoking
    its own callback; the first dependency stays RUNNING (nothing is rolled
    back), the failed one is FAILED, and the dependencies listed after it
    are not started: no further callback runs and no other slot changes. *)
Theorem dependency_failure_keeps_started (P D1 D2 : string) rest fuel st iS i1 i2
    sS s1 s2 cb1 cb2 :
  find_service (Some P) st = Some iS -> services st !! iS = Some sS ->
  find_service (Some D1) st = Some i1 -> services st !! i1 = Some s1 ->
  find_service (Some D2) st = Some i2 -> services st !! i2 = Some s2 ->
  P <> D1 -> P <> D2 -> D1 <> D2 ->
  not_started sS ->
  dependencies sS = Some (Some D1 :: Some D2 :: rest) ->
  state s1 = VGIK_SERVICE_STATE_STOPPED ->
  state s2 = VGIK_SERVICE_STATE_STOPPED ->
  (dependencies s1 = None \/ dependencies s1 = Some []) ->
  (dependencies s2 = None \/ dependencies s2 = Some []) ->
  start_cb s1 = Some cb1 -> start_cb s2 = Some cb2 ->
  (cb1 (user_data s1) (world st)).1 = 0 ->
  (cb2 (user_data s2) (cb1 (user_data s1) (world st)).2).1 <> 0 ->
  (2 <= fuel)%nat ->
  exists st' tr,
    vgik_service_start clock fuel (Some P) st = Some (-1, st') /\
    trace st' = trace st ++ tr /\
    start_calls tr =
      [(Some D1, 0);
       (Some D2, (cb2 (user_data s2) (cb1 (user_data s1) (world st)).2).1)] /\
    stop_calls tr = [] /\
    vgik_service_get_state (Some P) st' = VGIK_SERVICE_STATE_FAILED /\
    vgik_service_get_state (Some D1) st' = VGIK_SERVICE_STATE_RUNNING /\
    vgik_service_get_state (Some D2) st' = VGIK_SERVICE_STATE_FAILED /\
    (forall j, j <> iS -> j <> i1 -> j <> i2 ->
       services st' !! j = services st !! j).
Proof.
  intros HfS HsS Hf1 Hs1 Hf2 Hs2 HS1 HS2 H12 HnS Hdeps Hst1 Hst2 Hd1 Hd2 Hc1 Hc2
    Hok Hfail Hfuel.
  destruct fuel as [|[|fuel]]; [lia..|].
  pose proof (names_differ st _ _ _ _ HfS Hf1 HS1) as HiS1.
  pose proof (names_differ st _ _ _ _ HfS Hf2 HS2) as HiS2.
  pose proof (names_differ st _ _ _ _ Hf1 Hf2 H12) as Hi12.
  assert (name sS = Some P) as HnmS.
  { destruct (find_service_lookup _ _ _ HfS) as (? & ? & ? & ? & ?). congruence. }
  assert (name s1 = Some D1) as Hnm1.
  { destruct (find_service_lookup _ _ _ Hf1) as (? & ? & ? & ? & ?). congruence. }
  assert (name s2 = Some D2) as Hnm2.
  { destruct (find_service_lookup _ _ _ Hf2) as (? & ? & ? & ? & ?). congruence. }
  set (r1 := cb1 (user_data s1) (world st)) in *.
  set (r2 := cb2 (user_data s2) r1.2) in *.
  (* the first dependency *)
  pose proof (start_leaf fuel (Some D1) st i1 s1 cb1 Hf1 Hs1
                ltac:(split; rewrite Hst1; done) Hd1 Hc1) as E1.
  cbv zeta in E1. fold r1 in E1.
  rewrite (bool_decide_eq_false_2 (r1.1 ≠ 0)) in E1 by (intros H; by apply H).
  set (st1 := mk_sm _ _ _ _) in E1.
  assert (name <$> services st1 = name <$> services st) as Hn1.
  { unfold st1. cbn. by apply (names_insert _ _ s1). }
  (* the second dependency *)
  assert (find_service (Some D2) st1 = Some i2) as Hf2'.
  { rewrite <- Hf2. by apply find_service_names. }
  assert (services st1 !! i2 = Some s2) as Hs2'.
  { unfold st1. cbn. by rewrite list_lookup_insert_ne. }
  pose proof (start_leaf fuel (Some D2) st1 i2 s2 cb2 Hf2' Hs2'
                ltac:(split; rewrite Hst2; done) Hd2 Hc2) as E2.
  cbv zeta in E2. cbn [world st1] in E2. fold r2 in E2.
  rewrite (bool_decide_eq_true_2 (r2.1 ≠ 0)) in E2 by done.
  (* the service itself *)
  assert (check_dependencies st sS = false) as Hck.
  { unfold check_dependencies. rewrite Hdeps. cbn [forallb].
    rewrite (dependency_not_running st (Some D1) i1 s1 Hf1 Hs1) by (by rewrite Hst1).
    done. }
  rewrite (start_with_dependencies _ _ st iS sS HfS HsS HnS Hck).
  unfold start_dependencies. rewrite Hdeps. cbn [start_each].
  rewrite E1. rewrite (bool_decide_eq_false_2 (0 ≠ 0)) by (intros H; by apply H).
  rewrite E2. rewrite (bool_decide_eq_true_2 (r2.1 ≠ 0)) by done.
  rewrite (bool_decide_eq_true_2 (r2.1 ≠ 0)) by done.
  erewrite (write_state_at _ iS sS)
    by (cbn; rewrite !list_lookup_insert_ne by done; exact HsS).
  cbn [initialized services world trace st1].
  pose proof (lookup_lt_Some _ _ _ HsS) as HltS.
  pose proof (lookup_lt_Some _ _ _ Hs1) as Hlt1.
  pose proof (lookup_lt_Some _ _ _ Hs2) as Hlt2.
  eexists _, _. split; [reflexivity|]. cbn [trace].
  split; [by rewrite <- !app_assoc|].
  split; [cbn; by rewrite Hnm1, Hnm2, Hok|]. split; [done|].
  assert (forall nm i sX,
            find_service nm st = Some i ->
            <[iS:=set_state VGIK_SERVICE_STATE_FAILED sS]>
              (<[i2:=set_state VGIK_SERVICE_STATE_FAILED s2]>
                 (<[i1:=set_start_time (clock r1.2)
                          (set_state VGIK_SERVICE_STATE_RUNNING s1)]> (services st)))
              !! i = Some sX ->
            forall ini w tr,
            vgik_service_get_state nm
              (mk_sm ini
                 (<[iS:=set_state VGIK_SERVICE_STATE_FAILED sS]>
                    (<[i2:=set_state VGIK_SERVICE_STATE_FAILED s2]>
                       (<[i1:=set_start_time (clock r1.2)
                                (set_state VGIK_SERVICE_STATE_RUNNING s1)]>
                          (services st)))) w tr) = state sX) as Hget.
  { intros nm i sX Hf Hl ini w tr.
    eapply get_state_same_names; [|exact Hf|exact Hl]. names_kept. }
  split; [|split; [|split]].
  - rewrite (Hget _ iS (set_state VGIK_SERVICE_STATE_FAILED sS) HfS); [done|].
    apply list_lookup_insert_eq. by rewrite !length_insert.
  - rewrite (Hget _ i1 (set_start_time (clock r1.2)
                          (set_state VGIK_SERVICE_STATE_RUNNING s1)) Hf1); [done|].
    rewrite !list_lookup_insert_ne by done. by apply list_lookup_insert_eq.
  - rewrite (Hget _ i2 (set_state VGIK_SERVICE_STATE_FAILED s2) Hf2); [done|].
    rewrite list_lookup_insert_ne by done.
    apply list_lookup_insert_eq. by rewrite length_insert.
  - intros j H1 H2 H3. cbn [services]. by rewrite !list_lookup_insert_ne.
Qed.

Lemma start_each_unknown
    (start : option string -> sm World -> option (Z * sm World)) deps d :
  (forall nm st ret st', start nm st = Some (ret, st') ->
     name <$> services st' = name <$> services st) ->
  (forall st ret st', find_service d st = None ->
     start d st = Some (ret, st') -> ret <> 0) ->
  d ∈ deps ->
  forall st ret st',
    find_service d st = None ->
    start_each start deps st = Some (ret, st') -> ret <> 0.
Proof.
  intros Hnames Hunknown Hin. induction Hin as [d deps|d x deps _ IH];
    intros st ret st' Hd H; simpl in H.
  - destruct (start d st) as [[r st1]|] eqn:E; [|done].
    pose proof (Hunknown _ _ _ Hd E) as Hr.
    rewrite bool_decide_eq_true_2 in H by done. by simplify_eq.
  - destruct (start x st) as [[r st1]|] eqn:E; [|done].
    case_bool_decide as Hr; [by simplify_eq|].
    eapply (IH Hunknown st1); [|exact H].
    rewrite <- Hd. apply find_service_names. by eapply Hnames.
Qed.

(** [blocked nm i deps d st]: the service [nm], in slot [i], is not
    started and lists the dependency [d], which is not registered. *)
#[local] Abbreviation blocked nm i deps d st :=
  (find_service nm st = Some i /\ find_service d st = None /\
   exists s, services st !! i = Some s /\ not_started s /\
             dependencies s = Some deps).

Lemma blocked_other nm i deps d st j sj sj' ini w tr :
  blocked nm i deps d st ->
  j <> i -> services st !! j = Some sj -> name sj' = name sj ->
  blocked nm i deps d (mk_sm ini (<[j:=sj']> (services st)) w tr).
Proof.
  intros (Hf & Hd & s & Hs & Hn & Hdeps) Hj Hsj Hname.
  assert (name <$> <[j:=sj']> (services st) = name <$> services st) as Hnames
    by (by apply (names_insert _ _ sj)).
  split; [|split].
  - rewrite <- Hf. by apply find_service_names.
  - rewrite <- Hd. by apply find_service_names.
  - exists s. cbn. by rewrite list_lookup_insert_ne.
Qed.

Lemma blocked_failed nm i deps d st ini w tr :
  blocked nm i deps d st ->
  forall s, services st !! i = Some s ->
  blocked nm i deps d
    (mk_sm ini (<[i:=set_state VGIK_SERVICE_STATE_FAILED s]> (services st)) w tr).
Proof.
  intros (Hf & Hd & s0 & Hs0 & Hn & Hdeps) s Hs.
  assert (s0 = s) as -> by congruence.
  assert (name <$> <[i:=set_state VGIK_SERVICE_STATE_FAILED s]> (services st)
          = name <$> services st) as Hnames
    by (by apply (names_insert _ _ s)).
  split; [|split].
  - rewrite <- Hf. by apply find_service_names.
  - rewrite <- Hd. by apply find_service_names.
  - exists (set_state VGIK_SERVICE_STATE_FAILED s). cbn.
    split; [apply list_lookup_insert_eq; by eapply lookup_lt_Some|].
    split; [by split|done].
Qed.

Lemma start_each_blocked nm i deps d
    (start : option string -> sm World -> option (Z * sm World)) deps0 :
  (forall nm' st ret st',
     blocked nm i deps d st -> start nm' st = Some (ret, st') ->
     blocked nm i deps d st' /\
     exists tr, trace st' = trace st ++ tr /\
                forall r, (nm, r) ∉ start_calls tr) ->
  forall st ret st',
    blocked nm i deps d st ->
    start_each start deps0 st = Some (ret, st') ->
    blocked nm i deps d st' /\
    exists tr, trace st' = trace st ++ tr /\
               forall r, (nm, r) ∉ start_calls tr.
Proof.
  intros Hstart. induction deps0 as [|x deps0 IH]; intros st ret st' Hb H; simpl in H.
  - simplify_eq. split; [done|]. exists []. split; [by rewrite app_nil_r|].
    intros r. apply not_elem_of_nil.
  - destruct (start x st) as [[r1 st1]|] eqn:E; [|done].
    destruct (Hstart _ _ _ _ Hb E) as (Hb1 & tr1 & Ht1 & Hn1).
    case_bool_decide.
    + simplify_eq. split; [done|]. by exists tr1.
    + destruct (IH _ _ _ Hb1 H) as (Hb2 & tr2 & Ht2 & Hn2).
      split; [done|]. exists (tr1 ++ tr2). split; [by rewrite Ht2, Ht1, app_assoc|].
      intros r. rewrite start_calls_app. apply not_elem_of_app.
      split; [apply Hn1|apply Hn2].
Qed.

Lemma start_blocked nm i deps d :
  d ∈ deps ->
  forall fuel nm' st ret st',
    blocked nm i deps d st ->
    vgik_service_start clock fuel nm' st = Some (ret, st') ->
    blocked nm i deps d st' /\
    exists tr, trace st' = trace st ++ tr /\
               forall r, (nm, r) ∉ start_calls tr.
Proof.
  intros Hin. induction fuel as [|fuel IH]; intros nm' st ret st' Hb H; [done|].
  pose proof Hb as (Hfi & Hfd & s & Hs & Hns & Hds).
  assert (forall st0 : sm World,
            exists tr, trace st0 = trace st0 ++ tr /\
                       forall r, (nm, r) ∉ start_calls tr) as Hnothing.
  { intros st0. exists []. split; [by rewrite app_nil_r|].
    intros r. apply not_elem_of_nil. }
  simpl in H.
  destruct (find_service nm' st) as [i'|] eqn:Hf'; [|by simplify_eq].
  destruct (find_service_lookup _ _ _ Hf') as (n' & s' & -> & Hs' & Hn').
  rewrite Hs' in H.
  destruct (bool_decide (state s' = VGIK_SERVICE_STATE_RUNNING)
            || bool_decide (state s' = VGIK_SERVICE_STATE_STARTING));
    [by simplify_eq|].
  assert (forall r1 st1,
            (if check_dependencies st s' then Some (0, st)
             else start_dependencies (vgik_service_start clock fuel) s' st)
            = Some (r1, st1) ->
            blocked nm i deps d st1 /\
            (exists tr, trace st1 = trace st ++ tr /\
                        forall r, (nm, r) ∉ start_calls tr) /\
            name <$> services st1 = name <$> services st /\
            (i' = i -> r1 <> 0)) as Hdeps.
  { intros r1 st1 E. destruct (check_dependencies st s') eqn:Hck.
    - simplify_eq. split; [done|]. split; [done|]. split; [done|].
      intros ->. assert (s' = s) as -> by congruence. exfalso.
      unfold check_dependencies in Hck. rewrite Hds in Hck.
      rewrite forallb_forall in Hck. apply list_elem_of_In in Hin.
      specialize (Hck d Hin). unfold dependency_running in Hck.
      by rewrite Hfd in Hck.
    - unfold start_dependencies in E.
      destruct (dependencies s') as [deps'|] eqn:Hd'.
      + destruct (start_each_blocked nm i deps d
                    (vgik_service_start clock fuel) deps' IH st r1 st1 Hb E)
          as (Hb1 & Htr1).
        split; [done|]. split; [done|]. split.
        { apply keeps_names. eapply keeps_start_each; [|exact E].
          intros. by eapply keeps_start. }
        intros ->. assert (s' = s) as -> by congruence.
        assert (deps' = deps) as -> by congruence.
        eapply (start_each_unknown (vgik_service_start clock fuel) deps d);
          [| |exact Hin|exact Hfd|exact E].
        * intros. by eapply names_start.
        * intros st0 ret0 st0' Hd0 H0. destruct fuel as [|fuel']; [done|].
          simpl in H0. rewrite Hd0 in H0. by simplify_eq.
      + simplify_eq. split; [done|]. split; [done|]. split; [done|].
        intros ->. assert (s' = s) as -> by congruence. congruence. }
  destruct (if check_dependencies st s' then _ else _) as [[r1 st1]|]; [|done].
  destruct (Hdeps r1 st1 eq_refl) as (Hb1 & (tr1 & Ht1 & Hn1) & Hnames & Hr1).
  clear Hdeps.
  assert (exists s1', services st1 !! i' = Some s1' /\ name s1' = Some n')
    as (s1' & Hs1' & Hn1').
  { apply (f_equal (fun l => l !! i')) in Hnames.
    rewrite !list_lookup_fmap, Hs' in Hnames.
    destruct (services st1 !! i') as [s1'|]; [|done].
    exists s1'. split; [done|]. cbn in Hnames. congruence. }
  assert (i' <> i -> nm <> Some n') as Hother.
  { intros Hne ->. congruence. }
  case_bool_decide as Hret.
  - simplify_eq. rewrite (write_state_at _ _ _ _ Hs1'). split.
    + destruct (decide (i' = i)) as [->|Hne].
      * by apply blocked_failed.
      * by apply (blocked_other _ _ _ _ _ _ s1').
    + cbn [trace]. exists (tr1 ++ [ObsState (name s1') VGIK_SERVICE_STATE_FAILED]).
      split; [by rewrite Ht1, app_assoc|].
      intros r. rewrite start_calls_app. cbn. rewrite app_nil_r. apply Hn1.
  - assert (i' <> i) as Hne.
    { intros ->. by apply Hr1. }
    specialize (Hother Hne).
    rewrite (launch_at st1 i' s1' Hs1') in H.
    assert (forall r0 r : Z, (nm, r0) ∉ [(name s1', r)]) as Hcall.
    { intros r0 r Hel. apply list_elem_of_singleton in Hel. congruence. }
    destruct (start_cb s1') as [cb|]; cbv zeta in H.
    + case_bool_decide; simplify_eq.
      * split; [by apply (blocked_other _ _ _ _ _ _ s1')|].
        cbn [trace]. eexists (tr1 ++ _). split; [by rewrite Ht1, app_assoc|].
        intros r. rewrite start_calls_app. apply not_elem_of_app.
        split; [apply Hn1|]. cbn. apply Hcall.
      * split; [by apply (blocked_other _ _ _ _ _ _ s1')|].
        cbn [trace]. eexists (tr1 ++ _). split; [by rewrite Ht1, app_assoc|].
        intros r. rewrite start_calls_app. apply not_elem_of_app.
        split; [apply Hn1|]. cbn. apply Hcall.
    + simplify_eq. split; [by apply (blocked_other _ _ _ _ _ _ s1')|].
      cbn [trace]. eexists (tr1 ++ _). split; [by rewrite Ht1, app_assoc|].
      intros r. rewrite start_calls_app. apply not_elem_of_app.
      split; [apply Hn1|]. cbn. apply not_elem_of_nil.
Qed.

(** X9. A service that lists a dependency which is not registered (or a NULL
    name) cannot be started: whenever [start] returns, it returns -1, the
    service is FAILED and its own start callback has not been invoked: no
    start callback recorded by the call carries its name, whatever other
    dependencies were started on the way. When the unknown dependency is
    the first one listed, [start] returns at once, having changed nothing
    else. *)
Theorem start_with_unknown_dependency nm st i s deps d :
  find_service nm st = Some i ->
  services st !! i = Some s ->
  not_started s ->
  dependencies s = Some deps ->
  d ∈ deps ->
  find_service d st = None ->
  (forall fuel ret st',
     vgik_service_start clock fuel nm st = Some (ret, st') ->
     ret = -1 /\
     vgik_service_get_state nm st' = VGIK_SERVICE_STATE_FAILED /\
     (exists st1,
        frozen <$> services st1 = frozen <$> services st /\
        st' = write_state i VGIK_SERVICE_STATE_FAILED st1) /\
     exists tr,
       trace st' = trace st ++ tr /\
       forall r, (nm, r) ∉ start_calls tr) /\
  (forall fuel rest,
     deps = d :: rest ->
     vgik_service_start clock (S (S fuel)) nm st =
       Some (-1, write_state i VGIK_SERVICE_STATE_FAILED st)).
Proof.
  intros Hf Hs [Hn1 Hn2] Hdeps Hin Hd.
  assert (check_dependencies st s = false) as Hck.
  { unfold check_dependencies. rewrite Hdeps.
    apply not_true_is_false. intros Hall.
    rewrite forallb_forall in Hall. apply list_elem_of_In in Hin.
    specialize (Hall d Hin). unfold dependency_running in Hall.
    by rewrite Hd in Hall. }
  split.
  - intros fuel ret st' H.
    assert (exists tr, trace st' = trace st ++ tr /\
                       forall r, (nm, r) ∉ start_calls tr) as Hquiet.
    { eapply (start_blocked nm i deps d Hin fuel nm st ret st'); [|exact H].
      split; [done|]. split; [done|]. by exists s. }
    destruct fuel as [|fuel]; [done|].
    rewrite (start_with_dependencies _ _ st i s Hf Hs (conj Hn1 Hn2) Hck) in H.
    unfold start_dependencies in H. rewrite Hdeps in H.
    destruct (start_each (vgik_service_start clock fuel) deps st)
      as [[r1 st1]|] eqn:E; [|done].
    assert (r1 <> 0) as Hr1.
    { eapply (start_each_unknown (vgik_service_start clock fuel) deps d);
        [| |exact Hin|exact Hd|exact E].
      - intros. by eapply names_start.
      - intros st0 ret0 st0' Hd0 H0. destruct fuel as [|fuel]; [done|].
        simpl in H0. rewrite Hd0 in H0. by simplify_eq. }
    rewrite bool_decide_eq_true_2 in H by done. simplify_eq.
    assert (keeps st st1) as Hk.
    { eapply keeps_start_each; [|exact E]. intros. by eapply keeps_start. }
    split; [done|]. split; [|split; [by exists st1|exact Hquiet]].
    destruct (keeps_lookup _ _ i s Hk Hs) as (s1 & Hs1 & Hfr).
    rewrite (write_state_at _ _ _ _ Hs1).
    rewrite (get_state_same_names nm st _ i (set_state VGIK_SERVICE_STATE_FAILED s1));
      [done| |done|].
    + cbn. rewrite (names_insert _ _ s1) by done. by apply keeps_names.
    + cbn. apply list_lookup_insert_eq. by eapply lookup_lt_Some.
  - intros fuel rest ->.
    rewrite (start_with_dependencies _ _ st i s Hf Hs (conj Hn1 Hn2) Hck).
    unfold start_dependencies. rewrite Hdeps. simpl.
    rewrite Hd. by rewrite !bool_decide_eq_true_2.
Qed.

(** X10. Two services that depend on each other (or one service that depends on
    itself), neither of them RUNNING or STARTING: [start] of either does
    not return, whatever the depth of recursion allowed. No state is
    written and no callback is invoked before the recursion runs away: a
    call for a service whose only dependency is registered and not RUNNING
    does nothing before it calls [start] for that dependency, which
    receives the manager (slots, world and trace) exactly as the first
    call found it; a state is written, or a callback invoked, only on the
    return of that inner call. This first part holds whatever the
    dependency itself depends on; in a cycle the inner call never
    returns. *)
Theorem start_of_cycle_does_not_return (A B : string) st ia ib sA sB :
  find_service (Some A) st = Some ia -> services st !! ia = Some sA ->
  find_service (Some B) st = Some ib -> services st !! ib = Some sB ->
  not_started sA -> not_started sB ->
  dependencies sA = Some [Some B] ->
  (forall fuel,
     vgik_service_start clock (S fuel) (Some A) st =
       match vgik_service_start clock fuel (Some B) st with
       | None => None
       | Some (ret, st1) =>
           if bool_decide (ret ≠ 0)
           then Some (-1, write_state ia VGIK_SERVICE_STATE_FAILED st1)
           else Some (launch clock ia st1)
       end) /\
  (dependencies sB = Some [Some A] ->
   forall fuel,
     vgik_service_start clock fuel (Some A) st = None /\
     vgik_service_start clock fuel (Some B) st = None).
Proof.
  intros HfA HsA HfB HsB HnA HnB HdA.
  assert (dependency_running st (Some B) = false) as HrB.
  { eapply dependency_not_running; [done..|]. by destruct HnB. }
  pose proof (fun fuel =>
                start_single_dependency fuel _ st ia sA (Some B) HfA HsA HnA HdA HrB)
    as HA.
  split; [exact HA|]. intros HdB.
  assert (dependency_running st (Some A) = false) as HrA.
  { eapply dependency_not_running; [done..|]. by destruct HnA. }
  pose proof (fun fuel =>
                start_single_dependency fuel _ st ib sB (Some A) HfB HsB HnB HdB HrA)
    as HB.
  intros fuel. induction fuel as [|fuel [IHA IHB]]; [done|]. split.
  - by rewrite HA, IHB.
  - by rewrite HB, IHA.
Qed.

(** *** Restart *)

(** X11. [restart] is [stop] followed by [start] and stops at the first
    failure: when the stop callback fails, [restart] returns its value,
    the service is FAILED and no start callback is invoked, whatever the
    recursion depth allowed to [start]. On a service that is already
    STOPPED or STOPPING, with or without a stop callback, [restart] is
    [start]. *)
Theorem restart_stops_at_failed_stop nm st i s :
  find_service nm st = Some i ->
  services st !! i = Some s ->
  (forall cb,
   stop_cb s = Some cb ->
   state s <> VGIK_SERVICE_STATE_STOPPED /\ state s <> VGIK_SERVICE_STATE_STOPPING ->
   (cb (user_data s) (world st)).1 <> 0 ->
   forall fuel,
   exists st',
     vgik_service_restart clock fuel nm st
       = Some ((cb (user_data s) (world st)).1, st') /\
     vgik_service_get_state nm st' = VGIK_SERVICE_STATE_FAILED /\
     start_calls (trace st') = start_calls (trace st) /\
     stop_calls (trace st') =
       stop_calls (trace st) ++ [(name s, (cb (user_data s) (world st)).1)]) /\
  (state s = VGIK_SERVICE_STATE_STOPPED \/ state s = VGIK_SERVICE_STATE_STOPPING ->
   forall fuel,
     vgik_service_restart clock fuel nm st = vgik_service_start clock fuel nm st).
Proof.
  intros Hf Hs. split.
  - intros cb Hcb [H1 H2] Hfail fuel. unfold vgik_service_restart.
    rewrite (stop_at nm st i s Hf Hs H1 H2). unfold outcome. rewrite Hcb. cbv zeta.
    rewrite (bool_decide_eq_true_2 _ Hfail). rewrite (bool_decide_eq_true_2 _ Hfail).
    eexists. split; [reflexivity|]. split.
    { by rewrite (get_state_updated nm st i s _ _ _ _ Hf Hs). }
    cbn [trace]. split.
    + rewrite start_calls_app. cbn. by rewrite app_nil_r.
    + unfold stop_calls. rewrite omap_app. done.
  - intros Hst fuel. unfold vgik_service_restart.
    assert (vgik_service_stop nm st = (0, st)) as ->.
    { unfold vgik_service_stop. rewrite Hf, Hs.
      destruct Hst as [-> | ->]; by rewrite ?bool_decide_eq_true_2 by done. }
    by rewrite bool_decide_eq_false_2 by (intros H; by apply H).
Qed.

(** *** The loops over the registry *)

Lemma find_slot n (pre suf : list (vgik_service_t World)) s :
  NoDup (name <$> (pre ++ s :: suf)) ->
  name s = Some n ->
  find_from n (pre ++ s :: suf) 0 = Some (length pre).
Proof.
  intros Hnd Hn. rewrite fmap_app, fmap_cons in Hnd.
  apply list.NoDup_app in Hnd as (_ & Hdis & _).
  assert (find_from n pre 0 = None) as Hpre.
  { apply lookup_service_find, lookup_service_None. intros Hin.
    apply (Hdis _ Hin). rewrite Hn. apply list_elem_of_here. }
  rewrite (find_from_app_None _ _ _ _ Hpre). simpl.
  by rewrite (proj2 (name_is_true n s) Hn).
Qed.

Lemma insert_middle (pre suf : list (vgik_service_t World)) s s' :
  <[length pre:=s']> (pre ++ s :: suf) = pre ++ s' :: suf.
Proof.
  rewrite insert_app_r_alt by lia. by rewrite Nat.sub_diag.
Qed.

Lemma lookup_middle (pre suf : list (vgik_service_t World)) s :
  (pre ++ s :: suf) !! length pre = Some s.
Proof. by rewrite list_lookup_middle. Qed.

Lemma stop_calls_app tr1 tr2 :
  stop_calls (tr1 ++ tr2) = stop_calls tr1 ++ stop_calls tr2.
Proof. apply omap_app. Qed.

Lemma stop_slot nm st i s :
  find_service nm st = Some i ->
  services st !! i = Some s ->
  exists s',
    services (vgik_service_stop nm st).2 = <[i:=s']> (services st) /\
    name s' = name s /\
    (state s' = VGIK_SERVICE_STATE_STOPPED \/
     state s' = VGIK_SERVICE_STATE_STOPPING \/
     state s' = VGIK_SERVICE_STATE_FAILED) /\
    ((vgik_service_stop nm st).1 = 0 <-> state s' <> VGIK_SERVICE_STATE_FAILED) /\
    start_calls (trace (vgik_service_stop nm st).2) = start_calls (trace st).
Proof.
  intros Hf Hs.
  destruct (decide (state s = VGIK_SERVICE_STATE_STOPPED
                    \/ state s = VGIK_SERVICE_STATE_STOPPING)) as [Hst|Hst].
  - exists s. unfold vgik_service_stop. rewrite Hf, Hs.
    assert (bool_decide (state s = VGIK_SERVICE_STATE_STOPPED)
            || bool_decide (state s = VGIK_SERVICE_STATE_STOPPING) = true) as ->.
    { destruct Hst as [-> | ->]; done. }
    cbn [fst snd]. rewrite list_insert_id by done.
    split; [done|]. split; [done|]. split; [tauto|]. split; [|done].
    split; [|done]. intros _. destruct Hst as [-> | ->]; done.
  - rewrite (stop_at nm st i s Hf Hs) by tauto. cbv zeta.
    assert (forall v,
              start_calls
                (trace st ++ [ObsState (name s) VGIK_SERVICE_STATE_STOPPING]
                   ++ match stop_cb s with
                      | Some _ => [ObsStopCb (name s)
                                     (outcome (stop_cb s) (user_data s) (world st)).1]
                      | None => []
                      end ++ [ObsState (name s) v])
              = start_calls (trace st)) as Hcalls.
    { intros v. rewrite !start_calls_app.
      destruct (stop_cb s); cbn; by rewrite app_nil_r. }
    case_bool_decide as Hr; cbn [fst snd services trace].
    + exists (set_state VGIK_SERVICE_STATE_FAILED s).
      split; [done|]. split; [done|]. split; [cbn; tauto|].
      split; [|apply Hcalls]. cbn. split; [done|]. intros H; by destruct H.
    + exists (set_start_time 0 (set_state VGIK_SERVICE_STATE_STOPPED s)).
      split; [done|]. split; [done|]. split; [cbn; tauto|].
      split; [|apply Hcalls]. cbn. split; done.
Qed.

Lemma stop_all_from_slots (suf : list (vgik_service_t World)) :
  forall pre c st,
    services st = pre ++ suf ->
    NoDup (name <$> (pre ++ suf)) ->
    Forall (fun s => is_Some (name s)) suf ->
    exists suf',
      services (stop_all_from (seq (length pre) (length suf)) c st).2
        = pre ++ suf' /\
      name <$> suf' = name <$> suf /\
      Forall (fun s => state s = VGIK_SERVICE_STATE_STOPPED \/
                       state s = VGIK_SERVICE_STATE_STOPPING \/
                       state s = VGIK_SERVICE_STATE_FAILED) suf' /\
      (stop_all_from (seq (length pre) (length suf)) c st).1 =
        c + Z.of_nat (length (filter (fun s => state s <> VGIK_SERVICE_STATE_FAILED)
                                suf')) /\
      start_calls (trace (stop_all_from (seq (length pre) (length suf)) c st).2)
        = start_calls (trace st).
Proof.
  induction suf as [|s suf IH]; intros pre c st Hsv Hnd Hnamed.
  - exists []. cbn. rewrite Hsv. repeat split; [done|lia].
  - apply list.Forall_cons in Hnamed as [[n Hn] Hnamed].
    assert (find_service (name s) st = Some (length pre)) as Hf.
    { rewrite Hn. unfold find_service. rewrite Hsv. by apply find_slot. }
    assert (services st !! length pre = Some s) as Hs.
    { rewrite Hsv. apply lookup_middle. }
    destruct (stop_slot _ _ _ _ Hf Hs) as (s' & Hsv' & Hn' & Hfin & Hret & Hcalls).
    cbn [length seq stop_all_from].
    assert (name_of (length pre) st = name s) as ->.
    { unfold name_of. by rewrite Hs. }
    destruct (vgik_service_stop (name s) st) as [ret st1] eqn:E.
    cbn [fst snd] in *.
    rewrite Hsv, insert_middle in Hsv'.
    assert (services st1 = (pre ++ [s']) ++ suf) as Hsv1.
    { by rewrite <- app_assoc. }
    assert (name <$> ((pre ++ [s']) ++ suf) = name <$> (pre ++ s :: suf)) as Hnames.
    { rewrite <- app_assoc. cbn. rewrite !fmap_app, !fmap_cons. by rewrite Hn'. }
    destruct (IH (pre ++ [s'])
                (if bool_decide (ret = 0) then c + 1 else c) st1 Hsv1
                ltac:(by rewrite Hnames) Hnamed)
      as (suf' & H1 & H2 & H3 & H4 & H5).
    rewrite length_app in H1, H4, H5. cbn [length] in H1, H4, H5.
    replace (length pre + 1)%nat with (S (length pre)) in H1, H4, H5 by lia.
    exists (s' :: suf'). rewrite H1, H4, H5.
    split; [by rewrite <- app_assoc|].
    split; [cbn; by rewrite Hn', H2|].
    split; [by apply list.Forall_cons|]. split; [|done].
    rewrite filter_cons. case_bool_decide as Hz.
    + rewrite decide_True by (by apply Hret). cbn [length]. lia.
    + rewrite decide_False; [lia|]. intros Hne. apply Hz. by apply Hret.
Qed.

(** X12. [vgik_service_stop_all] on a registry of distinct names: it leaves
    every service STOPPED, STOPPING or FAILED (none is left RUNNING,
    STARTING or RESTARTING), keeps the slots and their names, invokes no
    start callback, and returns the number of services that are not FAILED
    afterwards. *)
Theorem stop_all_outcome st :
  registry_ok st ->
  name <$> services (vgik_service_stop_all st).2 = name <$> services st /\
  Forall (fun s => state s = VGIK_SERVICE_STATE_STOPPED \/
                   state s = VGIK_SERVICE_STATE_STOPPING \/
                   state s = VGIK_SERVICE_STATE_FAILED)
    (services (vgik_service_stop_all st).2) /\
  (vgik_service_stop_all st).1 =
    Z.of_nat (length (filter (fun s => state s <> VGIK_SERVICE_STATE_FAILED)
                        (services (vgik_service_stop_all st).2))) /\
  start_calls (trace (vgik_service_stop_all st).2) = start_calls (trace st).
Proof.
  intros (Hnamed & Hnd & _). unfold vgik_service_stop_all.
  destruct (stop_all_from_slots (services st) [] 0 st eq_refl Hnd Hnamed)
    as (suf' & H1 & H2 & H3 & H4 & H5).
  cbn [length app] in *. rewrite H1, H4, H5. repeat split; done.
Qed.

Lemma start_slot fuel nm st i s :
  find_service nm st = Some i ->
  services st !! i = Some s ->
  (dependencies s = None \/ dependencies s = Some []) ->
  exists ret st' s',
    vgik_service_start clock (S fuel) nm st = Some (ret, st') /\
    services st' = <[i:=s']> (services st) /\
    name s' = name s /\ dependencies s' = dependencies s /\
    (state s' = VGIK_SERVICE_STATE_RUNNING \/
     state s' = VGIK_SERVICE_STATE_STARTING \/
     state s' = VGIK_SERVICE_STATE_FAILED) /\
    (ret = 0 <-> state s' <> VGIK_SERVICE_STATE_FAILED) /\
    stop_calls (trace st') = stop_calls (trace st).
Proof.
  intros Hf Hs Hd.
  destruct (decide (state s = VGIK_SERVICE_STATE_RUNNING
                    \/ state s = VGIK_SERVICE_STATE_STARTING)) as [Hst|Hst].
  - exists 0, st, s. simpl. rewrite Hf, Hs.
    assert (bool_decide (state s = VGIK_SERVICE_STATE_RUNNING)
            || bool_decide (state s = VGIK_SERVICE_STATE_STARTING) = true) as ->.
    { destruct Hst as [-> | ->]; done. }
    rewrite list_insert_id by done.
    split; [done|]. split; [done|]. split; [done|]. split; [done|].
    split; [tauto|]. split; [|done].
    split; [|done]. intros _. destruct Hst as [-> | ->]; done.
  - assert (check_dependencies st s = true) as Hc.
    { unfold check_dependencies. by destruct Hd as [-> | ->]. }
    rewrite (start_ready fuel nm st i s Hf Hs ltac:(split; tauto) Hc).
    rewrite (launch_at st i s Hs).
    destruct (start_cb s) as [cb|]; cbv zeta.
    + case_bool_decide as Hr.
      * eexists _, _, (set_state VGIK_SERVICE_STATE_FAILED s).
        split; [reflexivity|]. cbn [services trace].
        split; [done|]. split; [done|]. split; [done|]. split; [cbn; tauto|].
        split; [cbn; split; [done|intros H; by destruct H]|].
        rewrite stop_calls_app. cbn. by rewrite app_nil_r.
      * eexists _, _, (set_start_time _ (set_state VGIK_SERVICE_STATE_RUNNING s)).
        split; [reflexivity|]. cbn [services trace].
        split; [done|]. split; [done|]. split; [done|]. split; [cbn; tauto|].
        split; [cbn; split; done|].
        rewrite stop_calls_app. cbn. by rewrite app_nil_r.
    + eexists _, _, (set_start_time _ (set_state VGIK_SERVICE_STATE_RUNNING s)).
      split; [reflexivity|]. cbn [services trace].
      split; [done|]. split; [done|]. split; [done|]. split; [cbn; tauto|].
      split; [cbn; split; done|].
      rewrite stop_calls_app. cbn. by rewrite app_nil_r.
Qed.

Lemma start_all_from_slots fuel (suf : list (vgik_service_t World)) :
  forall pre c st,
    services st = pre ++ suf ->
    NoDup (name <$> (pre ++ suf)) ->
    Forall (fun s => is_Some (name s)) suf ->
    Forall (fun s => dependencies s = None \/ dependencies s = Some []) suf ->
    exists ret st' suf',
      start_all_from clock (S fuel) (seq (length pre) (length suf)) c st
        = Some (ret, st') /\
      services st' = pre ++ suf' /\
      name <$> suf' = name <$> suf /\
      Forall (fun s => state s = VGIK_SERVICE_STATE_RUNNING \/
                       state s = VGIK_SERVICE_STATE_STARTING \/
                       state s = VGIK_SERVICE_STATE_FAILED) suf' /\
      ret = c + Z.of_nat (length (filter (fun s => state s <> VGIK_SERVICE_STATE_FAILED)
                                    suf')) /\
      stop_calls (trace st') = stop_calls (trace st).
Proof.
  induction suf as [|s suf IH]; intros pre c st Hsv Hnd Hnamed Hdeps.
  - exists c, st, []. cbn. rewrite Hsv. repeat split; [done|lia].
  - apply list.Forall_cons in Hnamed as [[n Hn] Hnamed].
    apply list.Forall_cons in Hdeps as [Hd Hdeps].
    assert (find_service (name s) st = Some (length pre)) as Hf.
    { rewrite Hn. unfold find_service. rewrite Hsv. by apply find_slot. }
    assert (services st !! length pre = Some s) as Hs.
    { rewrite Hsv. apply lookup_middle. }
    destruct (start_slot fuel _ _ _ _ Hf Hs Hd)
      as (r & st1 & s' & E & Hsv' & Hn' & _ & Hfin & Hret & Hcalls).
    cbn [length seq start_all_from].
    assert (name_of (length pre) st = name s) as ->.
    { unfold name_of. by rewrite Hs. }
    rewrite E. rewrite Hsv, insert_middle in Hsv'.
    assert (services st1 = (pre ++ [s']) ++ suf) as Hsv1.
    { by rewrite <- app_assoc. }
    assert (name <$> ((pre ++ [s']) ++ suf) = name <$> (pre ++ s :: suf)) as Hnames.
    { rewrite <- app_assoc. cbn. rewrite !fmap_app, !fmap_cons. by rewrite Hn'. }
    destruct (IH (pre ++ [s'])
                (if bool_decide (r = 0) then c + 1 else c) st1 Hsv1
                ltac:(by rewrite Hnames) Hnamed Hdeps)
      as (ret & st' & suf' & H0 & H1 & H2 & H3 & H4 & H5).
    rewrite length_app in H0. cbn [length] in H0.
    replace (length pre + 1)%nat with (S (length pre)) in H0 by lia.
    exists ret, st', (s' :: suf'). rewrite H0, H1, H5.
    split; [done|]. split; [by rewrite <- app_assoc|].
    split; [cbn; by rewrite Hn', H2|].
    split; [by apply list.Forall_cons|]. split; [|done].
    rewrite H4, filter_cons. case_bool_decide as Hz.
    + rewrite decide_True by (by apply Hret). cbn [length]. lia.
    + rewrite decide_False; [lia|]. intros Hne. apply Hz. by apply Hret.
Qed.

(** X13. [vgik_service_start_all] on a registry of distinct names in which no
    service lists a dependency: the call returns, leaves every service
    RUNNING, STARTING or FAILED, keeps the slots and their names, invokes
    no stop callback, and returns the number of services that are not
    FAILED afterwards. *)
Theorem start_all_outcome fuel st :
  registry_ok st ->
  Forall (fun s => dependencies s = None \/ dependencies s = Some []) (services st) ->
  (1 <= fuel)%nat ->
  exists n st',
    vgik_service_start_all clock fuel st = Some (n, st') /\
    name <$> services st' = name <$> services st /\
    Forall (fun s => state s = VGIK_SERVICE_STATE_RUNNING \/
                     state s = VGIK_SERVICE_STATE_STARTING \/
                     state s = VGIK_SERVICE_STATE_FAILED) (services st') /\
    n = Z.of_nat (length (filter (fun s => state s <> VGIK_SERVICE_STATE_FAILED)
                            (services st'))) /\
    stop_calls (trace st') = stop_calls (trace st).
Proof.
  intros (Hnamed & Hnd & _) Hdeps Hfuel. destruct fuel as [|fuel]; [lia|].
  unfold vgik_service_start_all.
  destruct (start_all_from_slots fuel (services st) [] 0 st eq_refl Hnd Hnamed Hdeps)
    as (ret & st' & suf' & H0 & H1 & H2 & H3 & H4 & H5).
  cbn [length app] in *. exists ret, st'. rewrite H1. repeat split; done.
Qed.

(** *** A tick with nothing to restart *)

Lemma lifecycle_app tr1 tr2 :
  lifecycle (tr1 ++ tr2) = lifecycle tr1 ++ lifecycle tr2.
Proof. apply omap_app. Qed.

Lemma is_healthy_quiet nm st :
  initialized (vgik_service_is_healthy nm st).2 = initialized st /\
  lifecycle (trace (vgik_service_is_healthy nm st).2) = lifecycle (trace st).
Proof.
  unfold vgik_service_is_healthy.
  destruct (find_service nm st) as [i|]; [|done].
  destruct (services st !! i) as [s|]; [|done].
  case_bool_decide; [done|].
  destruct (health_cb s) as [cb|]; [|done]. destruct (cb _ _) as [ok w].
  cbn. split; [done|]. rewrite lifecycle_app. cbn. by rewrite app_nil_r.
Qed.

Lemma process_service_quiet fuel now i st :
  Forall (fun s => auto_restart s = false \/ state s <> VGIK_SERVICE_STATE_FAILED)
    (services st) ->
  exists st',
    process_service clock fuel now i st = Some st' /\
    services st' = services st /\
    initialized st' = initialized st /\
    lifecycle (trace st') = lifecycle (trace st).
Proof.
  intros Hall. unfold process_service.
  destruct (services st !! i) as [s0|] eqn:Hs; [|by exists st].
  set (st1 := if bool_decide (state s0 = VGIK_SERVICE_STATE_RUNNING)
              then (vgik_service_is_healthy (name s0) st).2 else st).
  assert (services st1 = services st /\ initialized st1 = initialized st /\
          lifecycle (trace st1) = lifecycle (trace st)) as (H1 & H2 & H3).
  { unfold st1. case_bool_decide; [|done].
    split; [apply is_healthy_services|apply is_healthy_quiet]. }
  rewrite H1, Hs.
  assert (auto_restart s0 && bool_decide (state s0 = VGIK_SERVICE_STATE_FAILED)
          = false) as ->.
  { rewrite Forall_lookup in Hall. destruct (Hall _ _ Hs) as [-> | Hne]; [done|].
    rewrite (bool_decide_eq_false_2 _ Hne). apply andb_false_r. }
  by exists st1.
Qed.

Lemma process_from_quiet fuel now idx :
  forall st,
  Forall (fun s => auto_restart s = false \/ state s <> VGIK_SERVICE_STATE_FAILED)
    (services st) ->
  exists st',
    process_from clock fuel now idx st = Some st' /\
    services st' = services st /\
    initialized st' = initialized st /\
    lifecycle (trace st') = lifecycle (trace st).
Proof.
  induction idx as [|i idx IH]; intros st Hall; [by exists st|].
  destruct (process_service_quiet fuel now i st Hall) as (st1 & E & H1 & H2 & H3).
  simpl. rewrite E.
  destruct (IH st1 ltac:(by rewrite H1)) as (st' & E' & H1' & H2' & H3').
  exists st'. rewrite E'. split; [done|]. split; [congruence|].
  split; congruence.
Qed.

(** X14. When no registered service is FAILED with [auto_restart] set,
    [vgik_service_manager_process] returns (at any recursion depth allowed
    to [start]), leaves every slot of the registry as it is, writes no
    state and invokes no start or stop callback: in that case the health
    checks are all it runs. And in any registry, the turn of the tick for
    a RUNNING service is its health check and nothing more, which changes
    no slot, writes no state and invokes no start or stop callback
    whatever the check answers: a RUNNING service that reports itself
    unhealthy stays RUNNING. *)
Theorem tick_without_failed_service fuel st :
  (Forall (fun s => auto_restart s = false \/ state s <> VGIK_SERVICE_STATE_FAILED)
     (services st) ->
   exists st',
     vgik_service_manager_process clock fuel st = Some st' /\
     services st' = services st /\
     initialized st' = initialized st /\
     lifecycle (trace st') = lifecycle (trace st)) /\
  (forall now i s,
     services st !! i = Some s ->
     state s = VGIK_SERVICE_STATE_RUNNING ->
     process_service clock fuel now i st
       = Some (vgik_service_is_healthy (name s) st).2 /\
     services (vgik_service_is_healthy (name s) st).2 = services st /\
     lifecycle (trace (vgik_service_is_healthy (name s) st).2)
       = lifecycle (trace st)).
Proof.
  split.
  - intros Hall. unfold vgik_service_manager_process.
    destruct (process_from_quiet fuel (clock (world st))
                (seq 0 (length (services st))) st Hall) as (st' & E & H).
    destruct (negb (initialized st)); [by exists st|]. by exists st'.
  - intros now i s Hs Hrun.
    split; [|split; [apply is_healthy_services|apply is_healthy_quiet]].
    unfold process_service.
    rewrite Hs, (bool_decide_eq_true_2 _ Hrun), is_healthy_services, Hs.
    rewrite (bool_decide_eq_false_2 (state s = VGIK_SERVICE_STATE_FAILED))
      by (rewrite Hrun; done).
    by rewrite andb_false_r.
Qed.

(** *** The list of names *)

(** X15. [vgik_service_list] with room for the whole registry returns exactly
    the names that [find_service] resolves, in slot order: a name is
    listed if and only if it is registered, which is when [get_state] reads
    a slot and [register] would refuse it as a duplicate. With less room it
    returns the first [max_count] of them, and nothing for a count that is
    zero or negative. *)
Theorem list_names_are_registered max_count st :
  Forall (fun s => is_Some (name s)) (services st) ->
  (max_count <= 0 -> vgik_service_list max_count st = []) /\
  (0 < max_count ->
   Some <$> vgik_service_list max_count st
     = take (Z.to_nat max_count) (name <$> services st)) /\
  (Z.of_nat (length (services st)) <= max_count -> 0 < max_count ->
   forall n,
     n ∈ vgik_service_list max_count st <->
     is_Some (find_service (Some n) st)).
Proof.
  intros Hnamed.
  assert (Some <$> omap name (services st) = name <$> services st) as Hall.
  { revert Hnamed. generalize (services st). intros l Hl.
    induction Hl as [|s l [n Hn] _ IH]; [done|]. cbn. rewrite Hn. cbn.
    by rewrite IH. }
  unfold vgik_service_list. split; [|split].
  - intros H. by rewrite bool_decide_eq_true_2.
  - intros H. rewrite bool_decide_eq_false_2 by lia.
    by rewrite fmap_take, Hall.
  - intros Hroom Hpos n. rewrite bool_decide_eq_false_2 by lia.
    assert (length (omap name (services st)) = length (services st)) as Hlen.
    { rewrite <- (length_fmap Some), Hall. apply length_fmap. }
    rewrite take_ge by lia.
    transitivity (Some n ∈ name <$> services st).
    + rewrite <- Hall. rewrite list_elem_of_fmap. split.
      * intros H. by exists n.
      * intros (m & Hm & H). by simplify_eq.
    + cbn [find_service]. rewrite <- not_eq_None_Some.
      rewrite <- lookup_service_find, lookup_service_None. split.
      * intros H Hn. by apply Hn.
      * intros H. by destruct (decide (Some n ∈ name <$> services st)) as [|Hn];
          [|destruct (H Hn)].
Qed.

(** *** Health and shutdown *)

(** X26. [vgik_service_is_healthy] answers for RUNNING services only: it
    returns true only if [get_state] reads RUNNING, and for a name that is
    unknown or a service in any other state it returns false without
    invoking the health callback. A RUNNING service without a health
    callback is healthy. Whatever it returns, it writes no state and
    changes no slot. *)
Theorem healthy_only_when_running nm st :
  ((vgik_service_is_healthy nm st).1 = true ->
   vgik_service_get_state nm st = VGIK_SERVICE_STATE_RUNNING) /\
  (vgik_service_get_state nm st <> VGIK_SERVICE_STATE_RUNNING ->
   vgik_service_is_healthy nm st = (false, st)) /\
  (forall i s,
     find_service nm st = Some i -> services st !! i = Some s ->
     state s = VGIK_SERVICE_STATE_RUNNING -> health_cb s = None ->
     vgik_service_is_healthy nm st = (true, st)) /\
  services (vgik_service_is_healthy nm st).2 = services st /\
  lifecycle (trace (vgik_service_is_healthy nm st).2) = lifecycle (trace st).
Proof.
  split; [|split; [|split; [|split]]].
  - unfold vgik_service_is_healthy, vgik_service_get_state.
    destruct (find_service nm st) as [i|]; [|done].
    destruct (services st !! i) as [s|]; [|done].
    case_bool_decide as Hr; [done|]. intros _.
    by destruct (decide (state s = VGIK_SERVICE_STATE_RUNNING)).
  - unfold vgik_service_is_healthy, vgik_service_get_state.
    destruct (find_service nm st) as [i|]; [|done].
    destruct (services st !! i) as [s|]; [|done].
    intros Hne. by rewrite bool_decide_eq_true_2.
  - intros i s Hf Hs Hr Hcb. unfold vgik_service_is_healthy.
    rewrite Hf, Hs, Hcb. rewrite bool_decide_eq_false_2; [done|].
    intros Hne. by apply Hne.
  - apply is_healthy_services.
  - apply is_healthy_quiet.
Qed.

(** X27. [vgik_service_manager_deinit] stops the services as
    [vgik_service_stop_all] does and then forgets them: afterwards the
    manager is not initialised, every name reads FAILED, and [register]
    returns -1 until [vgik_service_manager_init] has been called, after
    which a service is registered into slot 0. A second [deinit], and an
    [init] of a manager that is initialised, do nothing. *)
Theorem manager_deinit_forgets d n st :
  initialized st = true ->
  name d = Some n ->
  let st' := vgik_service_manager_deinit st in
  initialized st' = false /\
  services st' = [] /\
  world st' = world (vgik_service_stop_all st).2 /\
  trace st' = trace (vgik_service_stop_all st).2 /\
  (forall nm, vgik_service_get_state nm st' = VGIK_SERVICE_STATE_FAILED) /\
  (forall d', vgik_service_register d' st' = (-1, st')) /\
  vgik_service_manager_deinit st' = st' /\
  vgik_service_manager_init st = (0, st) /\
  (vgik_service_register (Some d) (vgik_service_manager_init st').2).1 = 0 /\
  services (vgik_service_register (Some d) (vgik_service_manager_init st').2).2
    = [registered d].
Proof.
  intros Hini Hn. cbv zeta. unfold vgik_service_manager_deinit. rewrite Hini.
  cbn [negb]. set (st1 := (vgik_service_stop_all st).2).
  cbn [initialized services world trace with_initialized with_services].
  split; [done|]. split; [done|]. split; [done|]. split; [done|].
  split.
  { intros [m|]; done. }
  split.
  { intros [d'|]; done. }
  split; [done|]. split.
  { unfold vgik_service_manager_init. by rewrite Hini. }
  unfold vgik_service_manager_init, vgik_service_register.
  cbn [initialized services with_initialized with_services snd negb orb].
  rewrite Hn. rewrite (bool_decide_eq_true_2 (is_Some (Some n))) by done.
  cbn [negb find_service]. unfold service_count, VGIK_SERVICE_MAX_SERVICES.
  cbn [services with_initialized with_services find_from length].
  rewrite (bool_decide_eq_false_2 (is_Some None)) by (by intros [? ?]).
  rewrite bool_decide_eq_false_2 by (cbn; lia). done.
Qed.

End Facts.

(** *** The statements at concrete inputs *)

Lemma start_chain_order_witness :
  exists ret st' tr,
    vgik_service_start Scenario.clock 3 (Some "A"%string) Scenario.chain
      = Some (ret, st') /\
    trace st' = trace Scenario.chain ++ tr /\
    start_calls tr = [(Some "C"%string, 0); (Some "B"%string, 0); (Some "A"%string, 0)].
Proof.
  destruct (start_chain_order Z Scenario.clock "A" "B" "C" 3 Scenario.chain 0 1 2
              (Scenario.plain "A" (Some [Some "B"%string]) (Some Scenario.cb_ok) None)
              (Scenario.plain "B" (Some [Some "C"%string]) (Some Scenario.cb_ok) None)
              (Scenario.plain "C" None (Some Scenario.cb_ok) None)
              Scenario.cb_ok Scenario.cb_ok Scenario.cb_ok)
    as (ret & st' & tr & H1 & H2 & H3 & _);
    [reflexivity..|left; reflexivity|reflexivity|reflexivity|reflexivity
    |reflexivity|reflexivity|reflexivity|lia|].
  exists ret, st', tr. split; [exact H1|]. split; [exact H2|exact H3].
Defined.

Lemma start_without_dependencies_witness :
  exists st' final s',
    vgik_service_start Scenario.clock 1 (Some "A"%string) Scenario.one_service
      = Some (0, st') /\
    final = VGIK_SERVICE_STATE_RUNNING /\
    vgik_service_get_state (Some "A"%string) st' = final /\
    services st' !! 0%nat = Some s' /\
    start_time s' = 5000.
Proof.
  destruct (start_without_dependencies Z Scenario.clock 0 (Some "A"%string)
              Scenario.one_service 0
              (Scenario.plain "A" None (Some Scenario.cb_ok) None) Scenario.cb_ok)
    as (st' & final & H1 & Hw & _ & H2 & H3 & _ & s' & H4 & _ & H5 & _);
    [reflexivity|reflexivity|left; reflexivity|reflexivity|reflexivity|].
  exists st', final, s'. split; [exact H1|]. split; [apply H3; reflexivity|].
  split; [exact H2|]. split; [exact H4|].
  rewrite (H5 eq_refl), Hw. reflexivity.
Defined.

Lemma start_null_callback_witness :
  exists st' s',
    vgik_service_start Scenario.clock 1 (Some "A"%string) Scenario.one_service_no_cb
      = Some (0, st') /\
    start_calls (trace st') = start_calls (trace Scenario.one_service_no_cb) /\
    vgik_service_get_state (Some "A"%string) st' = VGIK_SERVICE_STATE_RUNNING /\
    services st' !! 0%nat = Some s' /\
    start_time s' = 5000.
Proof.
  destruct (start_null_callback Z Scenario.clock 0 (Some "A"%string)
              Scenario.one_service_no_cb 0
              (Scenario.plain "A" None None None))
    as (st' & H1 & _ & H2 & _ & _ & H3 & s' & H4 & _ & H5);
    [reflexivity|reflexivity|reflexivity|reflexivity| |].
  - intros deps Hd. discriminate Hd.
  - exists st', s'. split; [exact H1|]. split; [exact H2|]. split; [exact H3|].
    split; [exact H4|exact H5].
Defined.

Lemma get_state_unknown_is_failed_witness :
  vgik_service_get_state (Some "ghost"%string) (Scenario.net_failed 5000)
    = VGIK_SERVICE_STATE_FAILED /\
  vgik_service_get_state (Some "ghost"%string) (Scenario.net_failed 5000)
    = vgik_service_get_state (Some "net"%string) (Scenario.net_failed 5000).
Proof.
  apply (get_state_unknown_is_failed Z (Some "ghost"%string) (Scenario.net_failed 5000)
           (Some "net"%string) (Scenario.net_failed 5000) 0
           (set_state VGIK_SERVICE_STATE_FAILED Scenario.net));
    reflexivity.
Defined.

(** C7 as worded does not hold. "net" is FAILED and has a stop
    callback: stopping it would invoke that callback, but [unregister]
    removes the entry without invoking it. *)
Lemma unregister_failed_not_stopped :
  vgik_service_get_state (Some "net"%string) (Scenario.net_failed 5000)
    = VGIK_SERVICE_STATE_FAILED /\
  stop_calls (trace (vgik_service_stop (Some "net"%string) (Scenario.net_failed 5000)).2)
    = [(Some "net"%string, 0)] /\
  stop_calls (trace (vgik_service_unregister (Some "net"%string) (Scenario.net_failed 5000)).2)
    = [] /\
  vgik_service_unregister (Some "net"%string) (Scenario.net_failed 5000)
    <> unregister_stopping_always (Some "net"%string) (Scenario.net_failed 5000).
Proof.
  split; [reflexivity|]. split; [reflexivity|]. split; [reflexivity|].
  intros H. apply (f_equal (fun p => stop_calls (trace p.2))) in H.
  vm_compute in H. discriminate H.
Qed.



(** *** The counter without a limit wraps *)

Lemma run_snoc (World : Type) (clock : World -> Z) (a b c : sm World) ops o :
  run clock a ops b -> step clock b o c -> run clock a (ops ++ [o]) c.
Proof.
  induction 1 as [st|st o1 st1 ops st2 Hstep Hrun IH]; intros Hlast; simpl.
  - econstructor; [exact Hlast|constructor].
  - econstructor; [exact Hstep|]. by apply IH.
Qed.

Lemma loop_tick (st : sm Z) c :
  initialized st = true -> world st = 5000 ->
  services st = [Scenario.loop_after c] ->
  exists st',
    step Scenario.clock st OpTick st' /\
    initialized st' = true /\ world st' = 5000 /\
    services st' = [Scenario.loop_after (uint32_wrap (c + 1))].
Proof.
  destruct st as [ini svcs w tr]. cbn. intros -> -> ->.
  set (st := mk_sm true [Scenario.loop_after c] 5000 tr).
  assert (exists st',
    vgik_service_manager_process Scenario.clock 1 st = Some st' /\
    initialized st' = true /\ world st' = 5000 /\
    services st' = [Scenario.loop_after (uint32_wrap (c + 1))])
    as (st' & Hp & H1 & H2 & H3).
  { rewrite (process_singleton Z Scenario.clock 1 st (Scenario.loop_after c))
      by reflexivity.
    rewrite (process_service_attempt Z Scenario.clock 1 _ 0%nat st
               (Scenario.loop_after c));
      [|reflexivity|reflexivity|reflexivity| |right; cbn; done].
    2:{ intros [H _]. cbn in H. lia. }
    rewrite (start_leaf Z Scenario.clock 0 _ _ 0%nat
               (attempt (Scenario.clock (world st)) (Scenario.loop_after c))
               Scenario.cb_fail);
      [|reflexivity|reflexivity|by split|by left|reflexivity].
    eexists. split; [reflexivity|]. by cbn. }
  exists st'. split; [|done]. by eapply (step_tick _ _ 1%nat).
Qed.

Lemma wrap_after_succ (n : N) :
  uint32_wrap ((1 + Z.of_N n) mod 2 ^ 32 + 1) = (1 + Z.of_N (N.succ n)) mod 2 ^ 32.
Proof.
  unfold uint32_wrap. rewrite N2Z.inj_succ, Zplus_mod_idemp_l.
  f_equal. unfold Z.succ. ring.
Qed.

Lemma loop_ticks (n : N) :
  exists ops st,
    run Scenario.clock (Scenario.fresh 5000) ops st /\
    initialized st = true /\ world st = 5000 /\
    services st = [Scenario.loop_after ((1 + Z.of_N n) mod 2 ^ 32)].
Proof.
  induction n as [|n IH] using N.peano_ind.
  - exists [OpRegister Scenario.loop; OpStart (Some "loop"%string); OpTick],
      Scenario.loop_started.
    split; [|by vm_compute].
    eapply run_cons; [by apply step_register|].
    eapply run_cons.
    { apply (step_start _ _ 1%nat _ _ (-1) Scenario.loop_failed).
      vm_compute. reflexivity. }
    eapply run_cons; [|apply run_nil].
    apply (step_tick _ _ 1%nat). vm_compute. reflexivity.
  - destruct IH as (ops & st & Hrun & Hi & Hw & Hs).
    destruct (loop_tick st _ Hi Hw Hs) as (st' & Hstep & Hi' & Hw' & Hs').
    exists (ops ++ [OpTick]), st'. split; [by eapply run_snoc|].
    split; [done|]. split; [done|]. rewrite Hs'. do 2 f_equal.
    apply wrap_after_succ.
Qed.



(** The registries of the scenarios are built by [vgik_service_register]. *)
Lemma registry_ok_fresh w : registry_ok (Scenario.fresh w).
Proof.
  unfold registry_ok. cbn.
  split; [constructor|]. split; [constructor|]. split; [lia|done].
Qed.

Lemma registry_ok_register_all l st :
  registry_ok st -> registry_ok (Scenario.register_all l st).
Proof.
  revert st. induction l as [|d l IH]; intros st Hok; [done|].
  change (Scenario.register_all (d :: l) st)
    with (Scenario.register_all l (vgik_service_register (Some d) st).2).
  apply IH.
  exact (performs_registry Z Scenario.clock _ _ _
           (performs_register Z Scenario.clock (Some d) st) Hok).
Qed.

Lemma register_then_lookup_witness :
  exists st',
    vgik_service_register
      (Some (Scenario.plain "A" None (Some Scenario.cb_ok) None)) (Scenario.fresh 5000)
      = (0, st') /\
    vgik_service_get_state (Some "A"%string) st' = VGIK_SERVICE_STATE_STOPPED.
Proof.
  destruct (register_then_lookup Z
              (Scenario.plain "A" None (Some Scenario.cb_ok) None) "A"
              (Scenario.fresh 5000))
    as (st' & H1 & _ & _ & H2 & _); [reflexivity|reflexivity|reflexivity|cbn; lia|].
  exists st'. split; [exact H1|exact H2].
Defined.

Lemma register_unregister_witness :
  services
    (vgik_service_unregister (Some "A"%string)
       (vgik_service_register
          (Some (Scenario.plain "A" None (Some Scenario.cb_ok) None))
          (Scenario.fresh 5000)).2).2
  = services (Scenario.fresh 5000).
Proof.
  pose proof (register_unregister Z
                (Scenario.plain "A" None (Some Scenario.cb_ok) None) "A"
                (Scenario.fresh 5000) eq_refl eq_refl eq_refl ltac:(cbn; lia)) as H.
  cbv zeta in H. destruct H as (_ & _ & H & _). exact H.
Defined.

Lemma unregister_forgets_witness :
  vgik_service_get_state (Some "B"%string)
    (vgik_service_unregister (Some "B"%string) Scenario.chain).2
  = VGIK_SERVICE_STATE_FAILED.
Proof.
  assert (NoDup (name <$> services Scenario.chain)) as Hnd.
  { apply (registry_ok_register_all _ _ (registry_ok_fresh 5000)). }
  pose proof (unregister_forgets Z Scenario.clock "B" Scenario.chain 1 Hnd eq_refl)
    as H.
  cbv zeta in H. destruct H as (_ & _ & _ & H & _). exact H.
Defined.

Lemma registry_invariant_witness :
  registry_ok (Scenario.tick_at 6000 (Scenario.net_failed 5000)).
Proof.
  apply (registry_invariant Z Scenario.clock (Scenario.fresh 5000)
           [CallRegister (Some Scenario.net); CallStart (Some "net"%string);
            CallElapse 6000; CallProcess]).
  - apply registry_ok_fresh.
  - eapply performs_cons; [apply performs_register|].
    eapply performs_cons.
    { apply (performs_start Z Scenario.clock 1 (Some "net"%string) _ (-1)
               (Scenario.net_failed 5000)).
      vm_compute. reflexivity. }
    eapply performs_cons; [apply performs_elapse|].
    eapply performs_cons.
    { apply (performs_process Z Scenario.clock 1 _
               (Scenario.tick_at 6000 (Scenario.net_failed 5000))).
      vm_compute. reflexivity. }
    apply performs_nil.
Defined.

Lemma start_is_idempotent_witness :
  vgik_service_start Scenario.clock 1 (Some "A"%string) Scenario.one_service_running
  = Some (0, Scenario.one_service_running).
Proof.
  destruct (start_is_idempotent Z Scenario.clock 1 (Some "A"%string)
              Scenario.one_service Scenario.one_service_running) as [_ H].
  - vm_compute. reflexivity.
  - exact (H 0%nat).
Defined.

Lemma stop_transitions_witness :
  exists st' s',
    vgik_service_stop (Some "A"%string) Scenario.one_service_running = (0, st') /\
    vgik_service_get_state (Some "A"%string) st' = VGIK_SERVICE_STATE_STOPPED /\
    services st' !! 0%nat = Some s' /\
    start_time s' = 0.
Proof.
  assert (find_service (Some "A"%string) Scenario.one_service_running = Some 0%nat)
    as Hf by (vm_compute; reflexivity).
  assert (services Scenario.one_service_running !! 0%nat =
          Some (mk_service (Some "A"%string) (Some Scenario.cb_ok) None None 0 None
                  false 0 0 0 VGIK_SERVICE_STATE_RUNNING 5000 0))
    as Hs by (vm_compute; reflexivity).
  pose proof (stop_transitions Z (Some "A"%string) Scenario.one_service_running 0
                _ Hf Hs ltac:(discriminate) ltac:(discriminate)) as H.
  cbv zeta in H.
  destruct H as (st' & final & H1 & _ & H3 & _ & _ & _ & H7 & _ & s' & H8 & _ & H9 & _).
  exists st', s'. split; [exact H1|]. split.
  { rewrite H3. apply H7. reflexivity. }
  split; [exact H8|]. apply H9. reflexivity.
Defined.

Lemma stop_is_idempotent_witness :
  vgik_service_stop (Some "net"%string)
    (vgik_service_stop (Some "net"%string) Scenario.worn_out_alone).2
  = (0, (vgik_service_stop (Some "net"%string) Scenario.worn_out_alone).2).
Proof.
  apply (stop_is_idempotent Z (Some "net"%string) Scenario.worn_out_alone).
  reflexivity.
Defined.

Lemma dependency_failure_keeps_started_witness :
  exists st',
    vgik_service_start Scenario.clock 2 (Some "A"%string) Scenario.fan
      = Some (-1, st') /\
    vgik_service_get_state (Some "B"%string) st' = VGIK_SERVICE_STATE_RUNNING /\
    vgik_service_get_state (Some "C"%string) st' = VGIK_SERVICE_STATE_FAILED.
Proof.
  destruct (dependency_failure_keeps_started Z Scenario.clock "A" "B" "C" [] 2
              Scenario.fan 0 1 2
              (Scenario.plain "A" (Some [Some "B"%string; Some "C"%string])
                 (Some Scenario.cb_ok) None)
              (Scenario.plain "B" None (Some Scenario.cb_ok) None)
              (Scenario.plain "C" None (Some Scenario.cb_fail) None)
              Scenario.cb_ok Scenario.cb_fail)
    as (st' & tr & H1 & _ & _ & _ & _ & H2 & H3 & _);
    [reflexivity|reflexivity|reflexivity|reflexivity|reflexivity|reflexivity
    |discriminate|discriminate|discriminate|split; discriminate
    |reflexivity|reflexivity|reflexivity|left; reflexivity|left; reflexivity
    |reflexivity|reflexivity|reflexivity|discriminate|lia|].
  exists st'. split; [exact H1|]. split; [exact H2|exact H3].
Defined.

Lemma start_with_unknown_dependency_witness :
  vgik_service_start Scenario.clock 2 (Some "A"%string) Scenario.orphan
  = Some (-1, write_state 0 VGIK_SERVICE_STATE_FAILED Scenario.orphan).
Proof.
  destruct (start_with_unknown_dependency Z Scenario.clock (Some "A"%string)
              Scenario.orphan 0
              (Scenario.plain "A" (Some [Some "ghost"%string]) (Some Scenario.cb_ok) None)
              [Some "ghost"%string] (Some "ghost"%string))
    as [_ H];
    [reflexivity|reflexivity|split; discriminate|reflexivity
    |apply list_elem_of_here|reflexivity|].
  exact (H 0%nat [] eq_refl).
Defined.

Lemma start_of_cycle_does_not_return_witness :
  vgik_service_start Scenario.clock 50 (Some "A"%string) Scenario.cycle = None.
Proof.
  destruct (start_of_cycle_does_not_return Z Scenario.clock "A" "B" Scenario.cycle 0 1
              (Scenario.plain "A" (Some [Some "B"%string]) (Some Scenario.cb_ok) None)
              (Scenario.plain "B" (Some [Some "A"%string]) (Some Scenario.cb_ok) None))
    as [_ H];
    [reflexivity|reflexivity|reflexivity|reflexivity
    |split; discriminate|split; discriminate|reflexivity|].
  exact (proj1 (H eq_refl 50%nat)).
Defined.

Lemma restart_stops_at_failed_stop_witness :
  exists st',
    vgik_service_restart Scenario.clock 1 (Some "S"%string) Scenario.stubborn_alone
      = Some (-1, st') /\
    vgik_service_get_state (Some "S"%string) st' = VGIK_SERVICE_STATE_FAILED /\
    start_calls (trace st') = [].
Proof.
  destruct (restart_stops_at_failed_stop Z Scenario.clock (Some "S"%string)
              Scenario.stubborn_alone 0 Scenario.stubborn
              eq_refl eq_refl) as [H _].
  specialize (H Scenario.cb_fail eq_refl).
  assert (state Scenario.stubborn <> VGIK_SERVICE_STATE_STOPPED /\
          state Scenario.stubborn <> VGIK_SERVICE_STATE_STOPPING) as Hs.
  { split; discriminate. }
  assert ((Scenario.cb_fail (user_data Scenario.stubborn)
             (world Scenario.stubborn_alone)).1 <> 0) as Hf.
  { discriminate. }
  destruct (H Hs Hf 1%nat) as (st' & H1 & H2 & H3 & _).
  exists st'. split; [exact H1|]. split; [exact H2|exact H3].
Defined.

Lemma stop_all_outcome_witness :
  Forall (fun s => state s = VGIK_SERVICE_STATE_STOPPED \/
                   state s = VGIK_SERVICE_STATE_STOPPING \/
                   state s = VGIK_SERVICE_STATE_FAILED)
    (services (vgik_service_stop_all Scenario.worn_out_alone).2) /\
  (vgik_service_stop_all Scenario.worn_out_alone).1 = 1.
Proof.
  assert (registry_ok Scenario.worn_out_alone) as Hok.
  { unfold registry_ok. cbn. split; [repeat constructor; by eexists|].
    split; [apply list.NoDup_singleton|]. split; [lia|discriminate]. }
  destruct (stop_all_outcome Z Scenario.worn_out_alone Hok) as (_ & H1 & H2 & _).
  split; [exact H1|]. rewrite H2. vm_compute. reflexivity.
Defined.

Lemma start_all_outcome_witness :
  exists n st',
    vgik_service_start_all Scenario.clock 1 Scenario.pair = Some (n, st') /\
    Forall (fun s => state s = VGIK_SERVICE_STATE_RUNNING \/
                     state s = VGIK_SERVICE_STATE_STARTING \/
                     state s = VGIK_SERVICE_STATE_FAILED) (services st').
Proof.
  destruct (start_all_outcome Z Scenario.clock 1 Scenario.pair)
    as (n & st' & H1 & _ & H2 & _).
  - apply (registry_ok_register_all _ _ (registry_ok_fresh 5000)).
  - vm_compute. repeat constructor.
  - lia.
  - exists n, st'. split; [exact H1|exact H2].
Defined.

Lemma tick_without_failed_service_witness :
  exists st',
    vgik_service_manager_process Scenario.clock 0 Scenario.one_service_running
      = Some st' /\
    services st' = services Scenario.one_service_running.
Proof.
  destruct (tick_without_failed_service Z Scenario.clock 0
              Scenario.one_service_running) as [H _].
  destruct H as (st' & H1 & H2 & _).
  - vm_compute. repeat constructor.
  - exists st'. split; [exact H1|exact H2].
Defined.

Lemma list_names_are_registered_witness :
  "B"%string ∈ vgik_service_list 8 Scenario.chain <->
  is_Some (find_service (Some "B"%string) Scenario.chain).
Proof.
  destruct (list_names_are_registered Z 8 Scenario.chain) as (_ & _ & H).
  - apply (registry_ok_register_all _ _ (registry_ok_fresh 5000)).
  - apply H; [vm_compute; discriminate|lia].
Defined.

Lemma healthy_only_when_running_witness :
  vgik_service_is_healthy (Some "A"%string) Scenario.one_service
  = (false, Scenario.one_service).
Proof.
  destruct (healthy_only_when_running Z (Some "A"%string) Scenario.one_service)
    as (_ & H & _).
  apply H. vm_compute. discriminate.
Defined.

Lemma manager_deinit_forgets_witness :
  initialized (vgik_service_manager_deinit Scenario.chain) = false /\
  services
    (vgik_service_register
       (Some (Scenario.plain "A" None (Some Scenario.cb_ok) None))
       (vgik_service_manager_init (vgik_service_manager_deinit Scenario.chain)).2).2
  = [registered (Scenario.plain "A" None (Some Scenario.cb_ok) None)].
Proof.
  assert (initialized Scenario.chain = true) as Hini by (vm_compute; reflexivity).
  pose proof (manager_deinit_forgets Z
                (Scenario.plain "A" None (Some Scenario.cb_ok) None) "A"
                Scenario.chain Hini eq_refl) as H.
  cbv zeta in H. destruct H as (H1 & _ & _ & _ & _ & _ & _ & _ & _ & H2).
  split; [exact H1|exact H2].
Defined.

End ServiceManagerFacts.

(** * Properties of the event bus *)

Module EventsFacts.

Import Events.

#[local] Open Scope Z_scope.

Section Facts.

Variable World : Type.
Variable get_timestamp : World -> Z.
Variable malloc : Z -> World -> bool * World.

Implicit Types (b : bus World) (e ev : vgik_event_t).

(** *** The place of a new entry *)

Lemma insert_Forall (P : vgik_event_t -> Prop) node q :
  P node -> Forall P q -> Forall P (insert_by_priority node q).
Proof.
  intros Hn. induction 1 as [|x q Hx Hq IH]; simpl.
  - by constructor.
  - case_bool_decide; repeat constructor; done.
Qed.

Lemma insert_place node q :
  descending q ->
  exists q1 q2,
    q = q1 ++ q2 /\
    insert_by_priority node q = q1 ++ node :: q2 /\
    Forall (at_least (priority node)) q1 /\
    Forall (below (priority node)) q2 /\
    descending (insert_by_priority node q).
Proof.
  induction 1 as [|cur rest Hrest IH Hcur]; simpl.
  - exists [], []. repeat split; repeat constructor.
  - case_bool_decide as Hge.
    + destruct IH as (q1 & q2 & -> & Hins & H1 & H2 & Hsorted).
      exists (cur :: q1), q2. rewrite Hins. repeat split; try done.
      * by constructor.
      * rewrite <- Hins. constructor; [done|]. by apply insert_Forall.
    + exists [], (cur :: rest). repeat split; try done.
      * constructor; [unfold below; lia|].
        eapply Forall_impl; [|exact Hcur]. intros x Hx. unfold below. simpl in Hx. lia.
      * constructor; [by constructor|].
        constructor; [lia|].
        eapply Forall_impl; [|exact Hcur]. intros x Hx. simpl in Hx. lia.
Qed.

Lemma enqueue_success ev b b' :
  enqueue_event get_timestamp malloc ev b = (0, b') ->
  exists stamp,
    queue b' = insert_by_priority (queued ev stamp) (queue b) /\
    queue_size b' = queue_size b + 1 /\
    queue_size b < VGIK_EVENTS_QUEUE_SIZE /\
    subscriptions b' = subscriptions b /\
    initialized b' = initialized b.
Proof.
  unfold enqueue_event. case_bool_decide as Hfull; [intros; simplify_eq|].
  assert (forall ok b1, create_queue_node malloc b = (ok, b1) ->
            queue b1 = queue b /\ queue_size b1 = queue_size b /\
            subscriptions b1 = subscriptions b /\ initialized b1 = initialized b)
    as Hnode.
  { intros ok b1. unfold create_queue_node. destruct (node_pool b).
    - destruct (malloc _ _). intros; by simplify_eq.
    - intros; by simplify_eq. }
  destruct (create_queue_node malloc b) as [[] b1] eqn:Hcreate; [|intros; simplify_eq].
  destruct (Hnode _ _ eq_refl) as (Hq & Hsz & Hsub & Hini).
  unfold queued. destruct (data ev) as [bytes|].
  - case_bool_decide.
    + destruct (malloc (data_size ev) (world b1)) as [[] w]; intros; simplify_eq.
      eexists. cbn. rewrite Hq, Hsz, Hsub, Hini. repeat split; try done. lia.
    + intros; simplify_eq.
      eexists. cbn. rewrite Hq, Hsz, Hsub, Hini. repeat split; try done. lia.
  - intros; simplify_eq.
    eexists. cbn. rewrite Hq, Hsz, Hsub, Hini. repeat split; try done. lia.
Qed.

Lemma enqueue_returns ev b :
  (forall size w, (malloc size w).1 = true) ->
  queue_size b < VGIK_EVENTS_QUEUE_SIZE ->
  exists b', enqueue_event get_timestamp malloc ev b = (0, b').
Proof.
  intros Halloc Hroom. unfold enqueue_event.
  rewrite bool_decide_eq_false_2 by lia.
  assert (exists b1, create_queue_node malloc b = (true, b1)) as [b1 ->].
  { unfold create_queue_node. destruct (node_pool b); [|by eexists].
    specialize (Halloc sizeof_event_queue_node_t (world b)).
    destruct (malloc _ _) as [ok w]. simpl in Halloc. subst ok. by eexists. }
  destruct (data ev) as [bytes|]; [|by eexists].
  case_bool_decide; [|by eexists].
  specialize (Halloc (data_size ev) (world b1)).
  destruct (malloc _ _) as [ok w]. simpl in Halloc. subst ok. by eexists.
Qed.

(** *** The drain *)

Lemma handler_calls_app slot tr1 tr2 :
  handler_calls slot (tr1 ++ tr2) = handler_calls slot tr1 ++ handler_calls slot tr2.
Proof. apply omap_app. Qed.

(** What [dispatch] changes: the world and the trace only. *)
Lemma dispatch_calls ev (subs : list (event_subscription_t World)) i b :
  initialized (dispatch ev subs i b) = initialized b /\
  subscriptions (dispatch ev subs i b) = subscriptions b /\
  queue (dispatch ev subs i b) = queue b /\
  queue_size (dispatch ev subs i b) = queue_size b /\
  exists tr,
    trace (dispatch ev subs i b) = trace b ++ tr /\
    forall slot, handler_calls slot tr = expected ev subs i slot.
Proof.
  revert i b. induction subs as [|sub0 rest IH]; intros i b.
  - simpl. repeat split; try done. exists []. split; [by rewrite app_nil_r|].
    intros slot. unfold expected. by case_bool_decide.
  - cbn [dispatch].
    set (b1 := if negb (active sub0) then b else _).
    destruct (IH (S i) b1) as (H1 & H2 & H3 & H4 & tr & Htr & Hcalls).
    assert (initialized b1 = initialized b /\
            subscriptions b1 = subscriptions b /\
            queue b1 = queue b /\ queue_size b1 = queue_size b /\
            trace b1 = trace b ++
              (if receives sub0 ev then [ObsHandler i (id sub0) ev] else []))
      as (G1 & G2 & G3 & G4 & G5).
    { unfold b1, receives. destruct (active sub0); cbn [negb andb];
        [|by rewrite app_nil_r].
      destruct (filter_matches _ _); cbn [negb andb]; [|by rewrite app_nil_r].
      destruct (handler sub0) as [h|]; cbn; [done|by rewrite app_nil_r]. }
    rewrite H1, H2, H3, H4, Htr, G5.
    repeat split; try done.
    eexists. split; [by rewrite <- app_assoc|].
    intros slot. rewrite handler_calls_app, Hcalls. unfold expected.
    destruct (decide (slot = i)) as [->|Hne].
    + rewrite (bool_decide_eq_false_2 (S i <= i)%nat) by lia.
      rewrite (bool_decide_eq_true_2 (i <= i)%nat) by lia.
      rewrite Nat.sub_diag, app_nil_r. cbn [lookup list_lookup].
      destruct (receives sub0 ev); [|done].
      cbn. by rewrite bool_decide_eq_true_2.
    + assert (handler_calls slot
                (if receives sub0 ev then [ObsHandler i (id sub0) ev] else []) = [])
        as ->.
      { destruct (receives sub0 ev); [|done]. cbn.
        by rewrite bool_decide_eq_false_2 by done. }
      cbn [app].
      destruct (decide (i <= slot)%nat) as [Hle|Hgt].
      * rewrite !bool_decide_eq_true_2 by lia.
        replace (slot - i)%nat with (S (slot - S i)) by lia. done.
      * by rewrite !bool_decide_eq_false_2 by lia.
Qed.

(** The outer loop hands the queue, from its head, to every subscription
    that receives the event, and leaves the queue empty. *)
Lemma process_loop_calls n processed b :
  length (queue b) = n ->
  queue (process_loop n processed b).2 = [] /\
  (process_loop n processed b).1 = processed + Z.of_nat n /\
  queue_size (process_loop n processed b).2 = queue_size b - Z.of_nat n /\
  subscriptions (process_loop n processed b).2 = subscriptions b /\
  exists tr,
    trace (process_loop n processed b).2 = trace b ++ tr /\
    forall slot sub,
      subscriptions b !! slot = Some sub ->
      handler_calls slot tr = filter (fun ev => receives sub ev = true) (queue b).
Proof.
  revert processed b. induction n as [|n IH]; intros processed b Hlen.
  - apply length_zero_iff_nil in Hlen. simpl. rewrite Hlen.
    repeat split; try done; try lia.
    exists []. split; [by rewrite app_nil_r|]. done.
  - destruct (queue b) as [|ev rest] eqn:Hq; [done|].
    cbn [process_loop]. unfold dequeue_event. rewrite Hq.
    set (b1 := with_pool _ _).
    destruct (dispatch_calls ev (subscriptions b1) 0%nat b1)
      as (D1 & D2 & D3 & D4 & tr1 & Dtr & Dcalls).
    destruct (IH (processed + 1) (dispatch ev (subscriptions b1) 0%nat b1))
      as (I1 & I2 & I3 & I4 & tr2 & Itr & Icalls).
    { rewrite D3. cbn. simpl in Hlen. lia. }
    rewrite I1, I2, I3, I4, Itr, D2, D4, Dtr. cbn [b1 with_pool with_queue
      subscriptions trace queue_size].
    repeat split; try done; try lia.
    exists (tr1 ++ tr2). split; [by rewrite <- app_assoc|].
    intros slot sub Hsub. rewrite handler_calls_app.
    rewrite (Icalls slot sub) by (by rewrite D2).
    rewrite D3. cbn [b1 with_pool with_queue queue].
    rewrite Dcalls. unfold expected.
    rewrite bool_decide_eq_true_2 by lia. rewrite Nat.sub_0_r.
    cbn [b1 with_pool with_queue subscriptions]. rewrite Hsub.
    destruct (receives sub ev) eqn:Hrec.
    + rewrite filter_cons_True by done. done.
    + rewrite filter_cons_False by (rewrite Hrec; done). done.
Qed.

Lemma publish_success ev b :
  (forall size w, (malloc size w).1 = true) ->
  initialized b = true ->
  queue_size b < VGIK_EVENTS_QUEUE_SIZE ->
  exists b' stamp,
    vgik_event_publish get_timestamp malloc (Some ev) b = (0, b') /\
    queue b' = insert_by_priority (queued ev stamp) (queue b) /\
    queue_size b' = queue_size b + 1 /\
    subscriptions b' = subscriptions b /\
    initialized b' = true.
Proof.
  intros Halloc Hini Hroom.
  destruct (enqueue_returns ev b Halloc Hroom) as [b' Henq].
  destruct (enqueue_success ev b b' Henq) as (stamp & H1 & H2 & _ & H3 & H4).
  exists b', stamp. unfold vgik_event_publish. rewrite Hini, Henq. cbn [negb].
  rewrite bool_decide_eq_false_2 by (intros ?; done).
  repeat split; try done. congruence.
Qed.

Lemma filter_all (P : vgik_event_t -> Prop) `{!forall x, Decision (P x)}
    (l : list vgik_event_t) :
  (forall x, P x) -> filter P l = l.
Proof.
  intros Hall. induction l as [|x l IH]; [done|].
  rewrite filter_cons_True by done. by rewrite IH.
Qed.

Lemma receives_all (sub : event_subscription_t World) h ev :
  active sub = true -> sub_type sub = VGIK_EVENT_CUSTOM -> handler sub = Some h ->
  receives sub ev = true.
Proof.
  intros Ha Ht Hh. unfold receives, filter_matches. rewrite Ha, Ht, Hh. cbn.
  rewrite (bool_decide_eq_false_2 (VGIK_EVENT_CUSTOM ≠ VGIK_EVENT_CUSTOM))
    by (intros Hne; by apply Hne).
  done.
Qed.


(** *** Any number of publishes *)

Lemma insert_between node q1 q2 :
  Forall (at_least (priority node)) q1 ->
  Forall (below (priority node)) q2 ->
  insert_by_priority node (q1 ++ q2) = q1 ++ node :: q2.
Proof.
  intros H1 H2. induction H1 as [|x q1 Hx _ IH]; simpl.
  - destruct H2 as [|y q2 Hy _]; [done|]. simpl.
    rewrite bool_decide_eq_false_2; [done|]. unfold below in Hy. lia.
  - rewrite bool_decide_eq_true_2 by exact Hx. by rewrite IH.
Qed.

Lemma of_priority_Forall p l : Forall (fun e => priority e = p) (of_priority p l).
Proof.
  apply Forall_forall. intros e He. apply list_elem_of_In in He.
  by apply list_elem_of_filter in He as [? _].
Qed.

Lemma of_priority_snoc p l node :
  of_priority p (l ++ [node]) =
  of_priority p l ++ (if decide (priority node = p) then [node] else []).
Proof.
  unfold of_priority. by rewrite list.filter_app.
Qed.

Lemma by_priority_snoc l node :
  insert_by_priority node (by_priority l) = by_priority (l ++ [node]).
Proof.
  unfold by_priority. rewrite !of_priority_snoc.
  pose proof (of_priority_Forall VGIK_EVENT_PRIORITY_CRITICAL l) as HC.
  pose proof (of_priority_Forall VGIK_EVENT_PRIORITY_HIGH l) as HH.
  pose proof (of_priority_Forall VGIK_EVENT_PRIORITY_NORMAL l) as HN.
  pose proof (of_priority_Forall VGIK_EVENT_PRIORITY_LOW l) as HL.
  set (C := of_priority VGIK_EVENT_PRIORITY_CRITICAL l) in *.
  set (H := of_priority VGIK_EVENT_PRIORITY_HIGH l) in *.
  set (N := of_priority VGIK_EVENT_PRIORITY_NORMAL l) in *.
  set (L := of_priority VGIK_EVENT_PRIORITY_LOW l) in *.
  assert (forall (p : vgik_event_priority_t) (q : list vgik_event_t) (v : Z),
            priority_value p = v ->
            Forall (fun e => priority e = p) q ->
            Forall (fun e => priority_value (priority e) = v) q) as Hval.
  { intros p q v Hp Hq. eapply Forall_impl; [|exact Hq].
    intros e He. simpl in He. by rewrite He. }
  pose proof (Hval VGIK_EVENT_PRIORITY_CRITICAL _ 3 eq_refl HC) as HC'.
  pose proof (Hval VGIK_EVENT_PRIORITY_HIGH _ 2 eq_refl HH) as HH'.
  pose proof (Hval VGIK_EVENT_PRIORITY_NORMAL _ 1 eq_refl HN) as HN'.
  pose proof (Hval VGIK_EVENT_PRIORITY_LOW _ 0 eq_refl HL) as HL'.
  clear Hval HC HH HN HL.
  assert (forall (v : Z) (q : list vgik_event_t),
            priority_value (priority node) <= v ->
            Forall (fun e => priority_value (priority e) = v) q ->
            Forall (at_least (priority node)) q) as Hup.
  { intros v q Hv Hq. eapply Forall_impl; [|exact Hq].
    intros e He. unfold at_least. simpl in He. lia. }
  assert (forall (v : Z) (q : list vgik_event_t),
            v < priority_value (priority node) ->
            Forall (fun e => priority_value (priority e) = v) q ->
            Forall (below (priority node)) q) as Hdown.
  { intros v q Hv Hq. eapply Forall_impl; [|exact Hq].
    intros e He. unfold below. simpl in He. lia. }
  destruct (priority node) eqn:Hp; cbn [decide_rel decide vgik_event_priority_eq_dec];
    simpl; rewrite ?app_nil_r.
  - (* LOW: after everything *)
    assert (insert_by_priority node ((C ++ H ++ N ++ L) ++ [])
            = (C ++ H ++ N ++ L) ++ [node]) as E.
    { apply insert_between; [|constructor].
      rewrite Hp in *. rewrite !Forall_app. repeat split;
        [eapply Hup; [|exact HC']|eapply Hup; [|exact HH']
        |eapply Hup; [|exact HN']|eapply Hup; [|exact HL']]; simpl; lia. }
    rewrite app_nil_r in E. rewrite E. by rewrite <- !app_assoc.
  - (* NORMAL *)
    assert (insert_by_priority node ((C ++ H ++ N) ++ L)
            = (C ++ H ++ N) ++ node :: L) as E.
    { apply insert_between.
      - rewrite Hp in *. rewrite !Forall_app. repeat split;
          [eapply Hup; [|exact HC']|eapply Hup; [|exact HH']
          |eapply Hup; [|exact HN']]; simpl; lia.
      - rewrite Hp in *. eapply Hdown; [|exact HL']. simpl; lia. }
    rewrite <- !app_assoc in E. rewrite E. by rewrite <- !app_assoc.
  - (* HIGH *)
    assert (insert_by_priority node ((C ++ H) ++ N ++ L)
            = (C ++ H) ++ node :: N ++ L) as E.
    { apply insert_between.
      - rewrite Hp in *. rewrite !Forall_app. repeat split;
          [eapply Hup; [|exact HC']|eapply Hup; [|exact HH']]; simpl; lia.
      - rewrite Hp in *. rewrite !Forall_app. split;
          [eapply Hdown; [|exact HN']|eapply Hdown; [|exact HL']]; simpl; lia. }
    rewrite <- !app_assoc in E. rewrite E. by rewrite <- !app_assoc.
  - (* CRITICAL *)
    assert (insert_by_priority node (C ++ H ++ N ++ L)
            = C ++ node :: H ++ N ++ L) as E.
    { apply insert_between.
      - rewrite Hp in *. eapply Hup; [|exact HC']. simpl; lia.
      - rewrite Hp in *. rewrite !Forall_app. repeat split;
          [eapply Hdown; [|exact HH']|eapply Hdown; [|exact HN']
          |eapply Hdown; [|exact HL']]; simpl; lia. }
    rewrite E. by rewrite <- !app_assoc.
Qed.

Lemma publish_each_sorted events :
  (forall size w, (malloc size w).1 = true) ->
  forall b l0,
  initialized b = true ->
  queue b = by_priority l0 ->
  queue_size b = Z.of_nat (length l0) ->
  (length l0 + length events <= 256)%nat ->
  exists stamps,
    length stamps = length events /\
    (publish_each get_timestamp malloc events b).1 = replicate (length events) 0 /\
    queue (publish_each get_timestamp malloc events b).2
      = by_priority (l0 ++ zip_with queued events stamps) /\
    queue_size (publish_each get_timestamp malloc events b).2
      = Z.of_nat (length l0 + length events) /\
    subscriptions (publish_each get_timestamp malloc events b).2 = subscriptions b /\
    initialized (publish_each get_timestamp malloc events b).2 = true.
Proof.
  intros Halloc. induction events as [|e rest IH]; intros b l0 Hini Hq Hsz Hlen.
  - exists []. simpl. rewrite app_nil_r, Nat.add_0_r. done.
  - simpl in Hlen.
    destruct (publish_success e b Halloc Hini) as (b1 & t & P & Q & S1 & U & I).
    { rewrite Hsz. unfold VGIK_EVENTS_QUEUE_SIZE. lia. }
    destruct (IH b1 (l0 ++ [queued e t]) I) as (stamps & L & R & Q' & S' & U' & I').
    { by rewrite Q, Hq, by_priority_snoc. }
    { rewrite S1, Hsz, length_app. simpl. lia. }
    { rewrite length_app. simpl. lia. }
    exists (t :: stamps). cbn [publish_each]. rewrite P.
    destruct (publish_each get_timestamp malloc rest b1) as [rets b2].
    cbn [fst snd] in *. rewrite R, Q', S', U', I', U.
    rewrite <- app_assoc. cbn. rewrite L, length_app. cbn.
    repeat split; try done. f_equal. lia.
Qed.


(** *** Invariants of the queue *)

Lemma enqueue_outcome ev b :
  (exists stamp,
     (enqueue_event get_timestamp malloc ev b).1 = 0 /\
     queue (enqueue_event get_timestamp malloc ev b).2
       = insert_by_priority (queued ev stamp) (queue b) /\
     queue_size (enqueue_event get_timestamp malloc ev b).2 = queue_size b + 1) \/
  ((enqueue_event get_timestamp malloc ev b).1 = -1 /\
   queue (enqueue_event get_timestamp malloc ev b).2 = queue b /\
   queue_size (enqueue_event get_timestamp malloc ev b).2 = queue_size b).
Proof.
  destruct (enqueue_event get_timestamp malloc ev b) as [ret b'] eqn:E.
  destruct (decide (ret = 0)) as [->|Hne].
  - left. destruct (enqueue_success ev b b' E) as (stamp & H1 & H2 & _).
    by exists stamp.
  - right. revert E. unfold enqueue_event. case_bool_decide.
    { intros; by simplify_eq. }
    assert (forall ok b1, create_queue_node malloc b = (ok, b1) ->
              queue b1 = queue b /\ queue_size b1 = queue_size b) as Hnode.
    { intros ok b1. unfold create_queue_node. destruct (node_pool b).
      - destruct (malloc _ _). intros; by simplify_eq.
      - intros; by simplify_eq. }
    destruct (create_queue_node malloc b) as [[] b1] eqn:Hcreate.
    2:{ intros; simplify_eq. destruct (Hnode _ _ eq_refl). done. }
    destruct (Hnode _ _ eq_refl) as [Hq Hsz].
    destruct (data ev) as [bytes|]; [|intros; by simplify_eq].
    case_bool_decide; [|intros; by simplify_eq].
    destruct (malloc (data_size ev) (world b1)) as [[] w]; intros; simplify_eq.
    done.
Qed.

Lemma insert_length node q :
  length (insert_by_priority node q) = S (length q).
Proof.
  induction q as [|x q IH]; simpl; [done|]. case_bool_decide; simpl; by rewrite ?IH.
Qed.

(** Publishing keeps [queue_size] equal to the length of the queue, and a
    descending queue descending. *)
Lemma publish_invariant event b :
  size_ok b -> descending (queue b) ->
  size_ok (vgik_event_publish get_timestamp malloc event b).2 /\
  descending (queue (vgik_event_publish get_timestamp malloc event b).2).
Proof.
  intros Hsz Hd. unfold vgik_event_publish.
  destruct event as [ev|]; [|done]. destruct (initialized b); [|done]. cbn [negb].
  destruct (enqueue_outcome ev b) as [(stamp & H1 & H2 & H3)|(H1 & H2 & H3)];
    destruct (enqueue_event get_timestamp malloc ev b) as [ret b'];
    cbn [fst snd] in *; case_bool_decide; cbn [snd]; unfold size_ok in *.
  - done.
  - rewrite H2, H3, insert_length, Hsz. split; [lia|].
    by destruct (insert_place (queued ev stamp) (queue b) Hd) as (? & ? & ? & ? & ? & ? & ?).
  - by rewrite H2, H3.
  - by rewrite H2, H3.
Qed.

(** *** Overflow *)

Lemma publish_full ev b :
  queue_size b >= VGIK_EVENTS_QUEUE_SIZE ->
  exists b',
    vgik_event_publish get_timestamp malloc (Some ev) b = (-1, b') /\
    queue b' = queue b /\
    queue_size b' = queue_size b /\
    subscriptions b' = subscriptions b /\
    node_pool b' = node_pool b /\
    world b' = world b /\
    (initialized b = true -> trace b' = trace b ++ [LogQueueFull (type ev)]).
Proof.
  intros Hfull. unfold vgik_event_publish, enqueue_event.
  destruct (initialized b); cbn [negb].
  - rewrite bool_decide_eq_true_2 by done.
    rewrite bool_decide_eq_true_2 by done.
    eexists. split; [reflexivity|]. by cbn.
  - eexists. split; [reflexivity|]. done.
Qed.

(** C5. When the queue holds 256 events, a publish returns -1; the queue,
    its size of 256 and everything else but the log line stay as they
    were. In particular, after 256 events have been published into the
    empty queue, each call returning 0, the next publish returns -1 and
    the size stays 256. *)
Theorem publish_when_full ev b :
  size_ok b ->
  length (queue b) = 256%nat ->
  (exists b',
     vgik_event_publish get_timestamp malloc (Some ev) b = (-1, b') /\
     queue b' = queue b /\
     queue_size b' = 256 /\
     vgik_events_queue_size b' = vgik_events_queue_size b /\
     subscriptions b' = subscriptions b /\
     node_pool b' = node_pool b /\
     world b' = world b /\
     (initialized b = true -> trace b' = trace b ++ [LogQueueFull (type ev)])) /\
  (forall b0 events,
     (forall size w, (malloc size w).1 = true) ->
     initialized b0 = true -> queue b0 = [] -> queue_size b0 = 0 ->
     length events = 256%nat ->
     (publish_each get_timestamp malloc events b0).1 = replicate 256 0 /\
     queue_size (publish_each get_timestamp malloc events b0).2 = 256 /\
     exists b',
       vgik_event_publish get_timestamp malloc (Some ev)
         (publish_each get_timestamp malloc events b0).2 = (-1, b') /\
       queue b' = queue (publish_each get_timestamp malloc events b0).2 /\
       queue_size b' = 256).
Proof.
  intros Hsize Hlen. unfold size_ok in Hsize. rewrite Hlen in Hsize. split.
  - destruct (publish_full ev b) as (b' & H1 & H2 & H3 & H4 & H5 & H6 & H7).
    { rewrite Hsize. done. }
    exists b'. unfold vgik_events_queue_size. rewrite H3, Hsize. done.
  - intros b0 events Halloc Hini Hq Hsz Hevents.
    destruct (publish_each_sorted events Halloc b0 [] Hini Hq Hsz)
      as (stamps & _ & R & _ & S & _ & _).
    { rewrite Hevents. simpl. lia. }
    rewrite Hevents in R, S. split; [done|]. split; [done|].
    destruct (publish_full ev (publish_each get_timestamp malloc events b0).2)
      as (b' & H1 & H2 & H3 & _).
    { rewrite S. done. }
    exists b'. split; [done|]. split; [done|]. by rewrite H3, S.
Qed.

(** *** Draining and clearing *)

Lemma dispatch_trace ev (subs : list (event_subscription_t World)) i b :
  node_pool (dispatch ev subs i b) = node_pool b /\
  next_subscription_id (dispatch ev subs i b) = next_subscription_id b /\
  trace (dispatch ev subs i b) =
    trace b ++
    concat (imap (fun j sub =>
                    if receives sub ev then [ObsHandler (i + j) (id sub) ev] else [])
              subs).
Proof.
  revert i b. induction subs as [|sub0 rest IH]; intros i b.
  - simpl. by rewrite app_nil_r.
  - cbn [dispatch].
    set (b1 := if negb (active sub0) then b else _).
    destruct (IH (S i) b1) as (H1 & H2 & H3).
    assert (node_pool b1 = node_pool b /\
            next_subscription_id b1 = next_subscription_id b /\
            trace b1 = trace b ++
              (if receives sub0 ev then [ObsHandler i (id sub0) ev] else []))
      as (G1 & G2 & G3).
    { unfold b1, receives. destruct (active sub0); cbn [negb andb];
        [|by rewrite app_nil_r].
      destruct (filter_matches _ _); cbn [negb andb]; [|by rewrite app_nil_r].
      destruct (handler sub0) as [h|]; cbn; [done|by rewrite app_nil_r]. }
    rewrite H1, H2, H3, G1, G2, G3. split; [done|]. split; [done|].
    rewrite imap_cons. cbn [concat]. rewrite Nat.add_0_r, <- app_assoc.
    do 3 f_equal. apply imap_ext. intros j x _. cbn.
    by replace (i + S j)%nat with (S (i + j)) by lia.
Qed.

Lemma process_loop_trace n processed b :
  length (queue b) = n ->
  initialized (process_loop n processed b).2 = initialized b /\
  node_pool (process_loop n processed b).2 = (node_pool b + n)%nat /\
  next_subscription_id (process_loop n processed b).2 = next_subscription_id b /\
  trace (process_loop n processed b).2 =
    trace b ++ flat_map (fun ev => deliveries ev (subscriptions b)) (queue b).
Proof.
  revert processed b. induction n as [|n IH]; intros processed b Hlen.
  - apply length_zero_iff_nil in Hlen. simpl. rewrite Hlen. cbn.
    by rewrite app_nil_r, Nat.add_0_r.
  - destruct (queue b) as [|ev rest] eqn:Hq; [done|].
    cbn [process_loop]. unfold dequeue_event. rewrite Hq.
    set (b1 := with_pool _ _).
    destruct (dispatch_calls ev (subscriptions b1) 0%nat b1)
      as (D1 & D2 & D3 & D4 & _).
    destruct (dispatch_trace ev (subscriptions b1) 0%nat b1) as (T1 & T2 & T3).
    destruct (IH (processed + 1) (dispatch ev (subscriptions b1) 0%nat b1))
      as (I1 & I2 & I3 & I4).
    { rewrite D3. cbn. simpl in Hlen. lia. }
    rewrite I1, I2, I3, I4, D1, D2, D3, T1, T2, T3.
    cbn [b1 with_pool with_queue initialized node_pool next_subscription_id
         subscriptions trace queue flat_map].
    split; [done|]. split; [lia|]. split; [done|].
    by rewrite <- app_assoc.
Qed.



Lemma clear_loop_spec n b :
  length (queue b) = n ->
  clear_loop n b =
    with_pool (node_pool b + n) (with_queue [] (queue_size b - Z.of_nat n) b).
Proof.
  revert b. induction n as [|n IH]; intros b Hlen.
  - apply length_zero_iff_nil in Hlen. destruct b. cbn in *. subst.
    unfold with_pool, with_queue. cbn. f_equal; lia.
  - destruct (queue b) as [|ev rest] eqn:Hq; [done|].
    cbn [clear_loop]. unfold dequeue_event. rewrite Hq.
    rewrite IH by (cbn; simpl in Hlen; lia).
    destruct b. unfold with_pool, with_queue. cbn. f_equal; lia.
Qed.

(** X18. [vgik_events_clear] throws the queued events away: no handler is
    invoked and nothing is logged, the subscriptions stay, the nodes go to
    the pool, and a drain that follows finds nothing to do. *)
Theorem clear_discards b :
  size_ok b ->
  queue (vgik_events_clear b) = [] /\
  vgik_events_queue_size (vgik_events_clear b) = 0 /\
  trace (vgik_events_clear b) = trace b /\
  world (vgik_events_clear b) = world b /\
  subscriptions (vgik_events_clear b) = subscriptions b /\
  next_subscription_id (vgik_events_clear b) = next_subscription_id b /\
  initialized (vgik_events_clear b) = initialized b /\
  node_pool (vgik_events_clear b) = (node_pool b + length (queue b))%nat /\
  vgik_events_process (vgik_events_clear b) = (0, vgik_events_clear b).
Proof.
  intros Hsize. unfold vgik_events_clear.
  rewrite (clear_loop_spec (length (queue b)) b eq_refl).
  unfold size_ok in Hsize. unfold vgik_events_process, vgik_events_queue_size.
  cbn. repeat split; try done; try lia. by destruct (negb (initialized b)).
Qed.

(** *** Allocation *)

Lemma enqueue_quiet ev b b' :
  enqueue_event get_timestamp malloc ev b = (0, b') ->
  trace b' = trace b /\ next_subscription_id b' = next_subscription_id b.
Proof.
  unfold enqueue_event. case_bool_decide as Hfull; [intros; simplify_eq|].
  assert (forall ok b1, create_queue_node malloc b = (ok, b1) ->
            trace b1 = trace b /\ next_subscription_id b1 = next_subscription_id b)
    as Hnode.
  { intros ok b1. unfold create_queue_node. destruct (node_pool b).
    - destruct (malloc _ _). intros; by simplify_eq.
    - intros; by simplify_eq. }
  destruct (create_queue_node malloc b) as [[] b1] eqn:Hcreate; [|intros; simplify_eq].
  destruct (Hnode _ _ eq_refl) as (Htr & Hid).
  destruct (data ev) as [bytes|].
  - case_bool_decide.
    + destruct (malloc (data_size ev) (world b1)) as [[] w]; intros; simplify_eq.
      by cbn.
    + intros; simplify_eq. by cbn.
  - intros; simplify_eq. by cbn.
Qed.

(** X19. Where the nodes of the queue come from. With a spare node in the pool
    and no payload to copy, a publish succeeds without asking the
    allocator. With an empty pool and an allocator that returns NULL, it
    returns -1 and queues nothing. When the copy of the payload cannot be
    allocated, it returns -1, queues nothing, and the node that was taken
    from the pool is released rather than put back. *)
Theorem publish_allocation ev b :
  initialized b = true ->
  queue_size b < VGIK_EVENTS_QUEUE_SIZE ->
  (forall n,
     node_pool b = S n ->
     (data ev = None \/ data_size ev <= 0) ->
     vgik_event_publish get_timestamp malloc (Some ev) b =
       (0, with_queue
             (insert_by_priority (queued ev (get_timestamp (world b))) (queue b))
             (queue_size b + 1) (with_pool n b))) /\
  (node_pool b = 0%nat ->
   (malloc sizeof_event_queue_node_t (world b)).1 = false ->
   vgik_event_publish get_timestamp malloc (Some ev) b =
     (-1, with_world (malloc sizeof_event_queue_node_t (world b)).2 b)) /\
  (forall n bytes,
     node_pool b = S n ->
     data ev = Some bytes ->
     data_size ev > 0 ->
     (malloc (data_size ev) (world b)).1 = false ->
     vgik_event_publish get_timestamp malloc (Some ev) b =
       (-1, with_world (malloc (data_size ev) (world b)).2 (with_pool n b))).
Proof.
  intros Hini Hroom. unfold vgik_event_publish, enqueue_event, create_queue_node.
  rewrite Hini. cbn [negb]. rewrite bool_decide_eq_false_2 by lia.
  split; [|split].
  - intros n Hpool Hdata. rewrite Hpool. unfold queued.
    destruct Hdata as [-> | Hsz].
    + by rewrite bool_decide_eq_false_2 by (intros ?; done).
    + destruct (data ev) as [bytes|].
      * rewrite !(bool_decide_eq_false_2 (data_size ev > 0)) by lia.
        by rewrite bool_decide_eq_false_2 by (intros ?; done).
      * by rewrite bool_decide_eq_false_2 by (intros ?; done).
  - intros Hpool Hfail. rewrite Hpool.
    destruct (malloc sizeof_event_queue_node_t (world b)) as [ok w].
    cbn in Hfail. subst ok. by rewrite bool_decide_eq_true_2.
  - intros n bytes Hpool Hdata Hsz Hfail. rewrite Hpool, Hdata.
    rewrite bool_decide_eq_true_2 by done. cbn [world with_pool].
    destruct (malloc (data_size ev) (world b)) as [ok w].
    cbn in Hfail. subst ok. by rewrite bool_decide_eq_true_2.
Qed.

Lemma enqueue_stamp ev b b' :
  enqueue_event get_timestamp malloc ev b = (0, b') ->
  queue b' =
    insert_by_priority
      (queued ev (get_timestamp (world (create_queue_node malloc b).2))) (queue b).
Proof.
  unfold enqueue_event. case_bool_decide as Hfull; [intros; simplify_eq|].
  assert (queue (create_queue_node malloc b).2 = queue b) as Hnode.
  { unfold create_queue_node. destruct (node_pool b); [|done].
    by destruct (malloc _ _). }
  destruct (create_queue_node malloc b) as [[] b1] eqn:Hcreate; [|intros; simplify_eq].
  cbn [snd] in *. unfold queued. destruct (data ev) as [bytes|].
  - case_bool_decide.
    + destruct (malloc (data_size ev) (world b1)) as [[] w]; intros; simplify_eq.
      cbn. by rewrite Hnode.
    + intros; simplify_eq. cbn. by rewrite Hnode.
  - intros; simplify_eq. cbn. by rewrite Hnode.
Qed.


(** *** Subscriptions *)

Lemma first_inactive_S (l : list (event_subscription_t World)) k :
  first_inactive l (S k) = S <$> first_inactive l k.
Proof.
  revert k. induction l as [|s l IH]; intros k; simpl; [done|].
  destruct (active s); [apply IH|done].
Qed.

Lemma first_inactive_Some (l : list (event_subscription_t World)) i :
  first_inactive l 0 = Some i ->
  (exists s, l !! i = Some s /\ active s = false) /\
  (forall j t, (j < i)%nat -> l !! j = Some t -> active t = true).
Proof.
  revert i. induction l as [|s l IH]; intros i; simpl; [done|].
  destruct (active s) eqn:Ha.
  - rewrite first_inactive_S. destruct (first_inactive l 0) as [i'|] eqn:E; [|done].
    intros [= <-]. destruct (IH i' eq_refl) as [Hs Hbefore]. split; [done|].
    intros [|j] t Hj Ht; simpl in Ht; [by simplify_eq|].
    apply (Hbefore j); [lia|done].
  - intros [= <-]. split; [by exists s|]. intros; lia.
Qed.

Lemma first_inactive_None (l : list (event_subscription_t World)) :
  first_inactive l 0 = None -> Forall (fun s => active s = true) l.
Proof.
  induction l as [|s l IH]; simpl; [constructor|].
  destruct (active s) eqn:Ha; [|done]. rewrite first_inactive_S.
  destruct (first_inactive l 0); [done|]. intros _. constructor; [done|by apply IH].
Qed.

Lemma find_active_S sid (l : list (event_subscription_t World)) k :
  find_active sid l (S k) = S <$> find_active sid l k.
Proof.
  revert k. induction l as [|s l IH]; intros k; simpl; [done|].
  destruct (active s && bool_decide (id s = sid)); [done|apply IH].
Qed.

Lemma find_active_Some sid (l : list (event_subscription_t World)) i :
  find_active sid l 0 = Some i ->
  exists s, l !! i = Some s /\ active s = true /\ id s = sid.
Proof.
  revert i. induction l as [|s l IH]; intros i; simpl; [done|].
  destruct (active s && bool_decide (id s = sid)) eqn:E.
  - intros [= <-]. apply andb_true_iff in E as [Ha Hid].
    apply bool_decide_eq_true_1 in Hid. by exists s.
  - rewrite find_active_S. destruct (find_active sid l 0) as [i'|]; [|done].
    intros [= <-]. by apply IH.
Qed.

Lemma find_active_None sid (l : list (event_subscription_t World)) :
  find_active sid l 0 = None ->
  forall j s, l !! j = Some s -> active s = true -> id s <> sid.
Proof.
  induction l as [|x l IH]; simpl; [done|].
  destruct (active x && bool_decide (id x = sid)) eqn:E; [done|].
  rewrite find_active_S. destruct (find_active sid l 0) eqn:F; [done|].
  intros _ [|j] s Hs Ha Hid; simpl in Hs.
  - simplify_eq. rewrite Ha in E. cbn in E.
    by rewrite bool_decide_eq_true_2 in E.
  - by eapply IH.
Qed.

Lemma find_active_unique sid (l : list (event_subscription_t World)) i s :
  l !! i = Some s -> active s = true -> id s = sid ->
  (forall j t, l !! j = Some t -> active t = true -> id t = sid -> j = i) ->
  find_active sid l 0 = Some i.
Proof.
  intros Hs Ha Hid Huniq. destruct (find_active sid l 0) as [j|] eqn:E.
  - destruct (find_active_Some _ _ _ E) as (t & Ht & Hta & Htid).
    f_equal. by eapply Huniq.
  - by destruct (find_active_None _ _ E i s).
Qed.

Lemma alter_slot (l : list (event_subscription_t World)) i s f :
  l !! i = Some s -> alter f i l = <[i:=f s]> l.
Proof.
  revert i. induction l as [|x l IH]; intros [|i] H; simplify_eq/=; try done.
  f_equal. by apply IH.
Qed.

Lemma deliveries_inactive ev (l : list (event_subscription_t World)) i s s' :
  l !! i = Some s -> active s = false -> active s' = false ->
  deliveries ev (<[i:=s']> l) = deliveries ev l.
Proof.
  intros Hs Ha Ha'. unfold deliveries. f_equal. apply list_eq. intros j.
  rewrite !list_lookup_imap. destruct (decide (j = i)) as [->|Hne].
  - rewrite list_lookup_insert_eq by (by eapply lookup_lt_Some). rewrite Hs. cbn.
    unfold receives. by rewrite Ha, Ha'.
  - by rewrite list_lookup_insert_ne.
Qed.

Lemma deliveries_skip ev (l : list (event_subscription_t World)) i :
  (forall t, l !! i = Some t -> receives t ev = false) ->
  handler_calls i (deliveries ev l) = [].
Proof.
  assert (forall (l : list (event_subscription_t World)) k,
            (forall t, l !! (i - k)%nat = Some t -> (k <= i)%nat ->
                       receives t ev = false) ->
            handler_calls i
              (concat (imap (fun slot sub =>
                               if receives sub ev
                               then [ObsHandler (k + slot) (id sub) ev] else [])
                         l)) = []) as Hnone.
  { clear l. intros l. induction l as [|x l IHl]; intros k Hk; [done|].
    rewrite imap_cons. cbn [concat]. rewrite handler_calls_app.
    rewrite Nat.add_0_r.
    assert (handler_calls i
              (if receives x ev then [ObsHandler k (id x) ev] else []) = [])
      as ->.
    { destruct (receives x ev) eqn:Hr; [|done]. cbn.
      case_bool_decide as Hki; [|done]. subst k.
      rewrite Nat.sub_diag in Hk. rewrite (Hk x) in Hr by done. done. }
    cbn [app].
    rewrite <- (IHl (S k)).
    - f_equal. f_equal. apply imap_ext. intros j y _. cbn.
      by replace (k + S j)%nat with (S (k + j)) by lia.
    - intros t Ht Hle. apply Hk; [|lia].
      by replace (i - k)%nat with (S (i - S k)) by lia. }
  intros H. apply (Hnone l 0%nat). intros t Ht _. rewrite Nat.sub_0_r in Ht. by apply H.
Qed.

Lemma int32_wrap_succ n : 1 <= n < INT_MAX -> int32_wrap (n + 1) = n + 1.
Proof.
  unfold INT_MAX, int32_wrap. intros H.
  rewrite Z.mod_small by lia. lia.
Qed.

(** X21. While [next_subscription_id] is below [INT_MAX],
    [vgik_event_subscribe] takes the first inactive slot and hands out the
    value of [next_subscription_id], which it increments; the queue is not
    touched. [vgik_event_unsubscribe] with that id finds the same slot and
    marks it inactive, after which every event is delivered as before the
    subscription, and a second call with the id returns -1. *)
Theorem subscribe_then_unsubscribe ty h ud b i :
  bus_ok b ->
  initialized b = true ->
  next_subscription_id b < INT_MAX ->
  first_inactive (subscriptions b) 0 = Some i ->
  let new := mk_subscription (next_subscription_id b) ty (Some h) ud true in
  let b1 := (vgik_event_subscribe ty (Some h) ud b).2 in
  let b2 := (vgik_event_unsubscribe (next_subscription_id b) b1).2 in
  (vgik_event_subscribe ty (Some h) ud b).1 = next_subscription_id b /\
  1 <= next_subscription_id b /\
  subscriptions b1 = <[i:=new]> (subscriptions b) /\
  next_subscription_id b1 = next_subscription_id b + 1 /\
  (forall j t, (j < i)%nat -> subscriptions b !! j = Some t -> active t = true) /\
  queue b1 = queue b /\
  (vgik_event_unsubscribe (next_subscription_id b) b1).1 = 0 /\
  subscriptions b2 = <[i:=deactivate new]> (subscriptions b) /\
  (forall ev, deliveries ev (subscriptions b2) = deliveries ev (subscriptions b)) /\
  (vgik_event_unsubscribe (next_subscription_id b) b2).1 = -1.
Proof.
  intros (_ & _ & _ & _ & Hnext & Hids & _ & _) Hini Hroom Hfree. cbv zeta.
  destruct (first_inactive_Some _ _ Hfree) as [(s & Hs & Ha) Hbefore].
  pose proof (lookup_lt_Some _ _ _ Hs) as Hlt.
  set (new := mk_subscription (next_subscription_id b) ty (Some h) ud true).
  assert (vgik_event_subscribe ty (Some h) ud b =
            (next_subscription_id b,
             emit (LogSubscriptionCreated (next_subscription_id b) ty)
               (with_subscriptions (<[i:=new]> (subscriptions b))
                  (next_subscription_id b + 1) b))) as E1.
  { unfold vgik_event_subscribe. rewrite Hini, Hfree. cbn [negb].
    by rewrite int32_wrap_succ by lia. }
  rewrite E1. cbn [fst snd].
  set (b1 := emit _ (with_subscriptions (<[i:=new]> (subscriptions b)) _ b)).
  assert (find_active (next_subscription_id b) (<[i:=new]> (subscriptions b)) 0
          = Some i) as Hfind.
  { apply (find_active_unique _ _ i new).
    - by apply list_lookup_insert_eq.
    - done.
    - done.
    - intros j t Ht Hta Htid. destruct (decide (j = i)) as [|Hne]; [done|].
      rewrite list_lookup_insert_ne in Ht by done.
      destruct (Hids j t Ht Hta). lia. }
  assert (vgik_event_unsubscribe (next_subscription_id b) b1 =
            (0, emit (LogSubscriptionRemoved (next_subscription_id b))
                  (with_subscriptions (<[i:=deactivate new]> (subscriptions b))
                     (next_subscription_id b + 1) b1))) as E2.
  { unfold vgik_event_unsubscribe. cbn [b1 subscriptions emit with_subscriptions].
    rewrite Hfind. rewrite (alter_slot _ i new) by (by apply list_lookup_insert_eq).
    by rewrite list_insert_insert_eq. }
  rewrite E2. cbn [fst snd].
  cbn [b1 subscriptions next_subscription_id queue emit with_subscriptions].
  repeat split; try done.
  - intros ev. by apply (deliveries_inactive ev _ i s).
  - unfold vgik_event_unsubscribe. cbn [subscriptions emit with_subscriptions].
    destruct (find_active (next_subscription_id b)
                (<[i:=deactivate new]> (subscriptions b)) 0) as [j|] eqn:E; [|done].
    exfalso.
    destruct (find_active_Some _ _ _ E) as (t & Ht & Hta & Htid).
    destruct (decide (j = i)) as [->|Hne].
    + rewrite list_lookup_insert_eq in Ht by done. by simplify_eq.
    + rewrite list_lookup_insert_ne in Ht by done.
      destruct (Hids j t Ht Hta). lia.
Qed.

(** X22. [vgik_event_unsubscribe] marks exactly the slot of the active
    subscription with that id inactive, keeping what the slot holds, and
    leaves the queue alone: events that are still queued are not delivered
    to it any more. A second call with the id, or a call with an id that no
    active subscription carries, returns -1 and only writes the log line. *)
Theorem unsubscribe_removes_one sid b :
  bus_ok b ->
  (forall i s,
     subscriptions b !! i = Some s -> active s = true -> id s = sid ->
     (vgik_event_unsubscribe sid b).1 = 0 /\
     subscriptions (vgik_event_unsubscribe sid b).2
       = <[i:=deactivate s]> (subscriptions b) /\
     queue (vgik_event_unsubscribe sid b).2 = queue b /\
     handler_calls i
       (flat_map (fun ev => deliveries ev (subscriptions (vgik_event_unsubscribe sid b).2))
          (queue b)) = [] /\
     (vgik_event_unsubscribe sid (vgik_event_unsubscribe sid b).2).1 = -1) /\
  ((forall i s, subscriptions b !! i = Some s -> active s = true -> id s <> sid) ->
   vgik_event_unsubscribe sid b = (-1, emit (LogSubscriptionNotFound sid) b)).
Proof.
  intros (_ & _ & _ & _ & _ & _ & Hdist & _). split.
  - intros i s Hs Ha Hid.
    pose proof (lookup_lt_Some _ _ _ Hs) as Hlt.
    assert (find_active sid (subscriptions b) 0 = Some i) as Hfind.
    { apply (find_active_unique _ _ i s); try done.
      intros j t Ht Hta Htid. eapply Hdist; try done. congruence. }
    assert (vgik_event_unsubscribe sid b =
              (0, emit (LogSubscriptionRemoved sid)
                    (with_subscriptions (<[i:=deactivate s]> (subscriptions b))
                       (next_subscription_id b) b))) as E1.
    { unfold vgik_event_unsubscribe. rewrite Hfind.
      by rewrite (alter_slot _ i s) by done. }
    rewrite E1.
    cbn [fst snd subscriptions next_subscription_id queue emit with_subscriptions].
    split; [done|]. split; [done|]. split; [done|]. split.
    + induction (queue b) as [|ev q IH]; [done|]. cbn [flat_map].
      rewrite handler_calls_app, IH, app_nil_r.
      apply deliveries_skip. intros t Ht.
      rewrite list_lookup_insert_eq in Ht by done. by simplify_eq.
    + unfold vgik_event_unsubscribe. cbn [subscriptions emit with_subscriptions].
      destruct (find_active sid (<[i:=deactivate s]> (subscriptions b)) 0)
        as [j|] eqn:E; [|done].
      exfalso.
      destruct (find_active_Some _ _ _ E) as (t & Ht & Hta & Htid).
      destruct (decide (j = i)) as [->|Hne].
      * rewrite list_lookup_insert_eq in Ht by done. by simplify_eq.
      * rewrite list_lookup_insert_ne in Ht by done.
        apply Hne. eapply Hdist; try done. congruence.
  - intros Hnone. unfold vgik_event_unsubscribe.
    destruct (find_active sid (subscriptions b) 0) as [j|] eqn:E; [|done].
    destruct (find_active_Some _ _ _ E) as (t & Ht & Hta & Htid).
    by destruct (Hnone j t).
Qed.

(** *** Shutting the bus down *)

Lemma first_inactive_head (l : list (event_subscription_t World)) :
  Forall (fun s => active s = false) l -> l <> [] -> first_inactive l 0 = Some 0%nat.
Proof.
  intros Hall Hne. destruct l as [|s l]; [done|].
  apply list.Forall_cons in Hall as [Ha _]. simpl. by rewrite Ha.
Qed.

Lemma deactivate_all (l : list (event_subscription_t World)) :
  Forall (fun s => active s = false) (deactivate <$> l).
Proof. induction l; constructor; done. Qed.

(** X23. [vgik_events_deinit] on an initialised bus drops the queued events
    without invoking a handler, empties the node pool, marks every slot
    inactive and leaves [next_subscription_id] as it is. Afterwards a
    publish or a subscribe returns -1; once the bus is initialised again,
    and while [next_subscription_id] is below [INT_MAX], the next
    subscription takes slot 0 and is given the id that follows the last
    one handed out before, the counter moving on by one: ids are not
    reused. On a bus that is not initialised the call does nothing. *)
Theorem deinit_then_init ty h ud b :
  bus_ok b ->
  (initialized b = false -> vgik_events_deinit b = b) /\
  (initialized b = true ->
   let b' := vgik_events_deinit b in
   let b2 := (vgik_events_init b').2 in
   initialized b' = false /\
   queue b' = [] /\ vgik_events_queue_size b' = 0 /\ node_pool b' = 0%nat /\
   subscriptions b' = deactivate <$> subscriptions b /\
   next_subscription_id b' = next_subscription_id b /\
   world b' = world b /\
   trace b' = trace b ++ [LogDeinitialized] /\
   (forall event, vgik_event_publish get_timestamp malloc event b' = (-1, b')) /\
   vgik_event_subscribe ty (Some h) ud b' = (-1, b') /\
   (next_subscription_id b < INT_MAX ->
    (vgik_event_subscribe ty (Some h) ud b2).1 = next_subscription_id b /\
    subscriptions (vgik_event_subscribe ty (Some h) ud b2).2 !! 0%nat
      = Some (mk_subscription (next_subscription_id b) ty (Some h) ud true) /\
    next_subscription_id (vgik_event_subscribe ty (Some h) ud b2).2
      = next_subscription_id b + 1)).
Proof.
  intros (Hsz & _ & _ & Hslots & Hnext & _). split.
  { unfold vgik_events_deinit. by intros ->. }
  intros Hini. cbv zeta.
  assert (vgik_events_deinit b =
            mk_bus false (deactivate <$> subscriptions b) (next_subscription_id b)
              [] 0 0 (world b) (trace b ++ [LogDeinitialized])) as ->.
  { unfold vgik_events_deinit. rewrite Hini. cbn [negb]. cbv zeta.
    unfold vgik_events_clear. rewrite (clear_loop_spec (length (queue b)) b eq_refl).
    unfold size_ok in Hsz. unfold emit, with_initialized, with_subscriptions,
      with_pool, with_queue. cbn. f_equal. lia. }
  unfold vgik_events_queue_size. cbn [initialized queue queue_size node_pool
    subscriptions next_subscription_id world trace].
  split; [done|]. split; [done|]. split; [done|]. split; [done|].
  split; [done|]. split; [done|]. split; [done|]. split; [done|].
  split; [by intros [event|]|]. split; [done|]. intros Hroom.
  assert (first_inactive (deactivate <$> subscriptions b) 0 = Some 0%nat) as Hfirst.
  { apply first_inactive_head; [apply deactivate_all|].
    intros Hnil. apply (f_equal length) in Hnil. rewrite length_fmap, Hslots in Hnil.
    done. }
  unfold vgik_event_subscribe, vgik_events_init.
  cbn [initialized subscriptions next_subscription_id snd negb emit
       with_initialized with_subscriptions].
  rewrite Hfirst.
  cbn [fst snd subscriptions next_subscription_id emit with_subscriptions].
  split; [done|]. split; [|by apply int32_wrap_succ].
  apply list_lookup_insert_eq.
  rewrite length_fmap, Hslots. unfold VGIK_EVENTS_MAX_SUBSCRIPTIONS. lia.
Qed.

(** *** [vgik_event_publish_simple] *)

Lemma substring_length n s : (String.length (String.substring 0 n s) <= n)%nat.
Proof.
  revert n. induction s as [|c s IH]; intros [|n]; simpl; try lia.
  specialize (IH n). lia.
Qed.

Lemma substring_short n s :
  (String.length s <= n)%nat -> String.substring 0 n s = s.
Proof.
  revert n. induction s as [|c s IH]; intros [|n] H; simpl in *; try done; try lia.
  f_equal. apply IH. lia.
Qed.

Lemma publish_succeeds ev b :
  (forall size w, (malloc size w).1 = true) ->
  initialized b = true ->
  queue_size b < VGIK_EVENTS_QUEUE_SIZE ->
  exists b' stamp,
    vgik_event_publish get_timestamp malloc (Some ev) b = (0, b') /\
    queue b' = insert_by_priority (queued ev stamp) (queue b) /\
    queue_size b' = queue_size b + 1 /\
    subscriptions b' = subscriptions b /\
    trace b' = trace b.
Proof.
  intros Halloc Hini Hroom.
  destruct (enqueue_returns ev b Halloc Hroom) as [b' Henq].
  destruct (enqueue_success ev b b' Henq) as (stamp & H1 & H2 & _ & H3 & H4).
  destruct (enqueue_quiet ev b b' Henq) as (H5 & _).
  exists b', stamp. unfold vgik_event_publish. rewrite Hini, Henq. cbn [negb].
  rewrite bool_decide_eq_false_2 by (intros ?; done). done.
Qed.

(** X24. [vgik_event_publish_simple] builds the event and publishes it: when
    the bus is initialised, the queue has room and the allocations succeed,
    it returns 0 and the queue receives, at the place of its priority, an
    event of the given type and priority that carries the first [size]
    bytes of the payload and a source tag cut to 63 characters; the size
    is stored as given even when there is no payload. No handler is
    invoked. On a bus that is not initialised it returns -1. *)
Theorem publish_simple_queues ty prio payload size src b :
  (initialized b = true ->
   (forall sz w, (malloc sz w).1 = true) ->
   queue_size b < VGIK_EVENTS_QUEUE_SIZE ->
   exists b' stamp tag,
     vgik_event_publish_simple get_timestamp malloc ty prio payload size src b
       = (0, b') /\
     queue b' =
       insert_by_priority
         (mk_event ty prio stamp
            (match payload with
             | Some bytes =>
                 if bool_decide (size > 0) then Some (take (Z.to_nat size) bytes)
                 else None
             | None => None
             end) size tag) (queue b) /\
     queue_size b' = queue_size b + 1 /\
     subscriptions b' = subscriptions b /\
     trace b' = trace b /\
     (String.length tag <= 63)%nat /\
     tag = match src with
           | Some s => String.substring 0 63 s
           | None => EmptyString
           end /\
     (forall s, src = Some s -> (String.length s <= 63)%nat -> tag = s)) /\
  (initialized b = false ->
   (vgik_event_publish_simple get_timestamp malloc ty prio payload size src b).1 = -1 /\
   queue (vgik_event_publish_simple get_timestamp malloc ty prio payload size src b).2
     = queue b).
Proof.
  split.
  - intros Hini Halloc Hroom. unfold vgik_event_publish_simple.
    set (tag := match src with
                | Some s => String.substring 0 63 s
                | None => EmptyString
                end).
    assert ((String.length tag <= 63)%nat) as Hlen.
    { unfold tag. destruct src; [apply substring_length|simpl; lia]. }
    assert (forall s, src = Some s -> (String.length s <= 63)%nat -> tag = s) as Hshort.
    { intros s -> Hs. by apply substring_short. }
    destruct payload as [bytes|].
    + case_bool_decide as Hsz.
      * pose proof (Halloc size (world b)) as Hok.
        destruct (malloc size (world b)) as [ok w]. cbn in Hok. subst ok.
        destruct (publish_succeeds
                    (mk_event ty prio 0 (Some (take (Z.to_nat size) bytes)) size tag)
                    (with_world w b) Halloc Hini Hroom)
          as (b' & stamp & E & H1 & H2 & H3 & H4).
        exists b', stamp, tag. rewrite E. split; [done|].
        rewrite H1, H2, H3, H4. unfold queued. cbn.
        rewrite bool_decide_eq_true_2 by done.
        rewrite take_take, Nat.min_id. done.
      * destruct (publish_succeeds (mk_event ty prio 0 None size tag) b
                    Halloc Hini Hroom)
          as (b' & stamp & E & H1 & H2 & H3 & H4).
        exists b', stamp, tag. rewrite E. split; [done|].
        rewrite H1, H2, H3, H4. done.
    + destruct (publish_succeeds (mk_event ty prio 0 None size tag) b
                  Halloc Hini Hroom)
        as (b' & stamp & E & H1 & H2 & H3 & H4).
      exists b', stamp, tag. rewrite E. split; [done|].
      rewrite H1, H2, H3, H4. done.
  - intros Hini. unfold vgik_event_publish_simple, vgik_event_publish.
    destruct payload as [bytes|].
    + case_bool_decide.
      * destruct (malloc size (world b)) as [[] w]; cbn; by rewrite ?Hini.
      * cbn. by rewrite Hini.
    + cbn. by rewrite Hini.
Qed.

(** *** What every call maintains *)

Lemma bus_ok_frame b b' :
  initialized b' = initialized b ->
  subscriptions b' = subscriptions b ->
  next_subscription_id b' = next_subscription_id b ->
  queue b' = queue b ->
  queue_size b' = queue_size b ->
  bus_ok b -> bus_ok b'.
Proof.
  intros H1 H2 H3 H4 H5. unfold bus_ok, size_ok. by rewrite H1, H2, H3, H4, H5.
Qed.

Lemma bus_ok_emptied b b' :
  initialized b' = initialized b ->
  subscriptions b' = subscriptions b ->
  next_subscription_id b' = next_subscription_id b ->
  queue b' = [] ->
  queue_size b' = 0 ->
  bus_ok b -> bus_ok b'.
Proof.
  intros H1 H2 H3 H4 H5 (Hsz & Hd & Hlen & Hslots & Hnext & Hids & Hdist & Hoff).
  unfold bus_ok, size_ok. rewrite H1, H2, H3, H4, H5.
  split; [done|]. split; [constructor|]. split; [simpl; lia|].
  split; [done|]. split; [done|]. split; [done|]. split; [done|].
  intros Hi. split; [done|]. by apply Hoff.
Qed.

Lemma enqueue_frame ev b :
  subscriptions (enqueue_event get_timestamp malloc ev b).2 = subscriptions b /\
  next_subscription_id (enqueue_event get_timestamp malloc ev b).2
    = next_subscription_id b /\
  initialized (enqueue_event get_timestamp malloc ev b).2 = initialized b.
Proof.
  unfold enqueue_event, create_queue_node. case_bool_decide; [done|].
  destruct (node_pool b).
  - destruct (malloc _ _) as [[] w]; [|done].
    destruct (data ev); [|done]. case_bool_decide; [|done].
    cbn. by destruct (malloc _ _) as [[] w'].
  - destruct (data ev); [|done]. case_bool_decide; [|done].
    cbn. by destruct (malloc _ _) as [[] w'].
Qed.

Lemma bus_ok_publish event b :
  bus_ok b -> bus_ok (vgik_event_publish get_timestamp malloc event b).2.
Proof.
  intros Hok.
  pose proof Hok as (Hsz & Hd & Hlen & Hslots & Hnext & Hids & Hdist & Hoff).
  destruct (publish_invariant event b Hsz Hd) as [Hsz' Hd'].
  revert Hsz' Hd'. unfold vgik_event_publish.
  destruct event as [ev|]; [|done].
  destruct (initialized b) eqn:Hini; cbn [negb]; [|done].
  destruct (enqueue_frame ev b) as (F1 & F2 & F3).
  destruct (enqueue_event get_timestamp malloc ev b) as [ret b'] eqn:E.
  cbn [snd] in F1, F2, F3.
  assert ((length (queue b') <= 256)%nat) as Hlen'.
  { destruct (decide (ret = 0)) as [->|Hne].
    - destruct (enqueue_success ev b b' E) as (stamp & H1 & _ & H3 & _).
      rewrite H1, insert_length. unfold size_ok in Hsz.
      unfold VGIK_EVENTS_QUEUE_SIZE in H3. lia.
    - destruct (enqueue_outcome ev b) as [(stamp & H1 & _)|(_ & H2 & _)];
        rewrite E in *; cbn [fst snd] in *; [done|]. by rewrite H2. }
  intros Hsz' Hd'.
  assert (size_ok b' /\ descending (queue b')) as [S1 S2].
  { revert Hsz' Hd'. by case_bool_decide. }
  assert (bus_ok b') as Hok'; [|by case_bool_decide].
  unfold bus_ok. rewrite F1, F2, F3, Hini.
  split; [done|]. split; [done|]. split; [done|]. split; [done|].
  split; [done|]. split; [exact Hids|]. split; [exact Hdist|]. done.
Qed.

Lemma bus_ok_world w b : bus_ok b -> bus_ok (with_world w b).
Proof. by apply bus_ok_frame. Qed.

Lemma bus_performs_ok b c b' :
  bus_performs get_timestamp malloc b c b' -> bus_ok b -> bus_ok b'.
Proof.
  intros Hc Hok. destruct Hc.
  - (* init *)
    unfold vgik_events_init. destruct (initialized b) eqn:Hini; [done|].
    destruct Hok as (Hsz & Hd & Hlen & Hslots & Hnext & Hids & Hdist & Hoff).
    unfold bus_ok, size_ok. cbn.
    split; [done|]. split; [done|]. split; [done|]. split; [done|].
    split; [done|]. split; [exact Hids|]. split; [exact Hdist|]. done.
  - (* deinit *)
    unfold vgik_events_deinit. destruct (initialized b) eqn:Hini; [|done].
    cbn [negb]. unfold vgik_events_clear.
    rewrite (clear_loop_spec (length (queue b)) b eq_refl).
    destruct Hok as (Hsz & Hd & Hlen & Hslots & Hnext & Hids & Hdist & Hoff).
    unfold bus_ok, size_ok in *. cbn.
    split; [lia|]. split; [constructor|]. split; [lia|].
    split; [by rewrite length_fmap|]. split; [done|].
    assert (forall i s, (deactivate <$> subscriptions b) !! i = Some s ->
                        active s = true -> False) as Hnone.
    { intros i s Hs Ha. rewrite list_lookup_fmap in Hs.
      destruct (subscriptions b !! i); by simplify_eq/=. }
    split; [intros i s Hs Ha; by destruct (Hnone i s)|].
    split; [intros i j s t Hs _ Ha; by destruct (Hnone i s)|].
    intros _. split; [done|]. apply deactivate_all.
  - (* subscribe *)
    rename H into Hroom. unfold vgik_event_subscribe.
    destruct h as [h|]; [|done].
    destruct (initialized b) eqn:Hini; cbn [negb]; [|done].
    destruct (first_inactive (subscriptions b) 0) as [i|] eqn:Hfree.
    2:{ by apply (bus_ok_frame b). }
    destruct (first_inactive_Some _ _ Hfree) as [(s0 & Hs0 & Ha0) _].
    pose proof (lookup_lt_Some _ _ _ Hs0) as Hlt.
    destruct Hok as (Hsz & Hd & Hlen & Hslots & Hnext & Hids & Hdist & Hoff).
    rewrite int32_wrap_succ by lia.
    unfold bus_ok, size_ok in *. cbn.
    split; [done|]. split; [done|]. split; [done|].
    split; [by rewrite length_insert|]. split; [lia|].
    assert (forall j s,
              <[i:=mk_subscription (next_subscription_id b) ty (Some h) ud true]>
                (subscriptions b) !! j = Some s ->
              active s = true ->
              (j = i /\ id s = next_subscription_id b) \/
              (j <> i /\ subscriptions b !! j = Some s /\
               1 <= id s < next_subscription_id b)) as Hslot.
    { intros j s Hs Ha. destruct (decide (j = i)) as [->|Hne].
      - rewrite list_lookup_insert_eq in Hs by done. left. by simplify_eq.
      - rewrite list_lookup_insert_ne in Hs by done. right.
        split; [done|]. split; [done|]. by eapply Hids. }
    split; [|split].
    + intros j s Hs Ha. destruct (Hslot j s Hs Ha) as [[_ ->]|(_ & _ & ?)]; lia.
    + intros j k s t Hs Ht Ha Hta Hid.
      destruct (Hslot j s Hs Ha) as [[-> Hj]|(Hj & Hs' & Hjid)];
        destruct (Hslot k t Ht Hta) as [[-> Hk]|(Hk & Ht' & Hkid)];
        try done; try lia.
      by eapply Hdist.
    + rewrite Hini. done.
  - (* unsubscribe *)
    unfold vgik_event_unsubscribe.
    destruct (find_active sid (subscriptions b) 0) as [i|] eqn:Hfind.
    2:{ by apply (bus_ok_frame b). }
    destruct (find_active_Some _ _ _ Hfind) as (s0 & Hs0 & Ha0 & Hid0).
    pose proof (lookup_lt_Some _ _ _ Hs0) as Hlt.
    destruct Hok as (Hsz & Hd & Hlen & Hslots & Hnext & Hids & Hdist & Hoff).
    unfold bus_ok, size_ok in *. cbn.
    rewrite (alter_slot _ i s0) by done.
    split; [done|]. split; [done|]. split; [done|].
    split; [by rewrite length_insert|]. split; [done|].
    assert (forall j s,
              <[i:=deactivate s0]> (subscriptions b) !! j = Some s ->
              active s = true ->
              j <> i /\ subscriptions b !! j = Some s) as Hslot.
    { intros j s Hs Ha. destruct (decide (j = i)) as [->|Hne].
      - rewrite list_lookup_insert_eq in Hs by done. by simplify_eq.
      - rewrite list_lookup_insert_ne in Hs by done. done. }
    split; [|split].
    + intros j s Hs Ha. destruct (Hslot j s Hs Ha) as [_ Hs']. by eapply Hids.
    + intros j k s t Hs Ht Ha Hta Hid.
      destruct (Hslot j s Hs Ha) as [_ Hs'].
      destruct (Hslot k t Ht Hta) as [_ Ht']. by eapply Hdist.
    + intros Hini. destruct (Hoff Hini) as [Hq Hall]. split; [done|].
      rewrite Forall_lookup in Hall. by rewrite (Hall i s0 Hs0) in Ha0.
  - (* publish *)
    by apply bus_ok_publish.
  - (* publish_simple *)
    unfold vgik_event_publish_simple.
    destruct payload as [bytes|]; [|by apply bus_ok_publish].
    case_bool_decide; [|by apply bus_ok_publish].
    destruct (malloc size (world b)) as [[] w].
    + by apply bus_ok_publish, bus_ok_world.
    + by apply bus_ok_world.
  - (* process *)
    unfold vgik_events_process. destruct (initialized b) eqn:Hini; cbn [negb]; [|done].
    destruct (process_loop_calls (length (queue b)) 0 b eq_refl)
      as (H1 & _ & H3 & H4 & _).
    destruct (process_loop_trace (length (queue b)) 0 b eq_refl)
      as (T0 & _ & T2 & _).
    apply (bus_ok_emptied b); try done.
    rewrite H3. destruct Hok as (Hsz & _). unfold size_ok in Hsz. lia.
  - (* clear *)
    unfold vgik_events_clear.
    rewrite (clear_loop_spec (length (queue b)) b eq_refl).
    apply (bus_ok_emptied b); try done.
    cbn. destruct Hok as (Hsz & _). unfold size_ok in Hsz. lia.
  - (* the world moves on *)
    by apply bus_ok_world.
Qed.

Lemma bus_ok_g_events (w : World) : bus_ok (g_events w).
Proof.
  unfold bus_ok, size_ok, g_events.
  cbn [queue queue_size subscriptions next_subscription_id initialized length].
  split; [done|]. split; [constructor|]. split; [lia|].
  split; [by rewrite length_replicate|]. split; [done|].
  assert (forall i s,
            replicate VGIK_EVENTS_MAX_SUBSCRIPTIONS (@empty_slot World) !! i = Some s ->
            active s = true -> False) as Hnone.
  { intros i s Hs Ha. apply lookup_replicate in Hs as [-> _]. done. }
  split; [intros i s Hs Ha; by destruct (Hnone i s)|].
  split; [intros i j s t Hs _ Ha; by destruct (Hnone i s)|].
  intros _. split; [done|]. by apply Forall_replicate.
Qed.

(** X25. The bus starts in a state in which [queue_size] counts a queue that is
    in descending order of priority and holds at most 256 events, the
    active subscriptions carry distinct positive ids below
    [next_subscription_id], and nothing is queued or subscribed while the
    bus is not initialised; whatever functions of the header are called, in
    whatever order and with whatever arguments, this stays so. *)
Theorem bus_invariant w cs b' :
  bus_performs_all get_timestamp malloc (g_events w) cs b' -> bus_ok b'.
Proof.
  pose proof (bus_ok_g_events w) as Hstart.
  revert Hstart. generalize (g_events w). intros b Hok Hrun.
  induction Hrun as [b|b c b1 cs b2 Hc _ IH]; [done|].
  apply IH. by eapply bus_performs_ok.
Qed.

End Facts.

Lemma publish_when_full_witness :
  exists b',
    vgik_event_publish BusScenario.clock BusScenario.malloc
      (Some (BusScenario.event VGIK_EVENT_CONFIG_CHANGED VGIK_EVENT_PRIORITY_CRITICAL "cfg"))
      BusScenario.full = (-1, b') /\
    queue b' = queue BusScenario.full /\
    queue_size b' = 256.
Proof.
  destruct (publish_when_full Z BusScenario.clock BusScenario.malloc
              (BusScenario.event VGIK_EVENT_CONFIG_CHANGED VGIK_EVENT_PRIORITY_CRITICAL "cfg")
              BusScenario.full)
    as ((b' & H1 & H2 & H3 & _) & _); [reflexivity|reflexivity|].
  exists b'. split; [exact H1|]. split; [exact H2|exact H3].
Defined.



(** The buses of the scenarios are reached through the interface. *)
Lemma bus_ok_started : bus_ok BusScenario.started.
Proof.
  exact (bus_performs_ok Z BusScenario.clock BusScenario.malloc _ _ _
           (bus_performs_init Z BusScenario.clock BusScenario.malloc (g_events 7))
           (bus_ok_g_events Z 7)).
Qed.

Lemma bus_ok_listening : bus_ok BusScenario.listening.
Proof.
  refine (bus_performs_ok Z BusScenario.clock BusScenario.malloc _ _ _
            (bus_performs_subscribe Z BusScenario.clock BusScenario.malloc
               VGIK_EVENT_CUSTOM (Some BusScenario.quiet) 0 BusScenario.started _)
            bus_ok_started).
  vm_compute. reflexivity.
Qed.



Lemma clear_discards_witness :
  queue (vgik_events_clear BusScenario.mixed) = [] /\
  trace (vgik_events_clear BusScenario.mixed) = trace BusScenario.mixed.
Proof.
  assert (size_ok BusScenario.mixed) as Hsz by (vm_compute; reflexivity).
  destruct (clear_discards Z BusScenario.mixed Hsz) as (H1 & _ & H2 & _).
  split; [exact H1|exact H2].
Defined.

Lemma publish_allocation_witness :
  (vgik_event_publish BusScenario.clock BusScenario.no_memory
     (Some BusScenario.first_high) BusScenario.spare).1 = 0.
Proof.
  assert (initialized BusScenario.spare = true) as Hini by (vm_compute; reflexivity).
  assert (queue_size BusScenario.spare < VGIK_EVENTS_QUEUE_SIZE) as Hroom
    by (vm_compute; reflexivity).
  assert (node_pool BusScenario.spare = 1%nat) as Hpool by (vm_compute; reflexivity).
  destruct (publish_allocation Z BusScenario.clock BusScenario.no_memory
              BusScenario.first_high BusScenario.spare Hini Hroom) as [H _].
  rewrite (H 0%nat Hpool (or_introl eq_refl)). reflexivity.
Defined.


Lemma subscribe_then_unsubscribe_witness :
  (vgik_event_subscribe VGIK_EVENT_CUSTOM (Some BusScenario.quiet) 0
     BusScenario.started).1 = 1 /\
  (vgik_event_unsubscribe 1
     (vgik_event_subscribe VGIK_EVENT_CUSTOM (Some BusScenario.quiet) 0
        BusScenario.started).2).1 = 0.
Proof.
  assert (initialized BusScenario.started = true) as Hini
    by (vm_compute; reflexivity).
  assert (first_inactive (subscriptions BusScenario.started) 0 = Some 0%nat)
    as Hfree by (vm_compute; reflexivity).
  assert (next_subscription_id BusScenario.started < INT_MAX) as Hroom
    by (vm_compute; reflexivity).
  pose proof (subscribe_then_unsubscribe Z VGIK_EVENT_CUSTOM BusScenario.quiet 0
                BusScenario.started 0 bus_ok_started Hini Hroom Hfree) as H.
  cbv zeta in H. destruct H as (H1 & _ & _ & _ & _ & _ & H7 & _).
  split; [exact H1|exact H7].
Defined.

Lemma unsubscribe_removes_one_witness :
  (vgik_event_unsubscribe 1 BusScenario.listening).1 = 0 /\
  (vgik_event_unsubscribe 1 (vgik_event_unsubscribe 1 BusScenario.listening).2).1 = -1.
Proof.
  assert (subscriptions BusScenario.listening !! 0%nat = Some BusScenario.listener)
    as Hsub by (vm_compute; reflexivity).
  destruct (unsubscribe_removes_one Z 1 BusScenario.listening bus_ok_listening)
    as [H _].
  destruct (H 0%nat BusScenario.listener Hsub eq_refl eq_refl)
    as (H1 & _ & _ & _ & H5).
  split; [exact H1|exact H5].
Defined.

Lemma deinit_then_init_witness :
  (vgik_event_subscribe VGIK_EVENT_CUSTOM (Some BusScenario.quiet) 0
     (vgik_events_init (vgik_events_deinit BusScenario.listening)).2).1 = 2.
Proof.
  assert (initialized BusScenario.listening = true) as Hini
    by (vm_compute; reflexivity).
  destruct (deinit_then_init Z BusScenario.clock BusScenario.malloc
              VGIK_EVENT_CUSTOM BusScenario.quiet 0 BusScenario.listening
              bus_ok_listening) as [_ H].
  assert (next_subscription_id BusScenario.listening < INT_MAX) as Hroom
    by (vm_compute; reflexivity).
  specialize (H Hini). cbv zeta in H.
  destruct H as (_ & _ & _ & _ & _ & _ & _ & _ & _ & _ & H).
  destruct (H Hroom) as (H1 & _).
  etrans; [exact H1|]. vm_compute. reflexivity.
Defined.

Lemma publish_simple_queues_witness :
  exists b',
    vgik_event_publish_simple BusScenario.clock BusScenario.malloc
      VGIK_EVENT_CONFIG_CHANGED VGIK_EVENT_PRIORITY_HIGH (Some [1; 2; 3]) 2
      (Some "cfg"%string) BusScenario.started = (0, b') /\
    queue_size b' = 1.
Proof.
  assert (initialized BusScenario.started = true) as Hini
    by (vm_compute; reflexivity).
  assert (queue_size BusScenario.started < VGIK_EVENTS_QUEUE_SIZE) as Hroom
    by (vm_compute; reflexivity).
  destruct (publish_simple_queues Z BusScenario.clock BusScenario.malloc
              VGIK_EVENT_CONFIG_CHANGED VGIK_EVENT_PRIORITY_HIGH (Some [1; 2; 3]) 2
              (Some "cfg"%string) BusScenario.started) as [H _].
  destruct (H Hini (fun _ _ => eq_refl) Hroom)
    as (b' & stamp & tag & H1 & _ & H2 & _).
  exists b'. split; [exact H1|]. rewrite H2. vm_compute. reflexivity.
Defined.

Lemma bus_invariant_witness :
  bus_ok
    (vgik_event_publish BusScenario.clock BusScenario.malloc
       (Some BusScenario.first_high)
       (vgik_event_subscribe VGIK_EVENT_CUSTOM (Some BusScenario.quiet) 0
          (vgik_events_init (g_events 7)).2).2).2.
Proof.
  apply (bus_invariant Z BusScenario.clock BusScenario.malloc 7
           [BusInit; BusSubscribe VGIK_EVENT_CUSTOM (Some BusScenario.quiet) 0;
            BusPublish (Some BusScenario.first_high)]).
  eapply bus_performs_cons; [apply bus_performs_init|].
  eapply bus_performs_cons.
  { apply bus_performs_subscribe. vm_compute. reflexivity. }
  eapply bus_performs_cons; [apply bus_performs_publish|].
  apply bus_performs_nil.
Defined.

End EventsFacts.
